(** * green_cli: authenticators and the auth-handler resolution loop

    A shallow embedding of [green_cli/authenticator.py] and of the
    resolution loop of [green_cli/green.py], followed by the properties
    the design document states about them.

    Conventions of the embedding.
    - Python values that travel as parsed JSON (statuses, device actions,
      utxo descriptors, hwi device descriptions) are values of [json].
    - A Python call that may raise returns a [res]; code that touches the
      file system or the console runs in the monad [M] over [world].
    - The [world] also holds what the program finds and cannot choose:
      whether its process overrides the permission checks on files, and
      what the medium does with the data written to a file.
    - [str] is modelled as [string], one [ascii] per code point (so the
      code points 0..255 are covered).
    - Libraries the program calls (gdk, wallycore, hwilib) are interfaces:
      type classes whose operations the theorems quantify over. *)

From Stdlib Require Import ZArith NArith List Ascii String Lia.
From Stdlib Require Strings.Byte.
From stdpp Require Import base option gmap strings list pretty.

Set Warnings "-register-all".

Local Open Scope string_scope.
Local Open Scope Z_scope.

(** ** Python values *)

Module Py.

(** A parsed JSON value. [green.py] makes [json.loads] build ordered
    dictionaries, so an object is the list of its entries in order; the
    keys of a parsed object are distinct, and a lookup takes the first
    entry with the key. Numbers are the integers (no status, device
    action or utxo field the program reads is fractional). *)
Inductive json : Type :=
| JNull
| JBool (b : bool)
| JInt (z : Z)
| JStr (s : string)
| JArr (l : list json)
| JObj (kvs : list (string * json)).

Definition bytes : Type := list Byte.byte.

(** The exceptions the embedded code raises or lets through. *)
Inductive exn : Type :=
| RuntimeError (payload : json)
| NotImplementedError (msg : string)
| ClickException (msg : string)
| PermissionError (path : string)
| FileNotFoundError (path : string)
| OSError (path : string)
| KeyError (key : string)
| IndexError
| TypeError
| ValueError
| EOFError
| OverflowError
| AttributeError (attr : string)
| LibraryError (origin : string) (detail : json).

Inductive res (A : Type) : Type :=
| Ok (a : A)
| Raise (e : exn).
Arguments Ok {A} a.
Arguments Raise {A} e.

#[global] Instance res_ret : MRet res := fun _ a => Ok a.
#[global] Instance res_bind : MBind res := fun _ _ f m =>
  match m with Ok a => f a | Raise e => Raise e end.

(** [except IOError]: [IOError] is [OSError], of which the two file errors
    are subclasses. *)
Definition is_IOError (e : exn) : bool :=
  match e with
  | PermissionError _ | FileNotFoundError _ | OSError _ => true
  | _ => false
  end.

(** Truth value of an object, as tested by [if x:], [x or y], [not x]. *)
Definition truthy (v : json) : bool :=
  match v with
  | JNull => false
  | JBool b => b
  | JInt z => negb (z =? 0)
  | JStr s => negb (String.eqb s "")
  | JArr l => match l with [] => false | _ => true end
  | JObj kvs => match kvs with [] => false | _ => true end
  end.

Fixpoint assoc (k : string) (kvs : list (string * json)) : option json :=
  match kvs with
  | [] => None
  | (k', v) :: rest => if String.eqb k k' then Some v else assoc k rest
  end.

(** [d[k]] on a parsed object. *)
Definition getitem (d : json) (k : string) : res json :=
  match d with
  | JObj kvs => match assoc k kvs with Some v => Ok v | None => Raise (KeyError k) end
  | _ => Raise TypeError
  end.

(** [k in d] for a dict. *)
Definition contains (d : json) (k : string) : res bool :=
  match d with
  | JObj kvs => Ok (match assoc k kvs with Some _ => true | None => false end)
  | JArr l => Ok (existsb (fun v => match v with JStr s => String.eqb s k | _ => false end) l)
  | JStr s => Ok (match index 0 k s with Some _ => true | None => false end)
  | _ => Raise TypeError
  end.

(** [v == s] for a string literal [s]. *)
Definition eq_str (v : json) (s : string) : bool :=
  match v with JStr s' => String.eqb s' s | _ => false end.

(** [v in [z1, z2, ...]] for a list of int literals. *)
Definition in_ints (v : json) (zs : list Z) : bool :=
  match v with
  | JInt z => existsb (Z.eqb z) zs
  | JBool b => existsb (Z.eqb (if b then 1 else 0)) zs
  | _ => false
  end.

(** [len(v)]. *)
Definition len (v : json) : res Z :=
  match v with
  | JArr l => Ok (Z.of_nat (length l))
  | JObj kvs => Ok (Z.of_nat (length kvs))
  | JStr s => Ok (Z.of_nat (String.length s))
  | _ => Raise TypeError
  end.

Definition chars (s : string) : list json :=
  map (fun c => JStr (String c "")) (list_ascii_of_string s).

(** The items a [for] loop (or [enumerate]) visits. *)
Definition iter (v : json) : res (list json) :=
  match v with
  | JArr l => Ok l
  | JObj kvs => Ok (map (fun kv => JStr (fst kv)) kvs)
  | JStr s => Ok (chars s)
  | _ => Raise TypeError
  end.

(** [l[i]] on a sequence, negative indices counting from the end. *)
Definition index_list (l : list json) (i : Z) : res json :=
  let n := Z.of_nat (length l) in
  let j := if i <? 0 then i + n else i in
  if (j <? 0) || (n <=? j) then Raise IndexError
  else match l !! Z.to_nat j with Some v => Ok v | None => Raise IndexError end.

Definition getindex (v : json) (i : Z) : res json :=
  match v with
  | JArr l => index_list l i
  | JStr s => index_list (chars s) i
  | JObj kvs => Raise (KeyError (pretty i))
  | _ => Raise TypeError
  end.

End Py.
Export Py.

(** ** Strings: the [str] methods and [json.dumps] *)

Module Str.

Definition code (c : ascii) : N := N_of_ascii c.

(** [c.isspace()] on the code points 0..255. *)
Definition isspace (c : ascii) : bool :=
  let n := code c in
  (((9 <=? n) && (n <=? 13)) || ((28 <=? n) && (n <=? 32))
   || (n =? 133) || (n =? 160))%N.

Definition starts_word (s : string) : bool :=
  match s with
  | EmptyString => true
  | String c _ => isspace c
  end.

(** [s.split()]: the maximal runs of non-whitespace characters. *)
Fixpoint split (s : string) : list string :=
  match s with
  | EmptyString => []
  | String c s' =>
      if isspace c then split s'
      else if starts_word s' then String c "" :: split s'
      else match split s' with
           | w :: ws => String c w :: ws
           | [] => [String c ""]
           end
  end.

(** [sep.join(ws)]. *)
Fixpoint join (sep : string) (ws : list string) : string :=
  match ws with
  | [] => ""
  | [w] => w
  | w :: ws' => w ++ sep ++ join sep ws'
  end.

Definition dquote : string := String "034"%char "".
Definition backslash : string := String "092"%char "".
Definition newline : string := String "010"%char "".

Definition hexdigit (n : N) : ascii :=
  match n with
  | 0 => "0" | 1 => "1" | 2 => "2" | 3 => "3" | 4 => "4" | 5 => "5"
  | 6 => "6" | 7 => "7" | 8 => "8" | 9 => "9" | 10 => "a" | 11 => "b"
  | 12 => "c" | 13 => "d" | 14 => "e" | _ => "f"
  end%char%N.

(** One character of a JSON string literal, [ensure_ascii=True]. *)
Definition escape_char (c : ascii) : string :=
  let n := code c in
  if (n =? 34)%N then backslash ++ dquote
  else if (n =? 92)%N then backslash ++ backslash
  else if (n =? 10)%N then backslash ++ "n"
  else if (n =? 13)%N then backslash ++ "r"
  else if (n =? 9)%N then backslash ++ "t"
  else if (n =? 8)%N then backslash ++ "b"
  else if (n =? 12)%N then backslash ++ "f"
  else if ((32 <=? n) && (n <=? 126))%N then String c ""
  else backslash ++ "u00" ++ String (hexdigit (n / 16)) (String (hexdigit (n mod 16)) "").

Fixpoint escape (s : string) : string :=
  match s with
  | EmptyString => ""
  | String c s' => escape_char c ++ escape s'
  end.

Definition quote (s : string) : string := dquote ++ escape s ++ dquote.

(** [json.dumps(v)] with the default separators. *)
Fixpoint dumps (v : json) : string :=
  match v with
  | JNull => "null"
  | JBool true => "true"
  | JBool false => "false"
  | JInt z => pretty z
  | JStr s => quote s
  | JArr l => "[" ++ join ", " (List.map dumps l) ++ "]"
  | JObj kvs =>
      "{" ++ join ", " (List.map (fun kv => let '(k, x) := kv in quote k ++ ": " ++ dumps x) kvs)
          ++ "}"
  end.

End Str.

(** ** The world: file system and console *)

Record file : Type := File { content : string; mode : N }.

(** What becomes of the data of [open(path, 'w').write(data)]. The data
    stays in the buffers of the file object, which is dropped at the end of
    the statement; the buffers are flushed then, and an error of that flush
    (a full disk, an exhausted quota, an I/O error) is discarded by the
    interpreter: the statement returns normally although only the first
    [reached] characters are in the file. Data too large for the buffers is
    written through by [write] itself, which then raises the error. *)
Inductive fate : Type :=
| Written
| Dropped (reached : nat)
| Failed (reached : nat).

Record world : Type := World {
  fs : gmap string file;   (* path |-> file *)
  umask : N;               (* the process's file mode creation mask *)
  privileged : bool;       (* the process overrides the permission checks on
                              files: it runs as root *)
  medium : string -> string -> fate;
                           (* what becomes of [data] written to [path] *)
  stdin : list string;     (* the lines the user will type *)
  stdout : list string     (* what has been written, oldest first *)
}.

Definition set_fs (w : world) (m : gmap string file) : world :=
  {| fs := m; umask := umask w; privileged := privileged w;
     medium := medium w; stdin := stdin w; stdout := stdout w |}.

Definition M (A : Type) : Type := world -> res A * world.

#[global] Instance M_ret : MRet M := fun _ a w => (Ok a, w).
#[global] Instance M_bind : MBind M := fun _ _ f m w =>
  match m w with
  | (Ok a, w') => f a w'
  | (Raise e, w') => (Raise e, w')
  end.

Definition raise {A} (e : exn) : M A := fun w => (Raise e, w).
Definition lift {A} (r : res A) : M A := fun w => (r, w).

(** [try: body except <handles>: handler]. *)
Definition try_except {A} (body : M A) (handles : exn -> bool) (handler : exn -> M A) : M A :=
  fun w =>
    match body w with
    | (Ok a, w') => (Ok a, w')
    | (Raise e, w') => if handles e then handler e w' else (Raise e, w')
    end.

Module Os.

(** The files are those of the configuration directory, which [green]
    creates for the user who runs it, and files that user names on the
    command line: regular files of that user, on a POSIX system. Whether
    the process overrides the permission checks, and what the medium does
    with a write, are part of the [world]. *)

(** [stat.S_IRUSR], [stat.S_IWUSR] and the mode [open] creates files with. *)
Definition S_IRUSR : N := 256.
Definition S_IWUSR : N := 128.
Definition creation_mode (mask : N) : N := N.ldiff 438 mask.

Definition readable (f : file) : bool := negb (N.land (mode f) S_IRUSR =? 0)%N.
Definition writable (f : file) : bool := negb (N.land (mode f) S_IWUSR =? 0)%N.

(** The permission check of [open]: the owner's bit, which a privileged
    process overrides. *)
Definition may_read (w : world) (f : file) : bool := privileged w || readable f.
Definition may_write (w : world) (f : file) : bool := privileged w || writable f.

Definition is_cr (c : ascii) : bool := (N_of_ascii c =? 13)%N.
Definition is_lf (c : ascii) : bool := (N_of_ascii c =? 10)%N.

(** The newline translation of a file read in text mode: a carriage
    return, with the line feed that follows it if there is one, is read as
    one line feed. *)
Fixpoint universal_newlines (s : string) : string :=
  match s with
  | EmptyString => ""
  | String c s' =>
      if is_cr c then
        String "010"%char
          match s' with
          | EmptyString => ""
          | String c' s'' =>
              if is_lf c' then universal_newlines s'' else universal_newlines s'
          end
      else String c (universal_newlines s')
  end.

(** What a text mode reader gets of a file. *)
Definition text (f : file) : string := universal_newlines (content f).

Fixpoint take (n : nat) (s : string) : string :=
  match n, s with
  | S n', String c s' => String c (take n' s')
  | _, _ => ""
  end.

(** [open(path, 'w')]: truncate an existing file the process may write,
    create a missing one. *)
Definition open_w (path : string) : M unit := fun w =>
  match fs w !! path with
  | Some f =>
      if may_write w f
      then (Ok tt, set_fs w (<[path := File "" (mode f)]> (fs w)))
      else (Raise (PermissionError path), w)
  | None => (Ok tt, set_fs w (<[path := File "" (creation_mode (umask w))]> (fs w)))
  end.

(** [.write(data)] on the file object [open_w] returned, which is dropped
    at the end of the statement. What reaches the file is for the medium to
    say; only a write that goes through at once can raise. On a POSIX
    system the text is written as it is. *)
Definition write (path : string) (data : string) : M unit := fun w =>
  match fs w !! path with
  | Some f =>
      let holding (d : string) :=
        set_fs w (<[path := File (content f ++ d) (mode f)]> (fs w)) in
      match medium w path data with
      | Written => (Ok tt, holding data)
      | Dropped reached => (Ok tt, holding (take reached data))
      | Failed reached => (Raise (OSError path), holding (take reached data))
      end
  | None => (Raise (FileNotFoundError path), w)
  end.

(** [open(path).read()], in text mode. *)
Definition read (path : string) : M string := fun w =>
  match fs w !! path with
  | Some f => if may_read w f then (Ok (text f), w) else (Raise (PermissionError path), w)
  | None => (Raise (FileNotFoundError path), w)
  end.

(** [os.chmod(path, mode)]. *)
Definition chmod (path : string) (m : N) : M unit := fun w =>
  match fs w !! path with
  | Some f => (Ok tt, set_fs w (<[path := File (content f) m]> (fs w)))
  | None => (Raise (FileNotFoundError path), w)
  end.

(** [os.remove(path)]. *)
Definition remove (path : string) : M unit := fun w =>
  match fs w !! path with
  | Some _ => (Ok tt, set_fs w (delete path (fs w)))
  | None => (Raise (FileNotFoundError path), w)
  end.

Definition ends_with_slash (s : string) : bool :=
  match rev (list_ascii_of_string s) with
  | c :: _ => Ascii.eqb c "/"
  | [] => false
  end.

(** [os.path.join(dir, name)] for a relative [name]. *)
Definition path_join (dir name : string) : string :=
  if String.eqb dir "" then name
  else if ends_with_slash dir then dir ++ name
  else dir ++ "/" ++ name.

End Os.

Module Console.

(** [print(s)]. *)
Definition print (s : string) : M unit := fun w =>
  (Ok tt, {| fs := fs w; umask := umask w; privileged := privileged w;
             medium := medium w; stdin := stdin w;
             stdout := stdout w ++ [s ++ Str.newline] |}).

(** [input(prompt)]. *)
Definition input (prompt : string) : M string := fun w =>
  match stdin w with
  | line :: rest =>
      (Ok line, {| fs := fs w; umask := umask w; privileged := privileged w;
                   medium := medium w; stdin := rest;
                   stdout := stdout w ++ [prompt] |})
  | [] =>
      (Raise EOFError, {| fs := fs w; umask := umask w; privileged := privileged w;
                          medium := medium w; stdin := [];
                          stdout := stdout w ++ [prompt] |})
  end.

End Console.

(** ** Library interfaces *)

(** Builtins whose full definition is outside the program: [str] on
    containers, [int] on text, [base64.b64decode]. *)
Class PyLib : Type := {
  str_container : json -> string;
  int_of_str : string -> res Z;
  b64decode : json -> res bytes
}.

(** [str(v)], as [format] applies it to an argument. *)
Definition str {pylib : PyLib} (v : json) : string :=
  match v with
  | JStr s => s
  | JInt z => pretty z
  | JBool true => "True"
  | JBool false => "False"
  | JNull => "None"
  | JArr _ | JObj _ => str_container v
  end.

(** The [GA_auth_handler] objects of the [greenaddress] module.
    [auth_handler_get_status] stands for
    [json.loads(gdk.auth_handler_get_status(h))]; the three calls that
    advance a handler return its next state. *)
Class AuthHandler : Type := {
  auth_handler : Type;
  auth_handler_get_status : auth_handler -> res json;
  auth_handler_request_code : auth_handler -> json -> res auth_handler;
  auth_handler_resolve_code : auth_handler -> string -> res auth_handler;
  auth_handler_call : auth_handler -> res auth_handler
}.

(** The session calls of the [greenaddress] module. *)
Class Gdk {handlers : AuthHandler} : Type := {
  session : Type;
  gdk_login : session -> string -> string -> string -> res auth_handler;
  gdk_login_with_pin : session -> string -> string -> res unit;
  gdk_register_user : session -> string -> string -> res auth_handler;
  gdk_validate_mnemonic : string -> bool;
  gdk_set_pin : session -> string -> string -> string -> res string
}.

(** The [wallycore] module: its constants and the primitives the
    authenticator calls. [bip32_key_from_parent] is the derivation of one
    child. *)
Class Wally : Type := {
  hdkey : Type;
  wally_tx : Type;
  BIP32_VER_TEST_PRIVATE : Z;
  BIP32_FLAG_KEY_PRIVATE : Z;
  BIP32_FLAG_KEY_PUBLIC : Z;
  BITCOIN_MESSAGE_FLAG_HASH : Z;
  EC_FLAG_ECDSA : Z;
  EC_FLAG_GRIND_R : Z;
  WALLY_TX_FLAG_USE_WITNESS : Z;
  WALLY_SIGHASH_ALL : Z;
  bip39_mnemonic_to_seed512 : string -> res bytes;
  bip32_key_from_seed : bytes -> Z -> Z -> res hdkey;
  bip32_key_from_parent : hdkey -> Z -> Z -> res hdkey;
  bip32_key_to_base58 : hdkey -> Z -> res string;
  bip32_key_get_priv_key : hdkey -> res bytes;
  format_bitcoin_message : bytes -> Z -> res bytes;
  ec_sig_from_bytes : bytes -> bytes -> Z -> res bytes;
  ec_sig_to_der : bytes -> res bytes;
  hex_from_bytes : bytes -> res string;
  hex_to_bytes : json -> res bytes;
  tx_from_hex : json -> Z -> res wally_tx;
  tx_get_btc_signature_hash : wally_tx -> nat -> bytes -> json -> Z -> Z -> res bytes
}.

(** The [hwilib.commands] module. *)
Class Hwi : Type := {
  hwi_client : Type;
  hwi_enumerate : res (list json);
  hwi_find_device : json -> res hwi_client;
  hwi_getxpub : hwi_client -> string -> res json;
  hwi_signmessage : hwi_client -> json -> string -> res json
}.

Fixpoint foldM {A B} (f : A -> B -> res A) (a : A) (l : list B) : res A :=
  match l with
  | [] => Ok a
  | b :: l' => a' ← f a b; foldM f a' l'
  end.

Definition uint32 (z : Z) : Prop := 0 <= z < 2 ^ 32.

Definition as_uint32 (v : json) : res Z :=
  match v with
  | JInt z => if (0 <=? z) && (z <? 2 ^ 32) then Ok z else Raise OverflowError
  | _ => Raise TypeError
  end.

(** A Python list of ints handed to a C function taking [uint32_t *]. *)
Definition as_uint32_list (v : json) : res (list Z) :=
  match v with
  | JArr l => mapM as_uint32 l
  | _ => Raise TypeError
  end.

(** Modelled from the spec: [wally.bip32_key_from_parent_path] belongs to
    libwally, not to this repository. The design document describes the
    derivation as going through the hierarchy one index at a time; an empty
    path is an invalid argument for the library call, which is why
    [derive_key] tests for it before calling. *)
Definition bip32_key_from_parent_path {wally : Wally} (parent : hdkey) (path : json) (flags : Z)
  : res hdkey :=
  p ← as_uint32_list path;
  match p with
  | [] => Raise ValueError
  | _ => foldM (fun k i => bip32_key_from_parent k i flags) parent p
  end.

Definition byte_of_N (n : N) : Byte.byte :=
  match Byte.of_N n with Some b => b | None => Byte.x00 end.

(** [s.encode('utf-8')] for code points below 256. *)
Definition utf8_encode (s : string) : bytes :=
  flat_map (fun c =>
    let n := Str.code c in
    if (n <? 128)%N then [byte_of_N n]
    else [byte_of_N (192 + n / 64); byte_of_N (128 + n mod 64)])
    (list_ascii_of_string s).

(** [bytearray.append(v)]. *)
Definition bytearray_append (b : bytes) (v : Z) : res bytes :=
  if (0 <=? v) && (v <? 256) then Ok (b ++ [byte_of_N (Z.to_N v)])%list else Raise ValueError.

(** ** authenticator.py

    The classes in the order of the file. A method that several classes
    define carries the name of its class ([HardwareDevice_resolve],
    [WallyAuthenticator_sign_tx]). A method of a base class that reads a
    property its subclasses define takes that property as an argument; the
    dispatch on the concrete class follows the classes. Calls to [logging]
    are left out, except where evaluating their arguments can raise. *)

Section Authenticators.
Context {pylib : PyLib} {handlers : AuthHandler} {gdk : Gdk} {wally : Wally} {hwi : Hwi}.

(** [class Authenticator] *)
Definition Authenticator_login (hw_device mnemonic password : M string) (session_obj : session)
  : M auth_handler :=
  hw ← hw_device;
  mn ← mnemonic;
  pw ← password;
  lift (gdk_login session_obj hw mn pw).

Definition Authenticator_register (hw_device mnemonic : M string) (session_obj : session)
  : M auth_handler :=
  hw ← hw_device;
  mn ← mnemonic;
  lift (gdk_register_user session_obj hw mn).

(** [class MnemonicOnDisk] *)
Definition mnemonic_filename (config_dir : string) : string :=
  Os.path_join config_dir "mnemonic".

Definition _mnemonic (config_dir : string) : M string :=
  Os.read (mnemonic_filename config_dir).

Definition refusing_to_overwrite (filename : string) : string :=
  "Refusing to overwrite mnemonic file " ++ filename ++ Str.newline
  ++ "First backup and then delete or change file permissions".

Definition is_PermissionError (e : exn) : bool :=
  match e with PermissionError _ => true | _ => false end.

Definition _mnemonic_setter (config_dir : string) (mnemonic : string) : M unit :=
  let filename := mnemonic_filename config_dir in
  try_except
    (Os.open_w filename ;; Os.write filename mnemonic)
    is_PermissionError
    (fun _ => raise (ClickException (refusing_to_overwrite filename))) ;;
  Os.chmod filename Os.S_IRUSR.

(** [class SoftwareAuthenticator] *)
Definition SoftwareAuthenticator_hw_device : M string := mret (Str.dumps (JObj [])).
Definition SoftwareAuthenticator_mnemonic (config_dir : string) : M string :=
  _mnemonic config_dir.
Definition SoftwareAuthenticator_password : M string := mret "".

Definition setmnemonic (config_dir : string) (mnemonic : string) : M unit :=
  let mnemonic := Str.join " " (Str.split mnemonic) in
  if negb (gdk_validate_mnemonic mnemonic)
  then raise (ClickException "Invalid mnemonic")
  else _mnemonic_setter config_dir mnemonic.

(** [class DefaultAuthenticator] *)
Definition pin_data_filename (config_dir : string) : string :=
  Os.path_join config_dir "pin_data".

Definition DefaultAuthenticator_login (config_dir : string) (session_obj : session)
  : M (option auth_handler) :=
  try_except
    (h ← Authenticator_login SoftwareAuthenticator_hw_device
           (SoftwareAuthenticator_mnemonic config_dir)
           SoftwareAuthenticator_password session_obj;
     mret (Some h))
    is_IOError
    (fun _ =>
       pin_data ← try_except (Os.read (pin_data_filename config_dir)) is_IOError
                    (fun e => Console.print "Login failed, please call create" ;; raise e);
       pin ← Console.input "PIN: ";
       lift (gdk_login_with_pin session_obj pin pin_data) ;;
       mret None).

Definition setpin (config_dir : string) (session_obj : session) (pin device_id : string)
  : M string :=
  mn ← SoftwareAuthenticator_mnemonic config_dir;
  Console.print ("mnemnic: " ++ mn) ;;
  Console.print ("pin: " ++ pin) ;;
  Console.print ("device_id: " ++ device_id) ;;
  mn ← SoftwareAuthenticator_mnemonic config_dir;
  pin_data ← lift (gdk_set_pin session_obj mn pin device_id);
  (Os.open_w (pin_data_filename config_dir) ;;
   Os.write (pin_data_filename config_dir) pin_data) ;;
  Os.remove (mnemonic_filename config_dir) ;;
  mret pin_data.

(** [class HardwareDevice] *)
Definition device_descriptor (name : string) : json :=
  JObj [("device", JObj [("name", JStr name)])].

Definition HardwareDevice_hw_device (name : res string) : M string :=
  n ← lift name;
  mret (Str.dumps (device_descriptor n)).
Definition HardwareDevice_mnemonic : M string := mret "".
Definition HardwareDevice_password : M string := mret "".

Definition HardwareDevice_resolve (name : res string)
    (get_xpub : json -> M json) (sign_message : json -> json -> M bytes)
    (sign_tx : json -> M string) (details : json) : M string :=
  lift name ;;
  details ← lift (getitem details "required_data");
  action ← lift (getitem details "action");
  if eq_str action "get_xpubs" then
    paths ← lift (getitem details "paths");
    paths ← lift (iter paths);
    xpubs ← mapM get_xpub paths;
    mret (Str.dumps (JObj [("xpubs", JArr xpubs)]))
  else
    action ← lift (getitem details "action");
    if eq_str action "sign_message" then
      lift (getitem details "path") ;;
      message ← lift (getitem details "message");
      path ← lift (getitem details "path");
      signature ← sign_message path message;
      signature_hex ← lift (hex_from_bytes signature);
      mret (Str.dumps (JObj [("signature", JStr signature_hex)]))
    else
      action ← lift (getitem details "action");
      if eq_str action "sign_tx" then sign_tx details
      else
        action ← lift (getitem details "action");
        raise (NotImplementedError
                 ("action = " ++ Str.dquote ++ str action ++ Str.dquote)).

(** [class WallyAuthenticator] *)
Definition WallyAuthenticator_name : res string := Ok "libwally software signer".

Definition master_key (config_dir : string) : M hdkey :=
  mn ← _mnemonic config_dir;
  seed ← lift (bip39_mnemonic_to_seed512 mn);
  lift (bip32_key_from_seed seed BIP32_VER_TEST_PRIVATE BIP32_FLAG_KEY_PRIVATE).

Definition derive_key (config_dir : string) (path : json) : M hdkey :=
  if negb (truthy path) then master_key config_dir
  else
    mk ← master_key config_dir;
    lift (bip32_key_from_parent_path mk path BIP32_FLAG_KEY_PRIVATE).

Definition WallyAuthenticator_get_xpub (config_dir : string) (path : json) : M json :=
  k ← derive_key config_dir path;
  xpub ← lift (bip32_key_to_base58 k BIP32_FLAG_KEY_PUBLIC);
  mret (JStr xpub).

Definition get_privkey (config_dir : string) (path : json) : M bytes :=
  k ← derive_key config_dir path;
  lift (bip32_key_get_priv_key k).

Definition WallyAuthenticator_sign_message (config_dir : string) (path message : json)
  : M bytes :=
  message ← lift (match message with
                  | JStr s => Ok (utf8_encode s)
                  | _ => Raise (AttributeError "encode")
                  end);
  formatted ← lift (format_bitcoin_message message BITCOIN_MESSAGE_FLAG_HASH);
  privkey ← get_privkey config_dir path;
  signature ← lift (ec_sig_from_bytes privkey formatted
                      (Z.lor EC_FLAG_ECDSA EC_FLAG_GRIND_R));
  lift (ec_sig_to_der signature).

Definition segwit_script_types : list Z := [14; 15; 159; 162].

(** The body of the [for] loop of [sign_tx]: the signature of one input. *)
Definition sign_input (config_dir : string) (txdetails : json) (index : nat) (utxo : json)
  : M json :=
  txhex ← lift (getitem txdetails "transaction");
  wtx ← lift (tx_from_hex txhex WALLY_TX_FLAG_USE_WITNESS);
  script_type ← lift (getitem utxo "script_type");
  let is_segwit := in_ints script_type segwit_script_types in
  if negb is_segwit then raise (NotImplementedError "Non-segwit input")
  else
    let flags := if is_segwit then WALLY_TX_FLAG_USE_WITNESS else 0 in
    script ← lift (getitem utxo "prevout_script");
    prevout_script ← lift (hex_to_bytes script);
    satoshi ← lift (getitem utxo "satoshi");
    txhash ← lift (tx_get_btc_signature_hash wtx index prevout_script satoshi
                     WALLY_SIGHASH_ALL flags);
    path ← lift (getitem utxo "user_path");
    privkey ← get_privkey config_dir path;
    signature ← lift (ec_sig_from_bytes privkey txhash
                        (Z.lor EC_FLAG_ECDSA EC_FLAG_GRIND_R));
    signature ← lift (ec_sig_to_der signature);
    signature ← lift (bytearray_append signature WALLY_SIGHASH_ALL);
    signature_hex ← lift (hex_from_bytes signature);
    mret (JStr signature_hex).

(** [for index, utxo in enumerate(utxos)], [signatures] being the list
    built so far. *)
Fixpoint sign_inputs (config_dir : string) (txdetails : json) (index : nat)
    (utxos : list json) (signatures : list json) : M (list json) :=
  match utxos with
  | [] => mret signatures
  | utxo :: rest =>
      signature ← sign_input config_dir txdetails index utxo;
      sign_inputs config_dir txdetails (S index) rest (signatures ++ [signature])
  end.

Definition WallyAuthenticator_sign_tx (config_dir : string) (details : json) : M string :=
  txdetails ← lift (getitem details "transaction");
  used ← lift (getitem txdetails "used_utxos");
  utxos ← (if truthy used then mret used else lift (getitem txdetails "old_used_utxos"));
  utxos ← lift (iter utxos);
  signatures ← sign_inputs config_dir txdetails 0 utxos [];
  mret (Str.dumps (JObj [("signatures", JArr signatures)])).

(** [class HWIDevice] *)
Definition _path_to_string (path : json) : res string :=
  elems ← iter path;
  Ok (Str.join "/" ("m" :: List.map str elems)).

Definition HWIDevice_name (details : json) : res string :=
  ty ← getitem details "type";
  path ← getitem details "path";
  Ok (str ty ++ "@" ++ str path).

Definition HWIDevice_get_xpub (_device : hwi_client) (path : json) : M json :=
  path ← lift (_path_to_string path);
  r ← lift (hwi_getxpub _device path);
  lift (getitem r "xpub").

Definition HWIDevice_sign_message (details : json) (_device : hwi_client)
    (path message : json) : M bytes :=
  path ← lift (_path_to_string path);
  name ← lift (HWIDevice_name details);
  Console.print ("Signing with hardware device " ++ name) ;;
  Console.print "Please check the device for interaction" ;;
  r ← lift (hwi_signmessage _device message path);
  signature ← lift (getitem r "signature");
  raw ← lift (b64decode signature);
  lift (ec_sig_to_der (tail raw)).

Definition HWIDevice_sign_tx (details : json) : M string :=
  raise (NotImplementedError "hwi sign tx not implemented").

Definition no_hwi_devices : string :=
  "No hwi devices" ++ Str.newline
  ++ "Check:" ++ Str.newline
  ++ "- A device is attached" ++ Str.newline
  ++ "- udev rules, device drivers, etc." ++ Str.newline
  ++ "- Cables/connections" ++ Str.newline
  ++ "- The device is enabled, for example by entering a PIN" ++ Str.newline.

Definition error_with_hwi_device (err : json) : string :=
  "Error with hwi device: " ++ str err ++ Str.newline
  ++ "Check the device and activate the bitcoin app if necessary".

(** The objects [get_authenticator] can return. *)
Inductive authenticator : Type :=
| IsDefault (config_dir : string)
| IsWally (config_dir : string)
| IsHWI (details : json) (_device : hwi_client).

(** [HWIDevice.__init__] *)
Definition HWIDevice_init (details : json) : res authenticator :=
  path ← getitem details "path";
  dev ← hwi_find_device path;
  Ok (IsHWI details dev).

Definition get_device : res authenticator :=
  devices ← hwi_enumerate;
  if (length devices =? 0)%nat then Raise (ClickException no_hwi_devices)
  else if (1 <? length devices)%nat
  then Raise (NotImplementedError "Device selection not implemented")
  else
    device ← index_list devices 0;
    has_error ← contains device "error";
    if has_error : bool then
      err ← getitem device "error";
      Raise (ClickException (error_with_hwi_device err))
    else HWIDevice_init device.

(** *** Method dispatch on the concrete class *)

Definition name (a : authenticator) : res string :=
  match a with
  | IsDefault _ => Raise (AttributeError "name")
  | IsWally _ => WallyAuthenticator_name
  | IsHWI details _ => HWIDevice_name details
  end.

Definition hw_device (a : authenticator) : M string :=
  match a with
  | IsDefault _ => SoftwareAuthenticator_hw_device
  | IsWally _ | IsHWI _ _ => HardwareDevice_hw_device (name a)
  end.

Definition mnemonic (a : authenticator) : M string :=
  match a with
  | IsDefault config_dir => SoftwareAuthenticator_mnemonic config_dir
  | IsWally _ | IsHWI _ _ => HardwareDevice_mnemonic
  end.

Definition password (a : authenticator) : M string :=
  match a with
  | IsDefault _ => SoftwareAuthenticator_password
  | IsWally _ | IsHWI _ _ => HardwareDevice_password
  end.

Definition login (a : authenticator) (session_obj : session) : M (option auth_handler) :=
  match a with
  | IsDefault config_dir => DefaultAuthenticator_login config_dir session_obj
  | IsWally _ | IsHWI _ _ =>
      h ← Authenticator_login (hw_device a) (mnemonic a) (password a) session_obj;
      mret (Some h)
  end.

Definition register (a : authenticator) (session_obj : session) : M auth_handler :=
  Authenticator_register (hw_device a) (mnemonic a) session_obj.

Definition resolve (a : authenticator) (details : json) : M string :=
  match a with
  | IsDefault _ => raise (AttributeError "resolve")
  | IsWally config_dir =>
      HardwareDevice_resolve (name a) (WallyAuthenticator_get_xpub config_dir)
        (WallyAuthenticator_sign_message config_dir)
        (WallyAuthenticator_sign_tx config_dir) details
  | IsHWI dev_details dev =>
      HardwareDevice_resolve (name a) (HWIDevice_get_xpub dev)
        (HWIDevice_sign_message dev_details dev) HWIDevice_sign_tx details
  end.

(** [get_authenticator] of green.py *)
Definition get_authenticator (auth : json) (config_dir : string) : res authenticator :=
  if eq_str auth "hardware" then get_device
  else if eq_str auth "wally" then Ok (IsWally config_dir)
  else Ok (IsDefault config_dir).

End Authenticators.

(** ** green.py: the two factor resolver and the resolution loop *)

(** A call the resolution loop makes to the backend or to one of its
    collaborators. The loop is instrumented with the list of the calls it
    has made, oldest first; the collaborators cannot see that list. *)
Inductive call : Type :=
| GetStatus
| SelectAuthFactor (methods : json)
| RequestCode (factor : json)
| AuthenticatorResolve (status : json)
| TwoFactorResolve (status : json)
| ResolveCode (resolution : string)
| AdvanceCall.

Record run : Type := Run { calls : list call; run_world : world }.

Definition T (A : Type) : Type := run -> res A * run.

#[global] Instance T_ret : MRet T := fun _ a s => (Ok a, s).
#[global] Instance T_bind : MBind T := fun _ _ f m s =>
  match m s with
  | (Ok a, s') => f a s'
  | (Raise e, s') => (Raise e, s')
  end.

Definition record (c : call) : T unit := fun s =>
  (Ok tt, {| calls := calls s ++ [c]; run_world := run_world s |}).

Definition in_world {A} (m : M A) : T A := fun s =>
  let '(r, w') := m (run_world s) in
  (r, {| calls := calls s; run_world := w' |}).

Definition pure {A} (r : res A) : T A := fun s => (r, s).

Section Green.
Context {pylib : PyLib} {handlers : AuthHandler} {gdk : Gdk} {wally : Wally} {hwi : Hwi}.

(** [class TwoFactorResolver] *)
Fixpoint print_factors (i : nat) (factors : list json) : M unit :=
  match factors with
  | [] => mret tt
  | factor :: rest =>
      Console.print (pretty i ++ ") " ++ str factor) ;;
      print_factors (S i) rest
  end.

Definition select_auth_factor (factors : json) : M json :=
  n ← lift (len factors);
  if 1 <? n then
    items ← lift (iter factors);
    print_factors 0 items ;;
    line ← Console.input "Select factor: ";
    i ← lift (int_of_str line);
    lift (getindex factors i)
  else lift (getindex factors 0).

Definition enter_2fa_code (action method attempts_remaining : json) : string :=
  "Enter 2fa code for action '" ++ str action ++ "' sent by " ++ str method
  ++ " (" ++ str attempts_remaining ++ " attempts remaining): ".

Definition TwoFactorResolver_resolve (details : json) : M string :=
  action ← lift (getitem details "action");
  method ← lift (getitem details "method");
  attempts_remaining ← lift (getitem details "attempts_remaining");
  Console.input (enter_2fa_code action method attempts_remaining).

(** What [_gdk_resolve] uses of the global [context]: a two factor
    resolver and an authenticator, each an object with the methods called
    on it. *)
Record TwoFactor : Type := {
  twofac_select_auth_factor : json -> M json;
  twofac_resolve : json -> M string
}.

Record Context : Type := {
  twofac_resolver : TwoFactor;
  context_authenticator_resolve : json -> M string
}.

Definition TwoFactorResolver : TwoFactor :=
  {| twofac_select_auth_factor := select_auth_factor;
     twofac_resolve := TwoFactorResolver_resolve |}.

(** The context [green] builds: the console resolver and the selected
    authenticator. *)
Definition make_context (a : authenticator) : Context :=
  {| twofac_resolver := TwoFactorResolver;
     context_authenticator_resolve := resolve a |}.

(** How one pass through the body of [while True] ends. *)
Inductive step : Type :=
| Return (result : json)
| Continue (h : auth_handler).

Definition _gdk_resolve_body (context : Context) (auth_handler : auth_handler) : T step :=
  record GetStatus ;;
  status ← pure (auth_handler_get_status auth_handler);
  state ← pure (getitem status "status");
  if eq_str state "error" then pure (Raise (RuntimeError status))
  else if eq_str state "done" then
    result ← pure (getitem status "result");
    mret (Return result)
  else if eq_str state "request_code" then
    methods ← pure (getitem status "methods");
    record (SelectAuthFactor methods) ;;
    authentication_factor ←
      in_world (twofac_select_auth_factor (twofac_resolver context) methods);
    record (RequestCode authentication_factor) ;;
    h ← pure (auth_handler_request_code auth_handler authentication_factor);
    mret (Continue h)
  else if eq_str state "resolve_code" then
    device ← pure (getitem status "device");
    resolution ←
      (if truthy device
       then record (AuthenticatorResolve status) ;;
            in_world (context_authenticator_resolve context status)
       else record (TwoFactorResolve status) ;;
            in_world (twofac_resolve (twofac_resolver context) status));
    record (ResolveCode resolution) ;;
    h ← pure (auth_handler_resolve_code auth_handler resolution);
    mret (Continue h)
  else if eq_str state "call" then
    record AdvanceCall ;;
    h ← pure (auth_handler_call auth_handler);
    mret (Continue h)
  else mret (Continue auth_handler).

(** [while True: body], from the run state [s]. [None] when the loop is
    still running after [fuel] passes. *)
Fixpoint _gdk_resolve_loop (fuel : nat) (context : Context) (auth_handler : auth_handler)
    (s : run) : option (res json * run) :=
  match fuel with
  | O => None
  | S fuel' =>
      match _gdk_resolve_body context auth_handler s with
      | (Ok (Return result), s') => Some (Ok result, s')
      | (Ok (Continue h), s') => _gdk_resolve_loop fuel' context h s'
      | (Raise e, s') => Some (Raise e, s')
      end
  end.

Definition _gdk_resolve (fuel : nat) (context : Context) (auth_handler : auth_handler)
    (w : world) : option (res json * run) :=
  _gdk_resolve_loop fuel context auth_handler {| calls := []; run_world := w |}.

End Green.

(** ** The rest of authenticator.py and green.py *)

(** [gdk.generate_mnemonic()]: the phrase is the backend's choice. *)
Class GdkMnemonic : Type := {
  gdk_generate_mnemonic : res string
}.

(** [sys.stdin.read()]: all that is left of the input, each line with its
    end of line. *)
Definition stdin_read : M string := fun w =>
  (Ok (Str.join "" (List.map (fun line => line ++ Str.newline) (stdin w))),
   {| fs := fs w; umask := umask w; privileged := privileged w;
      medium := medium w; stdin := []; stdout := stdout w |}).

(** [s.replace(a, b)] for single characters. *)
Fixpoint replace_char (a b : ascii) (s : string) : string :=
  match s with
  | EmptyString => ""
  | String c s' => String (if Ascii.eqb c a then b else c) (replace_char a b s')
  end.

(** [s.lstrip(c)], [s.rstrip(c)] and [s.strip(c)] for one character. *)
Fixpoint lstrip (c : ascii) (s : string) : string :=
  match s with
  | EmptyString => ""
  | String a s' => if Ascii.eqb a c then lstrip c s' else s
  end.

Fixpoint rstrip (c : ascii) (s : string) : string :=
  match s with
  | EmptyString => ""
  | String a s' =>
      match rstrip c s' with
      | EmptyString => if Ascii.eqb a c then "" else String a ""
      | r => String a r
      end
  end.

Definition strip (c : ascii) (s : string) : string := rstrip c (lstrip c s).

(** [d[k] = v] on an ordered dictionary: a key that is there keeps its
    place, a new key goes last. *)
Fixpoint dict_set (kvs : list (string * json)) (k : string) (v : json)
  : list (string * json) :=
  match kvs with
  | [] => [(k, v)]
  | (k', v') :: rest =>
      if String.eqb k k' then (k', v) :: rest else (k', v') :: dict_set rest k v
  end.

Fixpoint spaces (n : nat) : string :=
  match n with
  | O => ""
  | S n' => String " " (spaces n')
  end.

(** [json.dumps(v, indent=None, separators=(',', ':'))] when [compact],
    [json.dumps(v, indent=2)] otherwise, at nesting depth [level]. *)
Fixpoint dumps_format (compact : bool) (level : nat) (v : json) : string :=
  let break (n : nat) := if compact then "" else Str.newline ++ spaces (2 * n) in
  let key_separator := if compact then ":" else ": " in
  match v with
  | JNull => "null"
  | JBool true => "true"
  | JBool false => "false"
  | JInt z => pretty z
  | JStr s => Str.quote s
  | JArr [] => "[]"
  | JArr l =>
      "[" ++ break (S level)
      ++ Str.join ("," ++ break (S level)) (List.map (dumps_format compact (S level)) l)
      ++ break level ++ "]"
  | JObj [] => "{}"
  | JObj kvs =>
      "{" ++ break (S level)
      ++ Str.join ("," ++ break (S level))
           (List.map (fun kv => let '(k, x) := kv in
                                Str.quote k ++ key_separator
                                ++ dumps_format compact (S level) x) kvs)
      ++ break level ++ "}"
  end.

Section More.
Context {pylib : PyLib} {handlers : AuthHandler} {gdk : Gdk} {mnemonics : GdkMnemonic}
        {wally : Wally} {hwi : Hwi}.

(** [SoftwareAuthenticator.create] *)
Definition SoftwareAuthenticator_create (config_dir : string) (session_obj : session)
  : M auth_handler :=
  mn ← lift gdk_generate_mnemonic;
  _mnemonic_setter config_dir mn ;;
  Authenticator_register SoftwareAuthenticator_hw_device
    (SoftwareAuthenticator_mnemonic config_dir) session_obj.

(** [WallyAuthenticator.create] *)
Definition WallyAuthenticator_create (config_dir : string) (session_obj : session)
  : M auth_handler :=
  mn ← lift gdk_generate_mnemonic;
  _mnemonic_setter config_dir mn ;;
  Authenticator_register (HardwareDevice_hw_device WallyAuthenticator_name)
    HardwareDevice_mnemonic session_obj.

(** [context.authenticator.create(...)], [.setmnemonic(...)] and
    [.setpin(...)] on the concrete class; a class without the method gives
    an [AttributeError]. *)
Definition create (a : authenticator) (session_obj : session) : M auth_handler :=
  match a with
  | IsDefault config_dir => SoftwareAuthenticator_create config_dir session_obj
  | IsWally config_dir => WallyAuthenticator_create config_dir session_obj
  | IsHWI _ _ => raise (AttributeError "create")
  end.

Definition authenticator_setmnemonic (a : authenticator) (mnemonic : string) : M unit :=
  match a with
  | IsDefault config_dir => setmnemonic config_dir mnemonic
  | IsWally _ | IsHWI _ _ => raise (AttributeError "setmnemonic")
  end.

Definition authenticator_setpin (a : authenticator) (session_obj : session)
    (pin device_id : string) : M string :=
  match a with
  | IsDefault config_dir => setpin config_dir session_obj pin device_id
  | IsWally _ | IsHWI _ _ => raise (AttributeError "setpin")
  end.

(** The [setmnemonic] command of green.py. *)
Definition setmnemonic_command (a : authenticator) (mnemonic : string) : M unit :=
  mnemonic ←
    (if String.eqb mnemonic "-" then stdin_read
     else try_except (Os.read mnemonic) is_IOError (fun _ => mret mnemonic));
  authenticator_setmnemonic a mnemonic.

(** [with_login(fn)] called with the flag [context.logged_in]; the flag
    after the call comes with the outcome. The context is the one built
    for the authenticator [a]. [None] when the resolution of the login is
    still running after [fuel] passes. *)
Definition with_login {A} (fuel : nat) (a : authenticator) (session_obj : session)
    (fn : M A) (logged_in : bool) (w : world) : option (res A * bool * world) :=
  if logged_in then
    let '(r, w') := fn w in Some (r, true, w')
  else
    match login a session_obj w with
    | (Raise e, w1) => Some (Raise e, false, w1)
    | (Ok None, w1) => let '(r, w2) := fn w1 in Some (r, true, w2)
    | (Ok (Some h), w1) =>
        match _gdk_resolve fuel (make_context a) h w1 with
        | None => None
        | Some (Raise e, s) => Some (Raise e, false, run_world s)
        | Some (Ok _, s) => let '(r, w2) := fn (run_world s) in Some (r, true, w2)
        end
    end.

(** [_format_output] *)
Definition _format_output (compact : bool) (value : json) : string :=
  strip "034"%char (dumps_format compact 0 value).

(** [details_json], on [ctx.params] and the name of the parameter; the
    parameters after the call come with the outcome. [JNull] is [None]. *)
Definition details_json (params : list (string * json)) (param_name : string) (value : json)
  : res json * list (string * json) :=
  match value with
  | JNull => (Ok value, params)
  | _ =>
      let params' :=
        match assoc "details" params with
        | Some _ => params
        | None => dict_set params "details" (JObj [])
        end in
      let name := replace_char "-" "_" param_name in
      match assoc "details" params' with
      | Some (JObj details) =>
          (Ok value, dict_set params' "details" (JObj (dict_set details name value)))
      | _ => (Raise TypeError, params')
      end
  end.

(** The loop of [_get_transaction]. *)
Fixpoint find_transaction (txid : string) (transactions : list json) : res json :=
  match transactions with
  | [] => Raise (ClickException "Previous transaction not found")
  | transaction :: rest =>
      txhash ← getitem transaction "txhash";
      if eq_str txhash txid then Ok transaction else find_transaction txid rest
  end.

(** [_get_transaction], over what [session.get_transactions()] returns. *)
Definition _get_transaction (get_transactions : res json) (txid : string) : res json :=
  transactions ← get_transactions;
  transactions ← iter transactions;
  find_transaction txid transactions.

End More.

(** * Notions the properties are stated with *)

(** A path is write-protected when a file is there that the process may
    not write; it is unprotected when no file is there or the process may
    write the one that is. *)
Definition unprotected (w : world) (path : string) : Prop :=
  forall f, fs w !! path = Some f -> Os.may_write w f = true.

Definition protected (w : world) (path : string) : Prop :=
  exists f, fs w !! path = Some f /\ Os.may_write w f = false.

(** The medium takes [data] written to [path]: all of it reaches the file. *)
Definition takes (w : world) (path data : string) : Prop :=
  medium w path data = Written.

(** What of [data] the medium lets into the file at [path]. *)
Definition let_through (w : world) (path data : string) : string :=
  match medium w path data with
  | Written => data
  | Dropped reached | Failed reached => Os.take reached data
  end.

(** The world once [phrase] is stored as the mnemonic of [config_dir]. *)
Definition stored (config_dir : string) (w : world) (phrase : string) : world :=
  set_fs w (<[mnemonic_filename config_dir := File phrase Os.S_IRUSR]> (fs w)).

(** The files once [setpin] has returned: the pin data in its file (with
    mode [m]), the mnemonic file gone. *)
Definition migrated (config_dir : string) (w : world) (pin_data : string) (m : N)
  : gmap string file :=
  delete (mnemonic_filename config_dir)
    (<[pin_data_filename config_dir := File pin_data m]> (fs w)).

(** [' '.join(s.split())], the normalisation [setmnemonic] applies. *)
Definition normalize (s : string) : string := Str.join " " (Str.split s).

Fixpoint no_space (s : string) : bool :=
  match s with
  | EmptyString => true
  | String c s' => negb (Str.isspace c) && no_space s'
  end.

(** A word: not empty, and free of whitespace. *)
Definition word (s : string) : Prop := s <> "" /\ no_space s = true.

(** A derivation path as the program receives it: a list of ints. *)
Definition path_of (p : list Z) : json := JArr (List.map JInt p).

(** Deriving [path] starting from the key [k]: what [derive_key] does
    starting from the master key. *)
Definition derive_from {wally : Wally} (k : hdkey) (path : json) : res hdkey :=
  if negb (truthy path) then Ok k
  else bip32_key_from_parent_path k path BIP32_FLAG_KEY_PRIVATE.

(** The variants whose keys sit behind the hardware device interface. *)
Definition device_backed {hwi : Hwi} (a : authenticator) : bool :=
  match a with
  | IsDefault _ => false
  | IsWally _ | IsHWI _ _ => true
  end.

(** An input [sign_tx] signs: its [script_type] is one of the listed
    witness script types. *)
Definition witness_bearing (utxo : json) : bool :=
  match getitem utxo "script_type" with
  | Ok t => in_ints t segwit_script_types
  | Raise _ => false
  end.

(** The handler [h] reports [status], whose [status] entry is [state]. *)
Definition reports {handlers : AuthHandler} (h : auth_handler) (state : string)
    (status : json) : Prop :=
  auth_handler_get_status h = Ok status /\ getitem status "status" = Ok (JStr state).

(** The run state after the calls [cs] have been made and the world has
    become [w]. *)
Definition advanced (s : run) (cs : list call) (w : world) : run :=
  {| calls := calls s ++ cs; run_world := w |}.

(** The collaborator a [resolve_code] status is handed to, and the call
    recorded for it. *)
Definition delegate (context : Context) (status device : json) : M string :=
  if truthy device then context_authenticator_resolve context status
  else twofac_resolve (twofac_resolver context) status.

Definition delegation (status device : json) : call :=
  if truthy device then AuthenticatorResolve status else TwoFactorResolve status.

(** The loop gets from handler state [h] and run state [s] to [h'] and
    [s'] by passes that go on to a next pass. *)
Inductive reaches {handlers : AuthHandler} (context : Context)
  : auth_handler -> run -> auth_handler -> run -> Prop :=
| reaches_here h s : reaches context h s h s
| reaches_pass h s h1 s1 h' s' :
    _gdk_resolve_body context h s = (Ok (Continue h1), s1) ->
    reaches context h1 s1 h' s' ->
    reaches context h s h' s'.

(** The inputs [sign_tx] goes through for a request: [used_utxos], or
    [old_used_utxos] when that one is empty. *)
Definition input_list (details : json) : res (list json) :=
  txdetails ← getitem details "transaction";
  used ← getitem txdetails "used_utxos";
  utxos ← (if truthy used then Ok used else getitem txdetails "old_used_utxos");
  iter utxos.

(** The lines [select_auth_factor] prints for the factors, numbered from
    [i]. *)
Fixpoint factor_lines {pylib : PyLib} (i : nat) (factors : list json) : list string :=
  match factors with
  | [] => []
  | factor :: rest =>
      ((pretty i ++ ") " ++ str factor) ++ Str.newline) :: factor_lines (S i) rest
  end.

(** The world after [lines] have been written and the input has become
    [rest]. *)
Definition console (w : world) (rest : list string) (lines : list string) : world :=
  {| fs := fs w; umask := umask w; privileged := privileged w;
     medium := medium w; stdin := rest; stdout := stdout w ++ lines |}.

(** The states [_gdk_resolve] has a branch for. *)
Definition known_states : list string :=
  ["error"; "done"; "request_code"; "resolve_code"; "call"].

(** A string [json.dumps] writes as it is between the quotes: printable
    ASCII, no double quote, no backslash. *)
Definition plain_char (c : ascii) : bool :=
  let n := Str.code c in
  ((32 <=? n) && (n <=? 126) && negb (n =? 34) && negb (n =? 92))%N.

Fixpoint plain (s : string) : bool :=
  match s with
  | EmptyString => true
  | String c s' => plain_char c && plain s'
  end.

(** No character of [s] is [c]. *)
Fixpoint free_of (c : ascii) (s : string) : bool :=
  match s with
  | EmptyString => true
  | String a s' => negb (Ascii.eqb a c) && free_of c s'
  end.

(** A computation that leaves the world as it found it. *)
Definition read_only {A} (m : M A) : Prop := forall w, snd (m w) = w.

(** The actions [HardwareDevice.resolve] has a branch for. *)
Definition known_actions : list string := ["get_xpubs"; "sign_message"; "sign_tx"].

(** A transaction whose [txhash] is there and is not [txid]. *)
Definition other_transaction (txid : string) (u : json) : Prop :=
  exists h, getitem u "txhash" = Ok h /\ eq_str h txid = false.

(** * Stand-ins for the libraries, to run the embedding on examples *)

Module Example.

Fixpoint digits (s : string) (acc : Z) : res Z :=
  match s with
  | EmptyString => Ok acc
  | String c s' =>
      let n := Z.of_N (Str.code c) in
      if (48 <=? n) && (n <=? 57) then digits s' (10 * acc + (n - 48)) else Raise ValueError
  end.

Definition pylib : PyLib :=
  {| str_container := fun v => Str.dumps v;
     int_of_str := fun s => match s with EmptyString => Raise ValueError | _ => digits s 0 end;
     b64decode := fun _ => Raise ValueError |}.

(** A scripted handler: the statuses it will report, in order; each call
    that advances it moves to the next one. *)
Definition scripted : AuthHandler :=
  {| auth_handler := list json;
     auth_handler_get_status := fun h =>
       match h with s :: _ => Ok s | [] => Raise (LibraryError "gdk" JNull) end;
     auth_handler_request_code := fun h _ => Ok (tail h);
     auth_handler_resolve_code := fun h _ => Ok (tail h);
     auth_handler_call := fun h => Ok (tail h) |}.

Definition old_vector : string :=
  "zoo zoo zoo zoo zoo zoo zoo zoo zoo zoo zoo wrong".

Definition script (statuses : list json) : @auth_handler scripted := statuses.

Definition bip39_vector : string :=
  "legal winner thank year wave sausage worth useful legal winner thank yellow".

(** A backend that accepts one mnemonic, echoes the credentials of a login
    in the result of the handler it returns, and refuses an empty pin. *)
Definition gdk : @Gdk scripted :=
  {| session := unit;
     gdk_login := fun _ hw mn pw =>
       Ok (script [JObj [("status", JStr "done");
                         ("result", JArr [JStr hw; JStr mn; JStr pw]);
                         ("device", JObj [])]]);
     gdk_login_with_pin := fun _ _ _ => Ok tt;
     gdk_register_user := fun _ hw mn =>
       Ok (script [JObj [("status", JStr "done"); ("result", JArr [JStr hw; JStr mn]);
                         ("device", JObj [])]]);
     gdk_validate_mnemonic := fun s => String.eqb s bip39_vector;
     gdk_set_pin := fun _ mn pin device_id =>
       if String.eqb pin "" then Raise (LibraryError "gdk" (JStr "set_pin"))
       else Ok ("pin_data:" ++ device_id) |}.

Definition the_session : @session scripted gdk := tt.

Definition hex_of_byte (b : Byte.byte) : string :=
  let n := Byte.to_N b in
  String (Str.hexdigit (n / 16)) (String (Str.hexdigit (n mod 16)) "").

(** A key is the list of the child numbers that lead to it. *)
Definition wally : Wally :=
  {| hdkey := list Z;
     wally_tx := string;
     BIP32_VER_TEST_PRIVATE := 70615956;
     BIP32_FLAG_KEY_PRIVATE := 0;
     BIP32_FLAG_KEY_PUBLIC := 1;
     BITCOIN_MESSAGE_FLAG_HASH := 1;
     EC_FLAG_ECDSA := 1;
     EC_FLAG_GRIND_R := 4;
     WALLY_TX_FLAG_USE_WITNESS := 1;
     WALLY_SIGHASH_ALL := 1;
     bip39_mnemonic_to_seed512 := fun mn => Ok (utf8_encode mn);
     bip32_key_from_seed := fun _ _ _ => Ok [];
     bip32_key_from_parent := fun k i _ => Ok (k ++ [i])%list;
     bip32_key_to_base58 := fun k _ => Ok (Str.join "/" ("xpub" :: List.map pretty k));
     bip32_key_get_priv_key := fun k => Ok (List.map (fun i => byte_of_N (Z.to_N i mod 256)) k);
     format_bitcoin_message := fun m _ => Ok m;
     ec_sig_from_bytes := fun priv hash _ => Ok (priv ++ hash)%list;
     ec_sig_to_der := fun sig => Ok sig;
     hex_from_bytes := fun b => Ok (Str.join "" (List.map hex_of_byte b));
     hex_to_bytes := fun v =>
       match v with JStr s => Ok (utf8_encode s) | _ => Raise TypeError end;
     tx_from_hex := fun v _ =>
       match v with JStr s => Ok s | _ => Raise TypeError end;
     tx_get_btc_signature_hash := fun _ index _ _ _ _ => Ok [byte_of_N (N.of_nat index)] |}.

(** A hardware wallet interface that enumerates the given devices. *)
Definition hwi (devices : list json) : Hwi :=
  {| hwi_client := json;
     hwi_enumerate := Ok devices;
     hwi_find_device := fun path => Ok path;
     hwi_getxpub := fun _ path => Ok (JObj [("xpub", JStr path)]);
     hwi_signmessage := fun _ _ _ => Raise (LibraryError "hwi" JNull) |}.

Definition ledger : json :=
  JObj [("type", JStr "ledger"); ("path", JStr "0001:0007:00");
        ("needs_pin_sent", JBool false)].

(** What hwi reports for a device it cannot open. *)
Definition locked_trezor : json :=
  JObj [("type", JStr "trezor"); ("path", JStr "webusb:001:5");
        ("error", JStr "Could not open client or get fingerprint information");
        ("code", JInt (-13))].

(** A medium that takes every write, and one with no room left: what is
    written there is dropped. *)
Definition sound : string -> string -> fate := fun _ _ => Written.
Definition full : string -> string -> fate := fun _ _ => Dropped 0.

Definition empty_world : world :=
  {| fs := ∅; umask := 18; privileged := false; medium := sound; stdin := []; stdout := [] |}.

(** A configuration directory that holds a stored (read-only) mnemonic. *)
Definition stored_world (mnemonic : string) : world :=
  {| fs := {[ "cfg/mnemonic" := File mnemonic Os.S_IRUSR ]};
     umask := 18; privileged := false; medium := sound; stdin := []; stdout := [] |}.

(** An empty configuration directory when the program runs as root, and
    one with a stored mnemonic when the disk is full. *)
Definition root_world : world :=
  {| fs := ∅; umask := 18; privileged := true; medium := sound; stdin := []; stdout := [] |}.

Definition full_disk_world (mnemonic : string) : world :=
  {| fs := {[ "cfg/mnemonic" := File mnemonic Os.S_IRUSR ]};
     umask := 18; privileged := false; medium := full; stdin := []; stdout := [] |}.

Definition mnemonics : GdkMnemonic := {| gdk_generate_mnemonic := Ok bip39_vector |}.

(** The status of the handler the example backend returns for a login of
    the wally variant. *)
Definition wally_login_handler : json :=
  JObj [("status", JStr "done");
        ("result",
          JArr [JStr ("{" ++ Str.dquote ++ "device" ++ Str.dquote ++ ": {"
                      ++ Str.dquote ++ "name" ++ Str.dquote ++ ": "
                      ++ Str.dquote ++ "libwally software signer" ++ Str.dquote ++ "}}");
                JStr ""; JStr ""]);
        ("device", JObj [])].

(** The statuses of a two factor protected action, and a device action. *)
Definition status_request_code : json :=
  JObj [("status", JStr "request_code"); ("action", JStr "send_raw_tx");
        ("methods", JArr [JStr "email"; JStr "sms"]); ("device", JObj [])].

Definition status_resolve_code : json :=
  JObj [("status", JStr "resolve_code"); ("action", JStr "send_raw_tx");
        ("method", JStr "sms"); ("attempts_remaining", JInt 3); ("device", JObj [])].

Definition status_call : json :=
  JObj [("status", JStr "call"); ("action", JStr "send_raw_tx"); ("device", JObj [])].

Definition status_done : json :=
  JObj [("status", JStr "done"); ("action", JStr "send_raw_tx");
        ("result", JObj [("txhash", JStr "9f2c")]); ("device", JObj [])].

Definition status_error : json :=
  JObj [("status", JStr "error"); ("action", JStr "send_raw_tx");
        ("error", JStr "Invalid Two Factor Authentication Code"); ("device", JObj [])].

Definition status_get_xpubs : json :=
  JObj [("status", JStr "resolve_code"); ("action", JStr "get_xpubs");
        ("required_data",
          JObj [("action", JStr "get_xpubs");
                ("paths", JArr [JArr []; JArr [JInt 3; JInt 1]])]);
        ("device", JObj [("name", JStr "libwally software signer")])].

(** A user who will type the number of the second method, then a code. *)
Definition typing_world : world :=
  {| fs := {[ "cfg/mnemonic" := File bip39_vector Os.S_IRUSR ]};
     umask := 18; privileged := false; medium := sound; stdin := ["1"; "123456"]; stdout := [] |}.

Definition typing_world_selected : world :=
  {| fs := {[ "cfg/mnemonic" := File bip39_vector Os.S_IRUSR ]};
     umask := 18; privileged := false; medium := sound; stdin := ["123456"];
     stdout := ["0) email" ++ Str.newline; "1) sms" ++ Str.newline; "Select factor: "] |}.

Definition typing_world_resolved : world :=
  {| fs := {[ "cfg/mnemonic" := File bip39_vector Os.S_IRUSR ]};
     umask := 18; privileged := false; medium := sound; stdin := [];
     stdout := ["0) email" ++ Str.newline; "1) sms" ++ Str.newline; "Select factor: ";
                "Enter 2fa code for action 'send_raw_tx' sent by sms (3 attempts remaining): "] |}.

(** The context of a session that uses the wally authenticator and the
    console two factor resolver. *)
Definition wally_context : Context :=
  make_context (pylib := pylib) (wally := wally) (hwi := hwi []) (IsWally "cfg").

(** Inputs of a signing request: a witness-bearing one and one that is
    not, and a request over given inputs. *)
Definition p2wsh_input : json :=
  JObj [("script_type", JInt 14); ("prevout_script", JStr "0020aa");
        ("satoshi", JInt 5000); ("user_path", JArr [JInt 1; JInt 7])].

Definition p2sh_input : json :=
  JObj [("script_type", JInt 10); ("prevout_script", JStr "a914bb87");
        ("satoshi", JInt 7000); ("user_path", JArr [JInt 1; JInt 8])].

Definition sign_request (utxos : list json) : json :=
  JObj [("action", JStr "sign_tx");
        ("transaction",
          JObj [("transaction", JStr "0200000001");
                ("used_utxos", JArr utxos)])].

(** Device actions: one the authenticators have no branch for, and the
    signing of a transaction. *)
Definition status_blinding_key : json :=
  JObj [("status", JStr "resolve_code"); ("action", JStr "get_master_blinding_key");
        ("required_data", JObj [("action", JStr "get_master_blinding_key")]);
        ("device", JObj [("name", JStr "ledger@0001:0007:00")])].

Definition status_sign_tx : json :=
  JObj [("status", JStr "resolve_code"); ("action", JStr "sign_tx");
        ("required_data", sign_request [p2wsh_input]);
        ("device", JObj [("name", JStr "ledger@0001:0007:00")])].

(** A configuration directory with a stored mnemonic, and one with pin
    data only, each with a user who will type a PIN. *)
Definition migrating_world : world :=
  {| fs := {[ "cfg/mnemonic" := File bip39_vector Os.S_IRUSR ]};
     umask := 18; privileged := false; medium := sound; stdin := ["1234"]; stdout := [] |}.

Definition pin_world : world :=
  {| fs := {[ "cfg/pin_data" := File "pin_data:device" 420 ]};
     umask := 18; privileged := false; medium := sound; stdin := ["1234"]; stdout := [] |}.

(** A working directory with the phrase in a file. *)
Definition seed_file_world : world :=
  {| fs := {[ "seed.txt" := File (bip39_vector ++ Str.newline) 420 ]};
     umask := 18; privileged := false; medium := sound; stdin := []; stdout := [] |}.

(** Transactions of a wallet, the newest first. *)
Definition transaction (txhash : string) (fee_rate : Z) : json :=
  JObj [("txhash", JStr txhash); ("fee_rate", JInt fee_rate); ("can_rbf", JBool true)].

(** A hardware wallet that signs, and builtins whose [b64decode] gives
    the bytes of the text as they are. *)
Definition signing_hwi : Hwi :=
  {| hwi_client := json;
     hwi_enumerate := Ok [ledger];
     hwi_find_device := fun path => Ok path;
     hwi_getxpub := fun _ path => Ok (JObj [("xpub", JStr path)]);
     hwi_signmessage := fun _ _ path => Ok (JObj [("signature", JStr ("H" ++ path))]) |}.

Definition raw_pylib : PyLib :=
  {| str_container := fun v => Str.dumps v;
     int_of_str := fun s => digits s 0;
     b64decode := fun v =>
       match v with JStr s => Ok (utf8_encode s) | _ => Raise TypeError end |}.

(** A handler stuck on one status, and a status in a state the loop has
    no branch for. *)
Definition stuck (status : json) : AuthHandler :=
  {| auth_handler := unit;
     auth_handler_get_status := fun _ => Ok status;
     auth_handler_request_code := fun h _ => Ok h;
     auth_handler_resolve_code := fun h _ => Ok h;
     auth_handler_call := fun h => Ok h |}.

Definition status_paused : json :=
  JObj [("status", JStr "paused"); ("action", JStr "send_raw_tx"); ("device", JObj [])].

Definition status_no_methods : json :=
  JObj [("status", JStr "request_code"); ("action", JStr "send_raw_tx");
        ("methods", JArr []); ("device", JObj [])].

End Example.

(** * Properties *)

(** ** Stepping through [M] and [T] computations *)

Section Laws.
Context {A B : Type}.

Lemma bind_ok (m : M A) (f : A -> M B) w a w' :
  m w = (Ok a, w') -> (m ≫= f) w = f a w'.
Proof. intros E. unfold mbind, M_bind. now rewrite E. Qed.

Lemma bind_raise (m : M A) (f : A -> M B) w e w' :
  m w = (Raise e, w') -> (m ≫= f) w = (Raise e, w').
Proof. intros E. unfold mbind, M_bind. now rewrite E. Qed.

Lemma bind_ext (m : M A) (f g : A -> M B) w :
  (forall a w', f a w' = g a w') -> (m ≫= f) w = (m ≫= g) w.
Proof. intros E. unfold mbind, M_bind. destruct (m w) as [[a|e] w']; auto. Qed.

Lemma bind_lift (r : res A) (f : A -> M B) w :
  (lift r ≫= f) w = match r with Ok a => f a w | Raise e => (Raise e, w) end.
Proof. now destruct r. Qed.

Lemma bind_inv (m : M A) (f : A -> M B) w r w' :
  (m ≫= f) w = (r, w') ->
  (exists a w1, m w = (Ok a, w1) /\ f a w1 = (r, w'))
  \/ (exists e, m w = (Raise e, w') /\ r = Raise e).
Proof.
  unfold mbind, M_bind. destruct (m w) as [[a|e] w1]; intros E.
  - left. eauto.
  - right. exists e. now inversion E.
Qed.

Lemma T_bind_ok (m : T A) (f : A -> T B) s a s' :
  m s = (Ok a, s') -> (m ≫= f) s = f a s'.
Proof. intros E. unfold mbind, T_bind. now rewrite E. Qed.

Lemma T_bind_raise (m : T A) (f : A -> T B) s e s' :
  m s = (Raise e, s') -> (m ≫= f) s = (Raise e, s').
Proof. intros E. unfold mbind, T_bind. now rewrite E. Qed.

End Laws.

Lemma string_app_assoc (a b c : string) : (a ++ b) ++ c = a ++ b ++ c.
Proof.
  induction a as [|ch a IH]; [reflexivity|].
  change ((String ch a ++ b) ++ c) with (String ch ((a ++ b) ++ c)). now rewrite IH.
Qed.

(** Unfold the monad operations and reduce the matches that appear. *)
Ltac run_M :=
  unfold mbind, M_bind, T_bind, res_bind, mret, M_ret, T_ret, res_ret, lift, raise, pure
    in *;
  cbv beta iota in *.

(** Close a goal that compares two run states built with [advanced]. *)
Ltac finish_run :=
  unfold advanced; cbn [calls run_world app]; rewrite <- ?app_assoc; reflexivity.

(** ** The file system operations *)

Module OsFacts.
Import Os.

Lemma S_IRUSR_read_only m : readable (File m S_IRUSR) = true /\ writable (File m S_IRUSR) = false.
Proof. split; reflexivity. Qed.

Lemma unprotected_or_protected w path : unprotected w path \/ protected w path.
Proof.
  unfold unprotected, protected. destruct (fs w !! path) as [f|] eqn:E.
  - destruct (may_write w f) eqn:Ew.
    + left. intros f' [= <-]. exact Ew.
    + right. eauto.
  - left. discriminate.
Qed.

(** [open(path, 'w').write(data)] on a file that is not write-protected:
    the file holds what the medium lets through, with the mode it had or the
    mode of a new file. *)
Lemma open_write path data w :
  unprotected w path ->
  exists m,
    (open_w path ;; write path data) w
    = (let holding (d : string) := set_fs w (<[path := File d m]> (fs w)) in
       match medium w path data with
       | Written => (Ok tt, holding data)
       | Dropped reached => (Ok tt, holding (take reached data))
       | Failed reached => (Raise (OSError path), holding (take reached data))
       end)
    /\ m = match fs w !! path with
           | Some f => mode f
           | None => creation_mode (umask w)
           end.
Proof.
  intros Hu. unfold mbind, M_bind, open_w, write.
  destruct (fs w !! path) as [f|] eqn:E.
  - rewrite (Hu f E). cbn. rewrite lookup_insert_eq. cbn.
    exists (mode f). split; [|reflexivity].
    destruct (medium w path data); now rewrite insert_insert_eq.
  - cbn. rewrite lookup_insert_eq. cbn.
    exists (creation_mode (umask w)). split; [|reflexivity].
    destruct (medium w path data); now rewrite insert_insert_eq.
Qed.

Lemma open_write_unprotected path data w :
  unprotected w path -> takes w path data ->
  exists m, (open_w path ;; write path data) w
            = (Ok tt, set_fs w (<[path := File data m]> (fs w))).
Proof.
  intros Hu Ht. destruct (open_write path data w Hu) as (m & E & _).
  exists m. rewrite E. unfold takes in Ht. now rewrite Ht.
Qed.

Lemma open_write_protected path data w :
  protected w path ->
  (open_w path ;; write path data) w = (Raise (PermissionError path), w).
Proof.
  intros (f & E & Ew). unfold mbind, M_bind, open_w. now rewrite E, Ew.
Qed.

Lemma read_world path w : snd (read path w) = w.
Proof. unfold read. destruct (fs w !! path) as [f|]; [destruct (may_read w f)|]; reflexivity. Qed.

Lemma set_fs_id w : set_fs w (fs w) = w.
Proof. now destruct w. Qed.

Lemma append_inj_l (a x y : string) : a ++ x = a ++ y -> x = y.
Proof. induction a as [|c a IH]; cbn; [easy | intros [= E]; auto]. Qed.

Lemma path_join_inj dir x y : path_join dir x = path_join dir y -> x = y.
Proof.
  unfold path_join. destruct (String.eqb dir ""); [easy|].
  destruct (ends_with_slash dir); intros E; apply append_inj_l in E; [easy|].
  now inversion E.
Qed.


Lemma is_cr_space c : is_cr c = true -> Str.isspace c = true.
Proof. destruct c as [[] [] [] [] [] [] [] []]; (reflexivity || discriminate). Qed.

Lemma is_lf_space c : is_lf c = true -> Str.isspace c = true.
Proof. destruct c as [[] [] [] [] [] [] [] []]; (reflexivity || discriminate). Qed.

Example universal_newlines_example :
  let cr := String "013"%char "" in
  let lf := Str.newline in
  universal_newlines ("legal" ++ cr ++ lf ++ "winner" ++ cr ++ "thank" ++ lf ++ cr)
  = "legal" ++ lf ++ "winner" ++ lf ++ "thank" ++ lf ++ lf.
Proof. reflexivity. Qed.


End OsFacts.

(** ** The mnemonic store *)

Section MnemonicStore.
Variable config_dir : string.
Local Abbreviation filename := (mnemonic_filename config_dir).

(** The setter on a path that is not write-protected, whatever the medium
    does: the file gets the owner-read-only mode unless the write raised. *)
Lemma setter_open phrase w :
  unprotected w filename ->
  _mnemonic_setter config_dir phrase w
  = match medium w filename phrase with
    | Written => (Ok tt, stored config_dir w phrase)
    | Dropped reached => (Ok tt, stored config_dir w (Os.take reached phrase))
    | Failed reached =>
        (Raise (OSError filename),
         set_fs w (<[filename := File (Os.take reached phrase)
                                   match fs w !! filename with
                                   | Some f => mode f
                                   | None => Os.creation_mode (umask w)
                                   end]> (fs w)))
    end.
Proof.
  intros Hu. unfold _mnemonic_setter.
  destruct (OsFacts.open_write filename phrase w Hu) as (m & Em & ->).
  cbv zeta in Em.
  destruct (medium w filename phrase) as [|reached|reached].
  - erewrite bind_ok; cycle 1.
    { unfold try_except. rewrite Em. reflexivity. }
    unfold Os.chmod, stored. cbn. rewrite lookup_insert_eq. cbn.
    now rewrite insert_insert_eq.
  - erewrite bind_ok; cycle 1.
    { unfold try_except. rewrite Em. reflexivity. }
    unfold Os.chmod, stored. cbn. rewrite lookup_insert_eq. cbn.
    now rewrite insert_insert_eq.
  - erewrite bind_raise; [reflexivity|].
    unfold try_except. rewrite Em. reflexivity.
Qed.

Lemma setter_unprotected phrase w :
  unprotected w filename -> takes w filename phrase ->
  _mnemonic_setter config_dir phrase w = (Ok tt, stored config_dir w phrase).
Proof.
  intros Hu Ht. rewrite (setter_open _ _ Hu). unfold takes in Ht. now rewrite Ht.
Qed.

Lemma setter_protected phrase w :
  protected w filename ->
  _mnemonic_setter config_dir phrase w
  = (Raise (ClickException (refusing_to_overwrite filename)), w).
Proof.
  intros Hp. unfold _mnemonic_setter.
  erewrite bind_raise; [reflexivity|].
  unfold try_except. now rewrite (OsFacts.open_write_protected filename phrase w Hp).
Qed.

Lemma stored_protected w phrase :
  privileged w = false -> protected (stored config_dir w phrase) filename.
Proof.
  intros Hw. exists (File phrase Os.S_IRUSR). split.
  - unfold stored. cbn. apply lookup_insert_eq.
  - unfold Os.may_write, stored. cbn. now rewrite Hw.
Qed.

Lemma stored_getter w phrase :
  _mnemonic config_dir (stored config_dir w phrase)
  = (Ok (Os.universal_newlines phrase), stored config_dir w phrase).
Proof.
  unfold _mnemonic, Os.read.
  unfold stored at 1. cbn. rewrite lookup_insert_eq.
  unfold Os.may_read. cbn. now rewrite orb_true_r.
Qed.

(** After a call of the setter by a process that does not override the
    permission checks, the file is write-protected, unless the call ended
    in an error of its write. *)
Lemma setter_leaves_protected phrase w :
  privileged w = false ->
  fst (_mnemonic_setter config_dir phrase w) <> Raise (OSError filename) ->
  protected (snd (_mnemonic_setter config_dir phrase w)) filename.
Proof.
  intros Hw. destruct (OsFacts.unprotected_or_protected w filename) as [Hu|Hp].
  - rewrite (setter_open _ _ Hu).
    destruct (medium w filename phrase); cbn [fst snd]; intros Hne;
      [now apply stored_protected | now apply stored_protected | now contradiction Hne].
  - now rewrite (setter_protected _ _ Hp).
Qed.

End MnemonicStore.

(** C4, as the code has it. Two calls of the store operation with nothing
    removed in between. The first call, when no write-protected file is in
    its way and its write reaches the file, leaves the file holding exactly
    its phrase with the owner-read-only mode. The second call, by a process
    that does not override the permission checks and after a first call
    that did not end in an error of its write, raises the refusal to
    overwrite and changes nothing: the file still holds the first phrase,
    which is what is read back (in text mode). *)
Theorem store_twice_refuses_second (config_dir p1 p2 : string) (w : world) :
  let filename := mnemonic_filename config_dir in
  let first := _mnemonic_setter config_dir p1 w in
  let second := _mnemonic_setter config_dir p2 (snd first) in
  (unprotected w filename -> takes w filename p1 ->
   first = (Ok tt, stored config_dir w p1)
   /\ fs (snd first) !! filename = Some (File p1 Os.S_IRUSR))
  /\ (privileged w = false -> fst first <> Raise (OSError filename) ->
      second = (Raise (ClickException (refusing_to_overwrite filename)), snd first))
  /\ (privileged w = false -> unprotected w filename -> takes w filename p1 ->
      fs (snd second) !! filename = Some (File p1 Os.S_IRUSR)
      /\ _mnemonic config_dir (snd second) = (Ok (Os.universal_newlines p1), snd second)).
Proof.
  intros filename first second.
  assert (Hfirst : unprotected w filename -> takes w filename p1 ->
                   first = (Ok tt, stored config_dir w p1)).
  { intros Hu Ht. now apply setter_unprotected. }
  assert (Hsecond : privileged w = false -> fst first <> Raise (OSError filename) ->
                    second = (Raise (ClickException (refusing_to_overwrite filename)),
                              snd first)).
  { intros Hw Hne. apply setter_protected. now apply setter_leaves_protected. }
  split; [|split].
  - intros Hu Ht. split; [now apply Hfirst|].
    rewrite (Hfirst Hu Ht). unfold stored. cbn. apply lookup_insert_eq.
  - exact Hsecond.
  - intros Hw Hu Ht. rewrite Hsecond; [|exact Hw|now rewrite (Hfirst Hu Ht)].
    rewrite (Hfirst Hu Ht). cbn [snd]. split.
    + unfold stored. cbn. apply lookup_insert_eq.
    + apply stored_getter.
Qed.

Lemma store_twice_refuses_second_witness :
  unprotected Example.empty_world (mnemonic_filename "cfg")
  /\ takes Example.empty_world (mnemonic_filename "cfg") "first phrase"
  /\ _mnemonic_setter "cfg" "first phrase" Example.empty_world
     = (Ok tt, Example.stored_world "first phrase")
  /\ _mnemonic_setter "cfg" "second phrase" (Example.stored_world "first phrase")
     = (Raise (ClickException (refusing_to_overwrite "cfg/mnemonic")),
        Example.stored_world "first phrase")
  /\ _mnemonic "cfg" (Example.stored_world "first phrase")
     = (Ok "first phrase", Example.stored_world "first phrase").
Proof.
  assert (Hu : unprotected Example.empty_world (mnemonic_filename "cfg")).
  { intros f Hf. vm_compute in Hf. discriminate Hf. }
  assert (Ht : takes Example.empty_world (mnemonic_filename "cfg") "first phrase")
    by reflexivity.
  destruct (store_twice_refuses_second "cfg" "first phrase" "second phrase"
              Example.empty_world) as (Hfirst & Hsecond & Hkept).
  destruct (Hfirst Hu Ht) as [Efirst _].
  destruct (Hkept eq_refl Hu Ht) as [_ Eread].
  assert (Esecond := Hsecond eq_refl).
  rewrite Efirst in Esecond, Eread. cbn [fst snd] in Esecond, Eread.
  specialize (Esecond ltac:(discriminate)).
  rewrite Esecond in Eread. cbn [snd] in Eread.
  split; [exact Hu|]. split; [exact Ht|]. split; [exact Efirst|].
  split; [exact Esecond | exact Eread].
Defined.

(** C4 as stated fails: run as root, the second call is not refused and
    replaces the phrase the first call stored. *)
Lemma store_twice_overwrites_as_root :
  let first := _mnemonic_setter "cfg" "first phrase" Example.root_world in
  let second := _mnemonic_setter "cfg" "second phrase" (snd first) in
  fst first = Ok tt
  /\ fs (snd first) !! mnemonic_filename "cfg" = Some (File "first phrase" Os.S_IRUSR)
  /\ fst second = Ok tt
  /\ fs (snd second) !! mnemonic_filename "cfg" = Some (File "second phrase" Os.S_IRUSR).
Proof. repeat split. Qed.

(** ** Whitespace normalisation *)

Section Normalisation.

Lemma split_cons c s :
  Str.split (String c s)
  = if Str.isspace c then Str.split s
    else if Str.starts_word s then String c "" :: Str.split s
    else match Str.split s with
         | x :: xs => String c x :: xs
         | [] => [String c ""]
         end.
Proof. reflexivity. Qed.

Lemma split_words s : Forall word (Str.split s).
Proof.
  induction s as [|c s IH]; cbn; [constructor|].
  destruct (Str.isspace c) eqn:Ec; [exact IH|].
  assert (Hc : word (String c "")).
  { split; [discriminate|]. cbn. now rewrite Ec. }
  destruct (Str.starts_word s); [now constructor|].
  destruct (Str.split s) as [|x xs]; [constructor; [exact Hc | constructor]|].
  inversion IH as [|? ? [_ Hx] Hxs]; subst. constructor; [|exact Hxs].
  split; [discriminate|]. cbn. now rewrite Ec, Hx.
Qed.

Lemma split_word x : word x -> Str.split x = [x].
Proof.
  intros [Hne Hx]. induction x as [|c x IH]; [contradiction|].
  cbn in Hx. apply andb_prop in Hx as [Hc Hx]. apply negb_true_iff in Hc.
  cbn. rewrite Hc. destruct x as [|c' x]; [reflexivity|].
  assert (Hc' : Str.isspace c' = false).
  { cbn in Hx. apply andb_prop in Hx as [Hc' _]. now apply negb_true_iff. }
  cbn [Str.starts_word]. rewrite Hc'.
  now rewrite IH.
Qed.

Lemma split_word_space x s :
  word x -> Str.split (x ++ String " " s) = x :: Str.split s.
Proof.
  intros [Hne Hx]. induction x as [|c x IH]; [contradiction|].
  cbn in Hx. apply andb_prop in Hx as [Hc Hx]. apply negb_true_iff in Hc.
  change (String c x ++ String " " s) with (String c (x ++ String " " s)).
  rewrite split_cons, Hc. destruct x as [|c' x]; [reflexivity|].
  assert (Hc' : Str.isspace c' = false).
  { cbn in Hx. apply andb_prop in Hx as [Hc' _]. now apply negb_true_iff. }
  change (String c' x ++ String " " s) with (String c' (x ++ String " " s)) in *.
  cbn [Str.starts_word]. rewrite Hc'.
  now rewrite IH.
Qed.

Lemma split_join ws : Forall word ws -> Str.split (Str.join " " ws) = ws.
Proof.
  induction 1 as [|x xs Hx Hxs IH]; [reflexivity|].
  destruct xs as [|y ys]; [now apply split_word|].
  change (Str.join " " (x :: y :: ys)) with (x ++ String " " (Str.join " " (y :: ys))).
  rewrite (split_word_space _ _ Hx). now rewrite IH.
Qed.

(** Normalising keeps the words, in order. *)
Lemma split_normalize s : Str.split (normalize s) = Str.split s.
Proof. apply split_join, split_words. Qed.

Lemma normalize_idempotent s : normalize (normalize s) = normalize s.
Proof. unfold normalize at 1. now rewrite split_normalize. Qed.





Lemma universal_newlines_cons c s :
  Os.universal_newlines (String c s)
  = if Os.is_cr c then
      String "010"%char
        match s with
        | EmptyString => ""
        | String c' s' =>
            if Os.is_lf c' then Os.universal_newlines s' else Os.universal_newlines s
        end
    else String c (Os.universal_newlines s).
Proof. destruct s; reflexivity. Qed.

Lemma starts_word_universal_newlines s :
  Str.starts_word (Os.universal_newlines s) = Str.starts_word s.
Proof.
  destruct s as [|c s]; [reflexivity|]. rewrite universal_newlines_cons.
  destruct (Os.is_cr c) eqn:E; [|reflexivity].
  cbn [Str.starts_word]. now rewrite (OsFacts.is_cr_space c E).
Qed.

(** The newline translation changes whitespace only: the words stay. *)
Lemma split_universal_newlines s : Str.split (Os.universal_newlines s) = Str.split s.
Proof.
  remember (String.length s) as n eqn:Hn.
  assert (Hle : (String.length s <= n)%nat) by lia. clear Hn.
  revert s Hle. induction n as [|n IH]; intros s Hle.
  - destruct s; [reflexivity | cbn in Hle; lia].
  - destruct s as [|c s]; [reflexivity|]. cbn [String.length] in Hle.
    rewrite universal_newlines_cons. destruct (Os.is_cr c) eqn:E.
    + rewrite (split_cons c s), (OsFacts.is_cr_space c E).
      rewrite split_cons. change (Str.isspace "010") with true. cbv iota.
      destruct s as [|c' s']; [reflexivity|]. cbn [String.length] in Hle.
      destruct (Os.is_lf c') eqn:E'.
      * rewrite (split_cons c' s'), (OsFacts.is_lf_space c' E').
        apply IH. lia.
      * apply IH. cbn [String.length]. lia.
    + rewrite !(split_cons c).
      rewrite starts_word_universal_newlines, IH by lia. reflexivity.
Qed.

Lemma normalize_universal_newlines s : normalize (Os.universal_newlines s) = normalize s.
Proof. unfold normalize. now rewrite split_universal_newlines. Qed.

End Normalisation.

(** ** setmnemonic *)


Section OnExamples.
#[local] Existing Instance Example.pylib.
#[local] Existing Instance Example.scripted.
#[local] Existing Instance Example.gdk.
#[local] Existing Instance Example.wally.


(** The write of the setter is not checked either: on a full disk a valid
    phrase is accepted, and the file that is left holds nothing of it. *)
Example setmnemonic_lost_write :
  let w := set_fs (Example.full_disk_world "") ∅ in
  fst (setmnemonic "cfg" Example.bip39_vector w) = Ok tt
  /\ fs (snd (setmnemonic "cfg" Example.bip39_vector w)) !! "cfg/mnemonic"
     = Some (File "" Os.S_IRUSR).
Proof. split; reflexivity. Qed.


End OnExamples.

(** ** setpin *)

Section SetPin.
Context {handlers : AuthHandler} {gdk : Gdk}.
Variables (config_dir : string) (session_obj : session) (pin device_id : string).
Local Abbreviation mnemonic_file := (mnemonic_filename config_dir).
Local Abbreviation pin_file := (pin_data_filename config_dir).

Lemma filenames_distinct : mnemonic_file <> pin_file.
Proof. intros E. apply OsFacts.path_join_inj in E. discriminate E. Qed.

(** [setpin] from the point where the backend has returned the pin data:
    the write is not checked, so the mnemonic file is removed whenever the
    write did not itself raise. *)
Lemma setpin_after_set_pin w mn pin_data :
  _mnemonic config_dir w = (Ok mn, w) ->
  gdk_set_pin session_obj mn pin device_id = Ok pin_data ->
  unprotected w pin_file ->
  exists m,
    (fst (setpin config_dir session_obj pin device_id w),
     fs (snd (setpin config_dir session_obj pin device_id w)))
    = match medium w pin_file pin_data with
      | Failed reached =>
          (Raise (OSError pin_file),
           <[pin_file := File (Os.take reached pin_data) m]> (fs w))
      | _ => (Ok pin_data, migrated config_dir w (let_through w pin_file pin_data) m)
      end.
Proof.
  intros Hmn Hpin Hu. unfold let_through.
  unfold setpin, SoftwareAuthenticator_mnemonic, _mnemonic in *.
  unfold mbind, M_bind, Os.read, Console.print, lift in *. cbn in *.
  destruct (fs w !! mnemonic_file) as [f|] eqn:Ef; [|discriminate Hmn].
  unfold Os.may_read in *. cbn.
  destruct (privileged w || Os.readable f) eqn:Er; [|discriminate Hmn].
  injection Hmn as <-. cbn. rewrite Ef, Er, Hpin.
  unfold Os.open_w, Os.write, Os.remove, Os.may_write, migrated. cbn.
  destruct (fs w !! pin_file) as [g|] eqn:Eg.
  - assert (Hg := Hu g Eg). unfold Os.may_write in Hg. rewrite Hg.
    cbn. rewrite lookup_insert_eq. cbn.
    exists (mode g).
    destruct (medium w pin_file pin_data); cbn;
      rewrite ?lookup_insert_ne by (apply not_eq_sym, filenames_distinct);
      rewrite ?Ef; cbn; now rewrite insert_insert_eq.
  - cbn. rewrite lookup_insert_eq. cbn.
    exists (Os.creation_mode (umask w)).
    destruct (medium w pin_file pin_data); cbn;
      rewrite ?lookup_insert_ne by (apply not_eq_sym, filenames_distinct);
      rewrite ?Ef; cbn; now rewrite insert_insert_eq.
Qed.

(** Every way [setpin] can end. It raises with the files as they were; or
    it raises in the write, with the mnemonic file as it was; or it returns
    the pin data, with the mnemonic file removed and what the medium let
    through of the pin data in the pin data file. *)
Lemma setpin_outcome w :
  (exists e, fst (setpin config_dir session_obj pin device_id w) = Raise e
             /\ fs (snd (setpin config_dir session_obj pin device_id w)) = fs w)
  \/ (exists kept m,
        fst (setpin config_dir session_obj pin device_id w) = Raise (OSError pin_file)
        /\ fs (snd (setpin config_dir session_obj pin device_id w))
           = <[pin_file := File kept m]> (fs w))
  \/ (exists mn pin_data m,
        _mnemonic config_dir w = (Ok mn, w)
        /\ gdk_set_pin session_obj mn pin device_id = Ok pin_data
        /\ fst (setpin config_dir session_obj pin device_id w) = Ok pin_data
        /\ fs (snd (setpin config_dir session_obj pin device_id w))
           = migrated config_dir w (let_through w pin_file pin_data) m).
Proof.
  destruct (_mnemonic config_dir w) as [[mn|e] w0] eqn:Hmn.
  - assert (w0 = w) as ->.
    { unfold _mnemonic in Hmn. now rewrite <- (OsFacts.read_world mnemonic_file w), Hmn. }
    destruct (gdk_set_pin session_obj mn pin device_id) as [pin_data|e] eqn:Hpin.
    + destruct (OsFacts.unprotected_or_protected w pin_file) as [Hu|Hp].
      * destruct (setpin_after_set_pin w mn pin_data Hmn Hpin Hu) as [m Em].
        destruct (medium w pin_file pin_data) eqn:Hfate; injection Em as Er Efs.
        -- right; right. exists mn, pin_data, m. auto.
        -- right; right. exists mn, pin_data, m. auto.
        -- right; left. eauto.
      * left. exists (PermissionError pin_file).
        destruct Hp as (g & Eg & Hg).
        unfold setpin, SoftwareAuthenticator_mnemonic, _mnemonic in *.
        unfold mbind, M_bind, Os.read, Console.print, lift in *. cbn in *.
        destruct (fs w !! mnemonic_file) as [f|] eqn:Ef; [|discriminate Hmn].
        unfold Os.may_read in *. cbn.
        destruct (privileged w || Os.readable f) eqn:Er; [|discriminate Hmn].
        injection Hmn as <-. cbn. rewrite Ef, Er, Hpin.
        unfold Os.open_w, Os.may_write in *. cbn. rewrite Eg, Hg. cbn. auto.
    + left. exists e.
      unfold setpin, SoftwareAuthenticator_mnemonic, _mnemonic in *.
      unfold mbind, M_bind, Os.read, Console.print, lift in *. cbn in *.
      destruct (fs w !! mnemonic_file) as [f|] eqn:Ef; [|discriminate Hmn].
      unfold Os.may_read in *. cbn.
      destruct (privileged w || Os.readable f) eqn:Er; [|discriminate Hmn].
      injection Hmn as <-. cbn. rewrite Ef, Er, Hpin. cbn. auto.
  - left. exists e.
    assert (w0 = w) as ->.
    { unfold _mnemonic in Hmn. now rewrite <- (OsFacts.read_world mnemonic_file w), Hmn. }
    unfold setpin, SoftwareAuthenticator_mnemonic.
    rewrite (bind_raise _ _ _ _ _ Hmn). split; reflexivity.
Qed.

Lemma setpin_set_pin_raises w mn e :
  _mnemonic config_dir w = (Ok mn, w) ->
  gdk_set_pin session_obj mn pin device_id = Raise e ->
  fst (setpin config_dir session_obj pin device_id w) = Raise e
  /\ fs (snd (setpin config_dir session_obj pin device_id w)) = fs w.
Proof.
  unfold setpin, SoftwareAuthenticator_mnemonic, _mnemonic.
  unfold mbind, M_bind, Os.read, Console.print, lift. cbn.
  destruct (fs w !! mnemonic_file) as [f|] eqn:Ef; [|discriminate].
  unfold Os.may_read. cbn.
  destruct (privileged w || Os.readable f) eqn:Er; [|discriminate].
  cbn. rewrite Ef, Er. intros [= <-] ->. split; reflexivity.
Qed.

End SetPin.

(** C10 does not hold of the code. [setpin] writes the pin data and removes
    the mnemonic file in that order, but it never checks that the write
    reached the file: when the medium drops the write, [setpin] returns the
    pin data all the same, the pin data file holds only what reached it,
    and the mnemonic file is removed. *)
Theorem setpin_erases_after_lost_write {handlers : AuthHandler} {gdk : Gdk}
    (config_dir : string) (session_obj : session) (pin device_id mn pin_data : string)
    (reached : nat) (w : world) :
  let mnemonic_file := mnemonic_filename config_dir in
  let pin_file := pin_data_filename config_dir in
  let r := fst (setpin config_dir session_obj pin device_id w) in
  let w' := snd (setpin config_dir session_obj pin device_id w) in
  _mnemonic config_dir w = (Ok mn, w) ->
  gdk_set_pin session_obj mn pin device_id = Ok pin_data ->
  unprotected w pin_file ->
  medium w pin_file pin_data = Dropped reached ->
  r = Ok pin_data
  /\ (exists m, fs w' !! pin_file = Some (File (Os.take reached pin_data) m))
  /\ fs w' !! mnemonic_file = None.
Proof.
  intros mnemonic_file pin_file r w' Hmn Hpin Hu Hfate. subst r w' pin_file mnemonic_file.
  destruct (setpin_after_set_pin config_dir session_obj pin device_id w mn pin_data
              Hmn Hpin Hu) as [m Em].
  unfold let_through in Em. rewrite Hfate in Em. injection Em as Er Efs.
  split; [exact Er|]. rewrite Efs. unfold migrated. split.
  - exists m. rewrite lookup_delete_ne by apply filenames_distinct.
    apply lookup_insert_eq.
  - apply lookup_delete_eq.
Qed.

(** What does hold of [setpin]: when it raises, the mnemonic file is as it
    was, and every file is when it is [gdk.set_pin] that raised; when it
    returns and its write reached the file, the pin data the backend
    returned is in the pin data file and the mnemonic file is removed. *)
Theorem setpin_keeps_mnemonic_when_it_raises {handlers : AuthHandler} {gdk : Gdk}
    (config_dir : string) (session_obj : session) (pin device_id : string) (w : world) :
  let mnemonic_file := mnemonic_filename config_dir in
  let pin_file := pin_data_filename config_dir in
  let r := fst (setpin config_dir session_obj pin device_id w) in
  let w' := snd (setpin config_dir session_obj pin device_id w) in
  (forall mn e,
     _mnemonic config_dir w = (Ok mn, w) ->
     gdk_set_pin session_obj mn pin device_id = Raise e ->
     r = Raise e /\ fs w' = fs w)
  /\ (forall e, r = Raise e -> fs w' !! mnemonic_file = fs w !! mnemonic_file)
  /\ (forall pin_data,
        r = Ok pin_data -> takes w pin_file pin_data ->
        exists mn m,
          _mnemonic config_dir w = (Ok mn, w)
          /\ gdk_set_pin session_obj mn pin device_id = Ok pin_data
          /\ fs w' !! pin_file = Some (File pin_data m)
          /\ fs w' !! mnemonic_file = None).
Proof.
  intros mnemonic_file pin_file r w'. subst r w' pin_file mnemonic_file.
  split; [|split].
  - intros mn e. apply setpin_set_pin_raises.
  - intros e He.
    destruct (setpin_outcome config_dir session_obj pin device_id w)
      as [(e' & _ & Hfs) | [(kept & m & _ & Hfs) | (mn & pin_data & m & _ & _ & Hr & _)]].
    + now rewrite Hfs.
    + rewrite Hfs. apply lookup_insert_ne, not_eq_sym, filenames_distinct.
    + rewrite Hr in He. discriminate He.
  - intros pin_data Hr Htakes.
    destruct (setpin_outcome config_dir session_obj pin device_id w)
      as [(e' & He & _) | [(kept & m & He & _) | (mn & pd & m & Hmn & Hpin & Hr' & Hfs)]];
      rewrite Hr in *; [discriminate He | discriminate He |].
    injection Hr' as <-. exists mn, m. repeat (split; [assumption|]).
    unfold let_through in Hfs. unfold takes in Htakes. rewrite Htakes in Hfs.
    rewrite Hfs. unfold migrated. split.
    + rewrite lookup_delete_ne by apply filenames_distinct.
      apply lookup_insert_eq.
    + apply lookup_delete_eq.
Qed.

Section SetPinExamples.
#[local] Existing Instance Example.scripted.
#[local] Existing Instance Example.gdk.

Lemma setpin_keeps_mnemonic_when_it_raises_witness :
  let w := Example.stored_world Example.bip39_vector in
  (fst (setpin "cfg" Example.the_session "" "device" w)
   = Raise (LibraryError "gdk" (JStr "set_pin"))
   /\ fs (snd (setpin "cfg" Example.the_session "" "device" w)) = fs w)
  /\ exists mn m,
       _mnemonic "cfg" w = (Ok mn, w)
       /\ gdk_set_pin Example.the_session mn "1234" "device" = Ok "pin_data:device"
       /\ fs (snd (setpin "cfg" Example.the_session "1234" "device" w))
            !! pin_data_filename "cfg"
          = Some (File "pin_data:device" m)
       /\ fs (snd (setpin "cfg" Example.the_session "1234" "device" w))
            !! mnemonic_filename "cfg" = None.
Proof.
  intros w.
  destruct (setpin_keeps_mnemonic_when_it_raises "cfg" Example.the_session "" "device" w)
    as (Hraise & _ & _).
  destruct (setpin_keeps_mnemonic_when_it_raises "cfg" Example.the_session "1234" "device" w)
    as (_ & _ & Hgone).
  split.
  - apply (Hraise Example.bip39_vector); reflexivity.
  - apply Hgone; reflexivity.
Defined.

Lemma setpin_erases_after_lost_write_witness :
  let w := Example.full_disk_world Example.bip39_vector in
  let out := setpin "cfg" Example.the_session "1234" "device" w in
  fs w !! mnemonic_filename "cfg" = Some (File Example.bip39_vector Os.S_IRUSR)
  /\ fst out = Ok "pin_data:device"
  /\ (exists m, fs (snd out) !! pin_data_filename "cfg" = Some (File "" m))
  /\ fs (snd out) !! mnemonic_filename "cfg" = None.
Proof.
  intros w out. split; [reflexivity|].
  apply (setpin_erases_after_lost_write "cfg" Example.the_session "1234" "device"
           Example.bip39_vector "pin_data:device" 0 w).
  - reflexivity.
  - reflexivity.
  - intros f Hf. vm_compute in Hf. discriminate Hf.
  - reflexivity.
Defined.

End SetPinExamples.

(** ** Key derivation *)

Section Derivation.
Context {wally : Wally}.
Variable config_dir : string.

Local Abbreviation child := (fun k i => bip32_key_from_parent k i BIP32_FLAG_KEY_PRIVATE).

Lemma foldM_app {A B} (f : A -> B -> res A) a l1 l2 :
  foldM f a (l1 ++ l2) = foldM f a l1 ≫= fun a' => foldM f a' l2.
Proof.
  revert a. induction l1 as [|b l1 IH]; intros a; cbn; [reflexivity|].
  destruct (f a b); cbn; [apply IH | reflexivity].
Qed.

Lemma as_uint32_list_path p : Forall uint32 p -> as_uint32_list (path_of p) = Ok p.
Proof.
  unfold path_of, as_uint32_list. induction 1 as [|z p [Hlo Hhi] Hp IH]; [reflexivity|].
  cbn. apply Z.leb_le in Hlo. apply Z.ltb_lt in Hhi.
  rewrite Hlo, Hhi. cbn. cbn in IH. now rewrite IH.
Qed.

Lemma truthy_path p : truthy (path_of p) = match p with [] => false | _ => true end.
Proof. now destruct p. Qed.

(** From any key, deriving a path is folding the derivation of a child. *)
Lemma derive_from_fold k p :
  Forall uint32 p -> derive_from k (path_of p) = foldM child k p.
Proof.
  intros Hp. unfold derive_from, bip32_key_from_parent_path.
  rewrite truthy_path, (as_uint32_list_path _ Hp). now destruct p.
Qed.

Lemma master_key_world w : snd (master_key config_dir w) = w.
Proof.
  unfold master_key, _mnemonic, mbind, M_bind.
  pose proof (OsFacts.read_world (mnemonic_filename config_dir) w) as Hw.
  destruct (Os.read (mnemonic_filename config_dir) w) as [[mn|e] w1]; cbn in *; subst w1;
    [|reflexivity].
  unfold lift. now destruct (bip39_mnemonic_to_seed512 mn).
Qed.

Lemma derive_key_fold p w :
  Forall uint32 p ->
  derive_key config_dir (path_of p) w
  = (mk ← master_key config_dir; lift (foldM child mk p)) w.
Proof.
  intros Hp. unfold derive_key. rewrite truthy_path.
  pose proof (master_key_world w) as Hw.
  destruct p as [|i p].
  - cbn [negb foldM]. unfold mbind, M_bind.
    destruct (master_key config_dir w) as [[mk|e] w1]; cbn in *; now subst.
  - cbn [negb]. apply bind_ext. intros mk w1.
    unfold bip32_key_from_parent_path. now rewrite (as_uint32_list_path _ Hp).
Qed.

End Derivation.

(** C6. Derivation composes. With the empty path [derive_key] gives the
    master key; deriving [p1 ++ p2] is deriving [p1] and then deriving [p2]
    from the key obtained, and for a non-empty [p2] that second derivation
    is the library call on that key. Paths are lists of unsigned 32-bit
    child numbers; the seed is the one of the stored mnemonic. *)
Theorem derive_key_compositional {wally : Wally}
    (config_dir : string) (p1 p2 : list Z) (w : world) :
  Forall uint32 p1 -> Forall uint32 p2 ->
  derive_key config_dir (path_of []) w = master_key config_dir w
  /\ derive_key config_dir (path_of (p1 ++ p2)) w
     = (k ← derive_key config_dir (path_of p1); lift (derive_from k (path_of p2))) w
  /\ (p2 <> [] ->
      derive_key config_dir (path_of (p1 ++ p2)) w
      = (k ← derive_key config_dir (path_of p1);
         lift (bip32_key_from_parent_path k (path_of p2) BIP32_FLAG_KEY_PRIVATE)) w).
Proof.
  intros Hp1 Hp2.
  assert (Hcomp : derive_key config_dir (path_of (p1 ++ p2)) w
     = (k ← derive_key config_dir (path_of p1); lift (derive_from k (path_of p2))) w).
  { rewrite derive_key_fold by (apply Forall_app; auto).
    unfold mbind at 1 2, M_bind. rewrite (derive_key_fold _ p1 w Hp1).
    unfold mbind, M_bind.
    destruct (master_key config_dir w) as [[mk|e] w1]; [|reflexivity].
    unfold lift. rewrite foldM_app.
    destruct (foldM _ mk p1) as [k|e]; [|reflexivity].
    cbn. now rewrite (derive_from_fold k p2 Hp2). }
  split; [reflexivity|]. split; [exact Hcomp|].
  intros Hne. rewrite Hcomp. unfold mbind, M_bind.
  destruct (derive_key config_dir (path_of p1) w) as [[k|e] w1]; [|reflexivity].
  unfold derive_from. rewrite truthy_path. now destruct p2.
Qed.

Section DerivationExamples.
#[local] Existing Instance Example.wally.

Lemma derive_key_compositional_witness :
  let w := Example.stored_world Example.bip39_vector in
  Forall uint32 [2147483692; 0] /\ Forall uint32 [1; 5]
  /\ derive_key "cfg" (path_of []) w = master_key "cfg" w
  /\ derive_key "cfg" (path_of ([2147483692; 0] ++ [1; 5])) w
     = (k ← derive_key "cfg" (path_of [2147483692; 0]);
        lift (derive_from k (path_of [1; 5]))) w
  /\ derive_key "cfg" (path_of ([2147483692; 0] ++ [1; 5])) w
     = (k ← derive_key "cfg" (path_of [2147483692; 0]);
        lift (bip32_key_from_parent_path k (path_of [1; 5]) BIP32_FLAG_KEY_PRIVATE)) w.
Proof.
  intros w.
  assert (H1 : Forall uint32 [2147483692; 0]) by (repeat constructor; discriminate).
  assert (H2 : Forall uint32 [1; 5]) by (repeat constructor; discriminate).
  destruct (derive_key_compositional "cfg" [2147483692; 0] [1; 5] w H1 H2)
    as (Hmaster & Hcomp & Hcall).
  repeat (split; [assumption|]). apply Hcall. discriminate.
Defined.

Example derive_key_example :
  fst (derive_key "cfg" (path_of [2147483692; 0; 1; 5])
         (Example.stored_world Example.bip39_vector))
  = Ok [2147483692; 0; 1; 5].
Proof. reflexivity. Qed.

End DerivationExamples.

(** ** Login credentials of the device-backed variants *)

(** The text of the descriptor: [{"device": {"name": "<name>"}}], the name
    written as a JSON string. *)
Lemma dumps_device_descriptor (n : string) :
  Str.dumps (device_descriptor n)
  = "{" ++ Str.quote "device" ++ ": {" ++ Str.quote "name" ++ ": " ++ Str.quote n ++ "}}".
Proof.
  unfold device_descriptor. cbn [Str.dumps List.map Str.join].
  rewrite !string_app_assoc. reflexivity.
Qed.

(** C7. A login with the wally or the hardware variant calls [gdk.login]
    with the text [{"device": {"name": "<name>"}}] as the device descriptor,
    an empty mnemonic and an empty password, where the name is that of the
    device: [libwally software signer] for the wally variant, type [@] path
    of the hwi description for the hardware variant (the login fails before
    the call when that description lacks one of the two). The login reads
    and changes nothing of the world, so its outcome is the same whatever
    mnemonic is stored. *)
Theorem device_backed_login_credentials
    {pylib : PyLib} {handlers : AuthHandler} {gdk : Gdk} {hwi : Hwi}
    (a : authenticator) (session_obj : session) (w : world) :
  device_backed a = true ->
  mnemonic a w = (Ok "", w)
  /\ password a w = (Ok "", w)
  /\ (forall n, name a = Ok n ->
      login a session_obj w
      = (h ← gdk_login session_obj
                ("{" ++ Str.quote "device" ++ ": {" ++ Str.quote "name" ++ ": "
                 ++ Str.quote n ++ "}}") "" "";
         Ok (Some h), w))
  /\ (forall e, name a = Raise e -> login a session_obj w = (Raise e, w))
  /\ (forall w', fst (login a session_obj w') = fst (login a session_obj w))
  /\ match a with
     | IsDefault _ => True
     | IsWally _ => name a = Ok "libwally software signer"
     | IsHWI details _ =>
         name a = (ty ← getitem details "type";
                   path ← getitem details "path";
                   Ok (str ty ++ "@" ++ str path))
     end.
Proof.
  intros Hd.
  assert (Hlogin : forall w0, login a session_obj w0
                              = (n ← name a;
                                 h ← gdk_login session_obj (Str.dumps (device_descriptor n))
                                       "" "";
                                 Ok (Some h), w0)).
  { intros w0. destruct a as [config_dir|config_dir|details dev]; [discriminate Hd| |];
      unfold login, Authenticator_login, hw_device, HardwareDevice_hw_device;
      match goal with |- context [name ?a] => destruct (name a) as [n|e] end;
      try reflexivity;
      unfold mnemonic, password, HardwareDevice_mnemonic, HardwareDevice_password;
      run_M; now destruct (gdk_login _ _ _ _). }
  assert (Hrest : (forall n, name a = Ok n ->
                     login a session_obj w
                     = (h ← gdk_login session_obj
                               ("{" ++ Str.quote "device" ++ ": {" ++ Str.quote "name" ++ ": "
                                ++ Str.quote n ++ "}}") "" "";
                        Ok (Some h), w))
                  /\ (forall e, name a = Raise e -> login a session_obj w = (Raise e, w))
                  /\ (forall w', fst (login a session_obj w') = fst (login a session_obj w))).
  { split; [|split].
    - intros n Hn. rewrite Hlogin, Hn. cbn [mbind res_bind].
      now rewrite dumps_device_descriptor.
    - intros e He. now rewrite Hlogin, He.
    - intros w'. now rewrite !Hlogin. }
  destruct a as [config_dir|config_dir|details dev]; [discriminate Hd| |];
    (split; [reflexivity|]; split; [reflexivity|];
     destruct Hrest as (H1 & H2 & H3); repeat split; assumption || reflexivity).
Qed.

Section LoginExamples.
#[local] Existing Instance Example.pylib.
#[local] Existing Instance Example.scripted.
#[local] Existing Instance Example.gdk.
#[local] Existing Instance Example.wally.

Lemma device_backed_login_credentials_witness :
  let w := Example.stored_world Example.bip39_vector in
  device_backed (hwi := Example.hwi []) (IsWally "cfg") = true
  /\ login (hwi := Example.hwi []) (IsWally "cfg") Example.the_session w
     = (Ok (Some (Example.script [Example.wally_login_handler])), w).
Proof.
  intros w. split; [reflexivity|].
  destruct (device_backed_login_credentials (hwi := Example.hwi [])
              (IsWally "cfg") Example.the_session w eq_refl) as (_ & _ & Hlogin & _).
  exact (Hlogin "libwally software signer" eq_refl).
Defined.

End LoginExamples.

(** ** Selecting the hardware device *)

Lemma get_device_one {pylib : PyLib} {hwi : Hwi} (d : json) :
  hwi_enumerate = Ok [d] ->
  get_device
  = (has_error ← contains d "error";
     if has_error : bool then
       err ← getitem d "error";
       Raise (ClickException (error_with_hwi_device err))
     else HWIDevice_init d).
Proof. intros He. unfold get_device. now rewrite He. Qed.

(** C8, as the code has it. With no device enumerated [get_device] raises
    the "No hwi devices" error and its check list; with more than one it
    raises "Device selection not implemented"; with exactly one it goes on
    with that device, building the [HWIDevice] from its description,
    unless the description has an [error] entry, in which case it raises
    an error reporting that entry. *)
Theorem get_device_by_count {pylib : PyLib} {hwi : Hwi} (devices : list json) :
  hwi_enumerate = Ok devices ->
  (devices = [] -> get_device = Raise (ClickException no_hwi_devices))
  /\ (forall d, devices = [d] -> contains d "error" = Ok false ->
      get_device = HWIDevice_init d
      /\ forall path dev,
           getitem d "path" = Ok path -> hwi_find_device path = Ok dev ->
           get_device = Ok (IsHWI d dev))
  /\ (forall d err, devices = [d] -> getitem d "error" = Ok err ->
      get_device = Raise (ClickException (error_with_hwi_device err)))
  /\ ((1 < length devices)%nat ->
      get_device = Raise (NotImplementedError "Device selection not implemented")).
Proof.
  intros He. split; [|split; [|split]].
  - intros ->. unfold get_device. now rewrite He.
  - intros d -> Hd. rewrite (get_device_one d He), Hd.
    split; [reflexivity|].
    intros path dev Hpath Hdev. unfold HWIDevice_init. rewrite Hpath. run_M.
    now rewrite Hdev.
  - intros d err -> Herr. rewrite (get_device_one d He).
    assert (Hd : contains d "error" = Ok true).
    { unfold getitem in Herr. destruct d; try discriminate Herr. unfold contains.
      now destruct (assoc "error" kvs). }
    rewrite Hd. run_M. now rewrite Herr.
  - intros Hlen. unfold get_device. rewrite He.
    destruct devices as [|d [|d' rest]]; cbn in Hlen; try lia. reflexivity.
Qed.

Section DeviceExamples.
#[local] Existing Instance Example.pylib.

Lemma get_device_by_count_witness :
  get_device (hwi := Example.hwi []) = Raise (ClickException no_hwi_devices)
  /\ get_device (hwi := Example.hwi [Example.ledger])
     = Ok (IsHWI (hwi := Example.hwi [Example.ledger]) Example.ledger (JStr "0001:0007:00"))
  /\ get_device (hwi := Example.hwi [Example.locked_trezor])
     = Raise (ClickException
                (error_with_hwi_device
                   (JStr "Could not open client or get fingerprint information")))
  /\ get_device (hwi := Example.hwi [Example.ledger; Example.locked_trezor])
     = Raise (NotImplementedError "Device selection not implemented").
Proof.
  destruct (get_device_by_count (hwi := Example.hwi []) [] eq_refl) as (Hnone & _).
  destruct (get_device_by_count (hwi := Example.hwi [Example.ledger]) _ eq_refl)
    as (_ & Hone & _).
  destruct (get_device_by_count (hwi := Example.hwi [Example.locked_trezor]) _ eq_refl)
    as (_ & _ & Herror & _).
  destruct (get_device_by_count
              (hwi := Example.hwi [Example.ledger; Example.locked_trezor]) _ eq_refl)
    as (_ & _ & _ & Hmany).
  split; [|split; [|split]].
  - apply Hnone. reflexivity.
  - destruct (Hone Example.ledger eq_refl eq_refl) as [_ Hdev].
    apply (Hdev (JStr "0001:0007:00")); reflexivity.
  - apply (Herror Example.locked_trezor); reflexivity.
  - apply Hmany. cbn. lia.
Defined.

(** C8 as stated fails: exactly one device is enumerated, and the client
    does not go on with it. *)
Lemma get_device_single_device_rejected :
  hwi_enumerate (Hwi := Example.hwi [Example.locked_trezor]) = Ok [Example.locked_trezor]
  /\ get_device (hwi := Example.hwi [Example.locked_trezor])
     = Raise (ClickException
                ("Error with hwi device: Could not open client or get fingerprint information"
                 ++ Str.newline
                 ++ "Check the device and activate the bitcoin app if necessary")).
Proof. split; reflexivity. Qed.

End DeviceExamples.

(** ** Signing a transaction with the wally authenticator *)

Section SignTx.
Context {wally : Wally}.
Variable config_dir : string.

Lemma sign_inputs_app txdetails index before rest signatures w :
  sign_inputs config_dir txdetails index (before ++ rest) signatures w
  = (sigs ← sign_inputs config_dir txdetails index before signatures;
     sign_inputs config_dir txdetails (index + length before) rest sigs) w.
Proof.
  revert index signatures w.
  induction before as [|utxo before IH]; intros index signatures w.
  - cbn [app sign_inputs length]. rewrite Nat.add_0_r. reflexivity.
  - cbn [app sign_inputs length]. unfold mbind at 1 2 3, M_bind.
    destruct (sign_input config_dir txdetails index utxo w) as [[sig|e] w1]; [|reflexivity].
    rewrite IH. now rewrite Nat.add_succ_r.
Qed.

(** An input that is not witness-bearing makes the loop body raise. *)
Lemma sign_input_non_witness txdetails index utxo w :
  witness_bearing utxo = false ->
  exists e, sign_input config_dir txdetails index utxo w = (Raise e, w).
Proof.
  unfold witness_bearing, sign_input. intros Hnw. run_M.
  destruct (getitem txdetails "transaction") as [txhex|e]; [|eauto].
  destruct (tx_from_hex txhex WALLY_TX_FLAG_USE_WITNESS) as [wtx|e]; [|eauto].
  destruct (getitem utxo "script_type") as [t|e]; [|eauto].
  rewrite Hnw. cbn [negb]. eauto.
Qed.

(** With the transaction parsed and a script type outside the list, the
    error is the one for an unsupported input. *)
Lemma sign_input_unsupported txdetails index utxo w txhex wtx t :
  getitem txdetails "transaction" = Ok txhex ->
  tx_from_hex txhex WALLY_TX_FLAG_USE_WITNESS = Ok wtx ->
  getitem utxo "script_type" = Ok t ->
  in_ints t segwit_script_types = false ->
  sign_input config_dir txdetails index utxo w
  = (Raise (NotImplementedError "Non-segwit input"), w).
Proof.
  intros Htx Hwtx Ht Hnw. unfold sign_input. run_M.
  now rewrite Htx, Hwtx, Ht, Hnw.
Qed.

Lemma sign_tx_input_list details txdetails utxos w :
  getitem details "transaction" = Ok txdetails ->
  input_list details = Ok utxos ->
  WallyAuthenticator_sign_tx config_dir details w
  = (signatures ← sign_inputs config_dir txdetails 0 utxos [];
     mret (Str.dumps (JObj [("signatures", JArr signatures)]))) w.
Proof.
  unfold input_list, WallyAuthenticator_sign_tx. intros -> Hl. run_M.
  cbv beta iota in Hl.
  destruct (getitem txdetails "used_utxos") as [used|e]; [|discriminate Hl].
  destruct (truthy used).
  - now rewrite Hl.
  - destruct (getitem txdetails "old_used_utxos") as [old|e]; [|discriminate Hl].
    now rewrite Hl.
Qed.

End SignTx.

(** A [sign_tx] device action reaches [sign_tx] through [resolve]. *)
Lemma resolve_sign_tx {pylib : PyLib} {wally : Wally} {hwi : Hwi}
    (config_dir : string) (request details : json) (w : world) :
  getitem request "required_data" = Ok details ->
  getitem details "action" = Ok (JStr "sign_tx") ->
  resolve (IsWally config_dir) request w = WallyAuthenticator_sign_tx config_dir details w.
Proof.
  intros Hd Ha. unfold resolve, HardwareDevice_resolve. cbn [name].
  unfold WallyAuthenticator_name. run_M. now rewrite Hd, Ha.
Qed.

(** C3, as the code has it. When the input list of a signing request has
    an input that is not witness-bearing, [sign_tx] raises and so returns
    no signature at all, whatever came before that input. The loop signs
    the inputs in order and looks at the type of an input only when it gets
    to it: when the transaction parses and the inputs before that one were
    signed, the error raised is the one for an unsupported input,
    "Non-segwit input". *)
Theorem sign_tx_rejects_non_witness {wally : Wally}
    (config_dir : string) (details txdetails : json)
    (before : list json) (utxo : json) (after : list json) (w : world) :
  getitem details "transaction" = Ok txdetails ->
  input_list details = Ok (before ++ utxo :: after)%list ->
  witness_bearing utxo = false ->
  (exists e, fst (WallyAuthenticator_sign_tx config_dir details w) = Raise e)
  /\ (forall txhex wtx t signatures w1,
        getitem txdetails "transaction" = Ok txhex ->
        tx_from_hex txhex WALLY_TX_FLAG_USE_WITNESS = Ok wtx ->
        getitem utxo "script_type" = Ok t ->
        sign_inputs config_dir txdetails 0 before [] w = (Ok signatures, w1) ->
        WallyAuthenticator_sign_tx config_dir details w
        = (Raise (NotImplementedError "Non-segwit input"), w1)).
Proof.
  intros Htx Hl Hnw.
  rewrite (sign_tx_input_list config_dir details txdetails _ w Htx Hl).
  split.
  - unfold mbind at 1, M_bind. rewrite sign_inputs_app. unfold mbind at 1, M_bind.
    destruct (sign_inputs config_dir txdetails 0 before [] w) as [[sigs|e] w1];
      [|now exists e].
    cbn [sign_inputs]. unfold mbind at 1, M_bind.
    destruct (sign_input_non_witness config_dir txdetails (0 + length before) utxo w1 Hnw)
      as [e He].
    rewrite He. now exists e.
  - intros txhex wtx t signatures w1 Hhex Hwtx Ht Hbefore.
    assert (Hin : in_ints t segwit_script_types = false).
    { unfold witness_bearing in Hnw. now rewrite Ht in Hnw. }
    unfold mbind at 1, M_bind. rewrite sign_inputs_app. unfold mbind at 1, M_bind.
    rewrite Hbefore. cbn [sign_inputs]. unfold mbind at 1, M_bind.
    now rewrite (sign_input_unsupported config_dir txdetails _ utxo w1 txhex wtx t).
Qed.

Section SignTxExamples.
#[local] Existing Instance Example.wally.

Example sign_tx_all_witness :
  fst (WallyAuthenticator_sign_tx "cfg" (Example.sign_request [Example.p2wsh_input; Example.p2wsh_input])
         (Example.stored_world Example.bip39_vector))
  = Ok (Str.dumps (JObj [("signatures", JArr [JStr "01070001"; JStr "01070101"])])).
Proof. reflexivity. Qed.

Lemma sign_tx_rejects_non_witness_witness :
  let w := Example.stored_world Example.bip39_vector in
  let details := Example.sign_request [Example.p2wsh_input; Example.p2sh_input; Example.p2wsh_input] in
  witness_bearing Example.p2sh_input = false
  /\ (exists e, fst (WallyAuthenticator_sign_tx "cfg" details w) = Raise e)
  /\ WallyAuthenticator_sign_tx "cfg" details w
     = (Raise (NotImplementedError "Non-segwit input"), w).
Proof.
  intros w details.
  destruct (sign_tx_rejects_non_witness "cfg" details
              (JObj [("transaction", JStr "0200000001");
                     ("used_utxos", JArr [Example.p2wsh_input; Example.p2sh_input; Example.p2wsh_input])])
              [Example.p2wsh_input] Example.p2sh_input [Example.p2wsh_input] w eq_refl eq_refl eq_refl)
    as [Hnone Hkind].
  split; [reflexivity|]. split; [exact Hnone|].
  apply (Hkind (JStr "0200000001") "0200000001" (JInt 10) [JStr "01070001"]); reflexivity.
Defined.

(** C3 as stated fails: each request has an input that is not
    witness-bearing, and the failure is not the error for an unsupported
    input but that of the input before it, which is signed first: without
    a stored mnemonic there is no key to sign it with, and without its
    previous output script there is nothing to sign. *)
Lemma sign_tx_fails_before_unsupported_input :
  let incomplete := JObj [("script_type", JInt 14)] in
  input_list (Example.sign_request [Example.p2wsh_input; Example.p2sh_input])
  = Ok [Example.p2wsh_input; Example.p2sh_input]
  /\ getitem Example.p2sh_input "script_type" = Ok (JInt 10)
  /\ in_ints (JInt 10) segwit_script_types = false
  /\ WallyAuthenticator_sign_tx "cfg"
       (Example.sign_request [Example.p2wsh_input; Example.p2sh_input]) Example.empty_world
     = (Raise (FileNotFoundError "cfg/mnemonic"), Example.empty_world)
  /\ WallyAuthenticator_sign_tx "cfg"
       (Example.sign_request [incomplete; Example.p2sh_input])
       (Example.stored_world Example.bip39_vector)
     = (Raise (KeyError "prevout_script"), Example.stored_world Example.bip39_vector).
Proof. repeat split. Qed.

End SignTxExamples.

(** ** The resolution loop *)

Section Resolver.
Context {handlers : AuthHandler}.
Variable context : Context.

Lemma record_calls c s : record c s = (Ok tt, advanced s [c] (run_world s)).
Proof. reflexivity. Qed.

Lemma advanced_advanced s cs w cs' w' :
  advanced (advanced s cs w) cs' w' = advanced s (cs ++ cs') w'.
Proof. unfold advanced. cbn. now rewrite <- app_assoc. Qed.

Lemma record_advanced c s cs w :
  record c (advanced s cs w) = (Ok tt, advanced s (cs ++ [c]) w).
Proof. unfold record, advanced. cbn. now rewrite <- app_assoc. Qed.

Lemma in_world_advanced {A} (m : M A) s cs w r w' :
  m w = (r, w') -> in_world m (advanced s cs w) = (r, advanced s cs w').
Proof. intros E. unfold in_world, advanced. cbn. now rewrite E. Qed.

Lemma record_then_in_world {A} c (m : M A) s cs w r w' :
  m w = (r, w') ->
  (record c ;; in_world m) (advanced s cs w) = (r, advanced s (cs ++ [c]) w').
Proof.
  intros E. rewrite (T_bind_ok _ _ _ _ _ (record_advanced _ _ _ _)).
  now apply in_world_advanced.
Qed.

Lemma pure_ok {A} (r : res A) a s : r = Ok a -> pure r s = (Ok a, s).
Proof. now intros ->. Qed.

(** The head of every pass: the status is fetched and its state read. *)
Lemma body_state h state status s :
  reports h state status ->
  _gdk_resolve_body context h s
  = (if eq_str (JStr state) "error" then pure (Raise (RuntimeError status))
     else if eq_str (JStr state) "done" then
       result ← pure (getitem status "result");
       mret (Return result)
     else if eq_str (JStr state) "request_code" then
       methods ← pure (getitem status "methods");
       record (SelectAuthFactor methods) ;;
       authentication_factor ←
         in_world (twofac_select_auth_factor (twofac_resolver context) methods);
       record (RequestCode authentication_factor) ;;
       h' ← pure (auth_handler_request_code h authentication_factor);
       mret (Continue h')
     else if eq_str (JStr state) "resolve_code" then
       device ← pure (getitem status "device");
       resolution ←
         (if truthy device
          then record (AuthenticatorResolve status) ;;
               in_world (context_authenticator_resolve context status)
          else record (TwoFactorResolve status) ;;
               in_world (twofac_resolve (twofac_resolver context) status));
       record (ResolveCode resolution) ;;
       h' ← pure (auth_handler_resolve_code h resolution);
       mret (Continue h')
     else if eq_str (JStr state) "call" then
       record AdvanceCall ;;
       h' ← pure (auth_handler_call h);
       mret (Continue h')
     else mret (Continue h)) (advanced s [GetStatus] (run_world s)).
Proof.
  intros [Hs Hst]. unfold _gdk_resolve_body.
  rewrite (T_bind_ok _ _ _ _ _ (record_calls GetStatus s)).
  rewrite (T_bind_ok _ _ _ _ _ (pure_ok _ _ _ Hs)).
  now rewrite (T_bind_ok _ _ _ _ _ (pure_ok _ _ _ Hst)).
Qed.

Lemma body_error h status s :
  reports h "error" status ->
  _gdk_resolve_body context h s
  = (Raise (RuntimeError status), advanced s [GetStatus] (run_world s)).
Proof. intros Hr. now rewrite (body_state _ _ _ _ Hr). Qed.

Lemma body_done h status payload s :
  reports h "done" status ->
  getitem status "result" = Ok payload ->
  _gdk_resolve_body context h s
  = (Ok (Return payload), advanced s [GetStatus] (run_world s)).
Proof.
  intros Hr Hp. rewrite (body_state _ _ _ _ Hr). cbn [eq_str String.eqb Ascii.eqb Bool.eqb].
  cbv beta iota. run_M. now rewrite Hp.
Qed.

Lemma body_call h status h' s :
  reports h "call" status ->
  auth_handler_call h = Ok h' ->
  _gdk_resolve_body context h s
  = (Ok (Continue h'), advanced s [GetStatus; AdvanceCall] (run_world s)).
Proof.
  intros Hr Hc. rewrite (body_state _ _ _ _ Hr). cbn [eq_str String.eqb Ascii.eqb Bool.eqb].
  cbv beta iota.
  rewrite (T_bind_ok _ _ _ _ _ (record_advanced _ _ _ _)).
  now rewrite (T_bind_ok _ _ _ _ _ (pure_ok _ _ _ Hc)).
Qed.

Lemma body_request_code h status methods factor w1 h' s :
  reports h "request_code" status ->
  getitem status "methods" = Ok methods ->
  twofac_select_auth_factor (twofac_resolver context) methods (run_world s) = (Ok factor, w1) ->
  auth_handler_request_code h factor = Ok h' ->
  _gdk_resolve_body context h s
  = (Ok (Continue h'),
     advanced s [GetStatus; SelectAuthFactor methods; RequestCode factor] w1).
Proof.
  intros Hr Hm Hsel Hreq. rewrite (body_state _ _ _ _ Hr).
  cbn [eq_str String.eqb Ascii.eqb Bool.eqb]. cbv beta iota.
  rewrite (T_bind_ok _ _ _ _ _ (pure_ok _ _ _ Hm)).
  rewrite (T_bind_ok _ _ _ _ _ (record_advanced _ _ _ _)).
  rewrite (T_bind_ok _ _ _ _ _ (in_world_advanced _ _ _ _ _ _ Hsel)).
  rewrite (T_bind_ok _ _ _ _ _ (record_advanced _ _ _ _)).
  now rewrite (T_bind_ok _ _ _ _ _ (pure_ok _ _ _ Hreq)).
Qed.

(** A pass on a [resolve_code] status, when the collaborator returns. *)
Lemma body_resolve_code h status device resolution w1 s :
  reports h "resolve_code" status ->
  getitem status "device" = Ok device ->
  delegate context status device (run_world s) = (Ok resolution, w1) ->
  _gdk_resolve_body context h s
  = (h' ← auth_handler_resolve_code h resolution; Ok (Continue h'),
     advanced s [GetStatus; delegation status device; ResolveCode resolution] w1).
Proof.
  intros Hr Hd Hdel. rewrite (body_state _ _ _ _ Hr).
  cbn [eq_str String.eqb Ascii.eqb Bool.eqb]. cbv beta iota.
  rewrite (T_bind_ok _ _ _ _ _ (pure_ok _ _ _ Hd)).
  unfold delegate, delegation in *.
  destruct (truthy device);
    rewrite (T_bind_ok _ _ _ _ _ (record_then_in_world _ _ _ _ _ _ _ Hdel));
    rewrite (T_bind_ok _ _ _ _ _ (record_advanced _ _ _ _));
    unfold pure, mbind, T_bind, res_bind;
    now destruct (auth_handler_resolve_code h resolution).
Qed.

(** A pass on a [resolve_code] status, when the collaborator raises. *)
Lemma body_resolve_code_raises h status device e w1 s :
  reports h "resolve_code" status ->
  getitem status "device" = Ok device ->
  delegate context status device (run_world s) = (Raise e, w1) ->
  _gdk_resolve_body context h s
  = (Raise e, advanced s [GetStatus; delegation status device] w1).
Proof.
  intros Hr Hd Hdel. rewrite (body_state _ _ _ _ Hr).
  cbn [eq_str String.eqb Ascii.eqb Bool.eqb]. cbv beta iota.
  rewrite (T_bind_ok _ _ _ _ _ (pure_ok _ _ _ Hd)).
  unfold delegate, delegation in *.
  destruct (truthy device);
    now rewrite (T_bind_raise _ _ _ _ _ (record_then_in_world _ _ _ _ _ _ _ Hdel)).
Qed.

(** *** The loop *)

Lemma loop_continue fuel h s h1 s1 :
  _gdk_resolve_body context h s = (Ok (Continue h1), s1) ->
  _gdk_resolve_loop (S fuel) context h s = _gdk_resolve_loop fuel context h1 s1.
Proof. intros E. cbn [_gdk_resolve_loop]. now rewrite E. Qed.

Lemma loop_return fuel h s payload s1 :
  _gdk_resolve_body context h s = (Ok (Return payload), s1) ->
  _gdk_resolve_loop (S fuel) context h s = Some (Ok payload, s1).
Proof. intros E. cbn [_gdk_resolve_loop]. now rewrite E. Qed.

Lemma loop_raise fuel h s e s1 :
  _gdk_resolve_body context h s = (Raise e, s1) ->
  _gdk_resolve_loop (S fuel) context h s = Some (Raise e, s1).
Proof. intros E. cbn [_gdk_resolve_loop]. now rewrite E. Qed.

(** Once the loop has an outcome, more fuel does not change it. *)
Lemma loop_more_fuel fuel fuel' h s out :
  (fuel <= fuel')%nat ->
  _gdk_resolve_loop fuel context h s = Some out ->
  _gdk_resolve_loop fuel' context h s = Some out.
Proof.
  revert fuel' h s. induction fuel as [|fuel IH]; intros fuel' h s Hle E; [discriminate E|].
  destruct fuel' as [|fuel']; [lia|].
  cbn [_gdk_resolve_loop] in *.
  destruct (_gdk_resolve_body context h s) as [[[result|h1]|e] s1]; auto.
  apply IH; [lia | exact E].
Qed.

(** What the loop does from a state it reaches is what it does. *)
Lemma reaches_loop h s h' s' out :
  reaches context h s h' s' ->
  (exists n, _gdk_resolve_loop n context h' s' = Some out) ->
  exists n, _gdk_resolve_loop n context h s = Some out.
Proof.
  induction 1 as [|h s h1 s1 h' s' Hbody Hreach IH]; [auto|].
  intros Hout. destruct (IH Hout) as [n Hn].
  exists (S n). now rewrite (loop_continue _ _ _ _ _ Hbody).
Qed.

End Resolver.

(** C9. When the handler reports the [error] state, the pass fetches the
    status and raises [RuntimeError] carrying that status as the backend
    reported it; no collaborator is called and the backend is not called
    again. This ends the loop, from wherever the loop had got to. *)
Theorem error_status_raised_verbatim {handlers : AuthHandler} (context : Context)
    (h0 h : auth_handler) (s0 s : run) (status : json) :
  reaches context h0 s0 h s ->
  reports h "error" status ->
  let after := advanced s [GetStatus] (run_world s) in
  _gdk_resolve_body context h s = (Raise (RuntimeError status), after)
  /\ (forall fuel,
        _gdk_resolve_loop (S fuel) context h s = Some (Raise (RuntimeError status), after))
  /\ exists n, forall fuel, (n <= fuel)%nat ->
       _gdk_resolve_loop fuel context h0 s0 = Some (Raise (RuntimeError status), after).
Proof.
  intros Hreach Herr after.
  assert (Hbody : _gdk_resolve_body context h s = (Raise (RuntimeError status), after))
    by now apply body_error.
  split; [exact Hbody|]. split.
  - intros fuel. now apply loop_raise.
  - destruct (reaches_loop context h0 s0 h s (Raise (RuntimeError status), after) Hreach)
      as [n Hn].
    { exists 1%nat. now apply loop_raise. }
    exists n. intros fuel Hle. now apply (loop_more_fuel context n fuel).
Qed.

(** C1. For a handler that reports [request_code], [resolve_code], [call]
    and [done] in that order, with collaborators that return, the loop
    fetches the status four times and in between makes exactly these calls:
    the selection of a method and the request of a code for it; the
    resolution by the collaborator the status designates and its
    submission; the plain call. It returns the [result] of the [done]
    status, for any bound of at least four passes. *)
Theorem resolves_scripted_sequence {handlers : AuthHandler} (context : Context)
    (h0 h1 h2 h3 : auth_handler) (s_request s_resolve s_call s_done : json)
    (methods factor device payload : json) (resolution : string) (w w1 w2 : world) :
  reports h0 "request_code" s_request ->
  getitem s_request "methods" = Ok methods ->
  twofac_select_auth_factor (twofac_resolver context) methods w = (Ok factor, w1) ->
  auth_handler_request_code h0 factor = Ok h1 ->
  reports h1 "resolve_code" s_resolve ->
  getitem s_resolve "device" = Ok device ->
  delegate context s_resolve device w1 = (Ok resolution, w2) ->
  auth_handler_resolve_code h1 resolution = Ok h2 ->
  reports h2 "call" s_call ->
  auth_handler_call h2 = Ok h3 ->
  reports h3 "done" s_done ->
  getitem s_done "result" = Ok payload ->
  forall fuel, (4 <= fuel)%nat ->
    _gdk_resolve fuel context h0 w
    = Some (Ok payload,
            {| calls := [GetStatus; SelectAuthFactor methods; RequestCode factor;
                         GetStatus; delegation s_resolve device; ResolveCode resolution;
                         GetStatus; AdvanceCall;
                         GetStatus];
               run_world := w2 |}).
Proof.
  intros Hreq Hmethods Hselect Hcode Hres Hdevice Hdelegate Hsubmit Hcall Hadvance
    Hdone Hpayload fuel Hfuel.
  apply (loop_more_fuel context 4 fuel); [exact Hfuel|].
  unfold _gdk_resolve.
  rewrite (loop_continue context _ _ _ _ _
             (body_request_code context h0 s_request methods factor w1 h1
                {| calls := []; run_world := w |} Hreq Hmethods Hselect Hcode)).
  pose proof (body_resolve_code context h1 s_resolve device resolution w2
                (advanced {| calls := []; run_world := w |}
                   [GetStatus; SelectAuthFactor methods; RequestCode factor] w1)
                Hres Hdevice Hdelegate) as Hbody.
  rewrite Hsubmit in Hbody.
  rewrite (loop_continue context _ _ _ _ _ Hbody).
  rewrite (loop_continue context _ _ _ _ _ (body_call context _ _ _ _ Hcall Hadvance)).
  rewrite (loop_return context _ _ _ _ _ (body_done context _ _ _ _ Hdone Hpayload)).
  reflexivity.
Qed.

(** C2. On a [resolve_code] status the pass hands the whole status to the
    authenticator's [resolve] when the status's [device] entry is true as
    a condition, and to the two factor resolver otherwise, never to both;
    what the collaborator returns is submitted with
    [auth_handler_resolve_code]. The console two factor resolver prompts
    with the action, the method and the remaining attempts of the status,
    and returns the line typed. *)
Theorem resolve_code_delegation {pylib : PyLib} {handlers : AuthHandler}
    (context : Context) (h : auth_handler) (status device : json) (s : run) :
  reports h "resolve_code" status ->
  getitem status "device" = Ok device ->
  (truthy device = true ->
   forall resolution w1,
     context_authenticator_resolve context status (run_world s) = (Ok resolution, w1) ->
     _gdk_resolve_body context h s
     = (h' ← auth_handler_resolve_code h resolution; Ok (Continue h'),
        advanced s [GetStatus; AuthenticatorResolve status; ResolveCode resolution] w1))
  /\ (truthy device = false ->
      forall resolution w1,
        twofac_resolve (twofac_resolver context) status (run_world s) = (Ok resolution, w1) ->
        _gdk_resolve_body context h s
        = (h' ← auth_handler_resolve_code h resolution; Ok (Continue h'),
           advanced s [GetStatus; TwoFactorResolve status; ResolveCode resolution] w1))
  /\ (forall action method attempts_remaining code rest w,
        getitem status "action" = Ok action ->
        getitem status "method" = Ok method ->
        getitem status "attempts_remaining" = Ok attempts_remaining ->
        stdin w = code :: rest ->
        TwoFactorResolver_resolve status w
        = (Ok code,
           {| fs := fs w; umask := umask w; privileged := privileged w;
              medium := medium w; stdin := rest;
              stdout := stdout w ++ [enter_2fa_code action method attempts_remaining] |})).
Proof.
  intros Hr Hd. split; [|split].
  - intros Ht resolution w1 Hres.
    pose proof (body_resolve_code context h status device resolution w1 s Hr Hd) as Hbody.
    unfold delegate, delegation in Hbody. rewrite Ht in Hbody. now apply Hbody.
  - intros Ht resolution w1 Hres.
    pose proof (body_resolve_code context h status device resolution w1 s Hr Hd) as Hbody.
    unfold delegate, delegation in Hbody. rewrite Ht in Hbody. now apply Hbody.
  - intros action method attempts_remaining code rest w Ha Hm Hn Hin.
    unfold TwoFactorResolver_resolve. run_M. rewrite Ha, Hm, Hn.
    unfold Console.input. now rewrite Hin.
Qed.

Section ResolverExamples.
#[local] Existing Instance Example.pylib.
#[local] Existing Instance Example.scripted.
Import Example.

Lemma resolves_scripted_sequence_witness :
  _gdk_resolve 4 wally_context
    (script [status_request_code; status_resolve_code; status_call; status_done])
    typing_world
  = Some (Ok (JObj [("txhash", JStr "9f2c")]),
          {| calls := [GetStatus; SelectAuthFactor (JArr [JStr "email"; JStr "sms"]);
                       RequestCode (JStr "sms");
                       GetStatus; TwoFactorResolve status_resolve_code; ResolveCode "123456";
                       GetStatus; AdvanceCall;
                       GetStatus];
             run_world := typing_world_resolved |}).
Proof.
  apply (resolves_scripted_sequence wally_context
           (script [status_request_code; status_resolve_code; status_call; status_done])
           (script [status_resolve_code; status_call; status_done])
           (script [status_call; status_done])
           (script [status_done])
           status_request_code status_resolve_code status_call status_done
           (JArr [JStr "email"; JStr "sms"]) (JStr "sms") (JObj [])
           (JObj [("txhash", JStr "9f2c")]) "123456"
           typing_world typing_world_selected typing_world_resolved);
    try (split; reflexivity); try reflexivity.
Defined.

Lemma error_status_raised_verbatim_witness :
  exists n, forall fuel, (n <= fuel)%nat ->
    _gdk_resolve_loop fuel wally_context (script [status_call; status_error])
      {| calls := []; run_world := typing_world |}
    = Some (Raise (RuntimeError status_error),
            {| calls := [GetStatus; AdvanceCall; GetStatus]; run_world := typing_world |}).
Proof.
  assert (Hreach : reaches wally_context (script [status_call; status_error])
                     {| calls := []; run_world := typing_world |}
                     (script [status_error])
                     {| calls := [GetStatus; AdvanceCall]; run_world := typing_world |}).
  { eapply reaches_pass; [reflexivity | apply reaches_here]. }
  assert (Herr : reports (script [status_error]) "error" status_error)
    by (split; reflexivity).
  destruct (error_status_raised_verbatim wally_context _ _ _ _ status_error Hreach Herr)
    as (_ & _ & Hloop).
  exact Hloop.
Defined.

Lemma resolve_code_delegation_witness :
  (_gdk_resolve_body wally_context (script [status_get_xpubs; status_done])
     {| calls := []; run_world := typing_world |}
   = (Ok (Continue (script [status_done])),
      {| calls := [GetStatus; AuthenticatorResolve status_get_xpubs;
                   ResolveCode (Str.dumps (JObj [("xpubs", JArr [JStr "xpub";
                                                                 JStr "xpub/3/1"])]))];
         run_world := typing_world |}))
  /\ (_gdk_resolve_body wally_context (script [status_resolve_code; status_done])
        {| calls := []; run_world := typing_world_selected |}
      = (Ok (Continue (script [status_done])),
         {| calls := [GetStatus; TwoFactorResolve status_resolve_code; ResolveCode "123456"];
            run_world := typing_world_resolved |}))
  /\ TwoFactorResolver_resolve status_resolve_code typing_world_selected
     = (Ok "123456", typing_world_resolved).
Proof.
  destruct (resolve_code_delegation wally_context (script [status_get_xpubs; status_done])
              status_get_xpubs (JObj [("name", JStr "libwally software signer")])
              {| calls := []; run_world := typing_world |})
    as (Hdevice & _ & _); try (split; reflexivity); try reflexivity.
  destruct (resolve_code_delegation wally_context (script [status_resolve_code; status_done])
              status_resolve_code (JObj [])
              {| calls := []; run_world := typing_world_selected |})
    as (_ & Htwofac & Hconsole); try (split; reflexivity); try reflexivity.
  split; [|split].
  - apply (Hdevice eq_refl); reflexivity.
  - apply (Htwofac eq_refl); reflexivity.
  - apply (Hconsole (JStr "send_raw_tx") (JStr "sms") (JInt 3) "123456" []); reflexivity.
Defined.

End ResolverExamples.

(** * More properties of the code *)

(** ** Choosing the authentication factor *)

Section SelectFactor.
Context {pylib : PyLib}.

Lemma print_factors_lines i factors w :
  print_factors i factors w = (Ok tt, console w (stdin w) (factor_lines i factors)).
Proof.
  revert i w. induction factors as [|factor rest IH]; intros i w.
  - cbn. unfold console. rewrite app_nil_r. now destruct w.
  - cbn [print_factors factor_lines]. unfold mbind, M_bind. cbn [Console.print].
    rewrite IH. unfold console. cbn. now rewrite <- app_assoc.
Qed.

Lemma index_list_In l i v : index_list l i = Ok v -> In v l.
Proof.
  unfold index_list.
  destruct ((_ <? 0) || (_ <=? _)); [discriminate|].
  destruct (l !! _) as [x|] eqn:E; [|discriminate].
  intros [= <-]. apply list_elem_of_In. now apply list_elem_of_lookup_2 in E.
Qed.

(** The sole factor is chosen without a word to the user; with no factor
    at all the choice fails with [IndexError]. *)
Theorem select_auth_factor_without_choice (factor : json) (w : world) :
  select_auth_factor (JArr [factor]) w = (Ok factor, w)
  /\ select_auth_factor (JArr []) w = (Raise IndexError, w).
Proof. split; reflexivity. Qed.

(** With several factors the user sees them numbered from 0 and the
    prompt, and the answer is used as a Python index: the factor at that
    place, counting from the end when negative, [IndexError] outside the
    list. Whatever is returned is one of the factors offered. *)
Theorem select_auth_factor_choice (factors : list json) (line : string) (rest : list string)
    (i : Z) (w : world) :
  (1 < length factors)%nat ->
  stdin w = line :: rest ->
  int_of_str line = Ok i ->
  select_auth_factor (JArr factors) w
  = (index_list factors i,
     console w rest (factor_lines 0 factors ++ ["Select factor: "]))
  /\ (forall v, index_list factors i = Ok v -> In v factors)
  /\ (0 <= i < Z.of_nat (length factors) -> index_list factors i = index_list factors (i - Z.of_nat (length factors)))
  /\ (Z.of_nat (length factors) <= i -> index_list factors i = Raise IndexError).
Proof.
  intros Hlen Hin Hint. split; [|split; [|split]].
  - unfold select_auth_factor. cbn [len]. run_M.
    assert (Hlt : (1 <? Z.of_nat (length factors)) = true) by (apply Z.ltb_lt; lia).
    rewrite Hlt. cbn [iter]. rewrite print_factors_lines.
    unfold Console.input. cbn [stdin console]. rewrite Hin, Hint.
    cbn [getindex]. unfold console. cbn. now rewrite <- app_assoc.
  - intros v. apply index_list_In.
  - intros Hi. unfold index_list.
    assert (E1 : (i <? 0) = false) by (apply Z.ltb_ge; lia).
    assert (E2 : (i - Z.of_nat (length factors) <? 0) = true) by (apply Z.ltb_lt; lia).
    rewrite E1, E2. now replace (i - Z.of_nat (length factors) + Z.of_nat (length factors)) with i by lia.
  - intros Hi. unfold index_list.
    assert (E1 : (i <? 0) = false) by (apply Z.ltb_ge; lia).
    assert (E2 : (Z.of_nat (length factors) <=? i) = true) by (apply Z.leb_le; lia).
    rewrite E1, E2. now rewrite orb_true_r.
Qed.

End SelectFactor.

Section SelectFactorExamples.
#[local] Existing Instance Example.pylib.

Lemma select_auth_factor_choice_witness :
  select_auth_factor (JArr [JStr "email"; JStr "sms"]) Example.typing_world
  = (Ok (JStr "sms"), Example.typing_world_selected)
  /\ In (JStr "sms") [JStr "email"; JStr "sms"].
Proof.
  destruct (select_auth_factor_choice [JStr "email"; JStr "sms"] "1" ["123456"] 1
              Example.typing_world) as (Hsel & Hin & _); try reflexivity.
  { cbn. lia. }
  split; [exact Hsel | apply Hin; reflexivity].
Defined.

End SelectFactorExamples.

(** ** More on the resolution loop *)

(** A status whose state is none of the five the loop knows makes the
    pass do nothing but fetch the status; while the handler keeps reporting
    it the loop never ends, whatever the bound. *)
Theorem unknown_state_never_ends {handlers : AuthHandler} (context : Context)
    (h : auth_handler) (state : string) (status : json) :
  reports h state status ->
  ~ In state known_states ->
  (forall s, _gdk_resolve_body context h s
             = (Ok (Continue h), advanced s [GetStatus] (run_world s)))
  /\ (forall fuel s, _gdk_resolve_loop fuel context h s = None).
Proof.
  intros Hr Hstate.
  assert (Hbody : forall s, _gdk_resolve_body context h s
                            = (Ok (Continue h), advanced s [GetStatus] (run_world s))).
  { intros s. rewrite (body_state context h state status s Hr).
    unfold eq_str.
    assert (Hne : forall k, In k known_states -> String.eqb state k = false).
    { intros k Hk. apply String.eqb_neq. intros ->. contradiction. }
    rewrite !Hne by (cbn; auto 10). reflexivity. }
  split; [exact Hbody|].
  induction fuel as [|fuel IH]; intros s; [reflexivity|].
  now rewrite (loop_continue context fuel h s h _ (Hbody s)).
Qed.

Lemma unknown_state_never_ends_witness :
  _gdk_resolve_loop (handlers := Example.stuck Example.status_paused) 1000
    Example.wally_context tt {| calls := []; run_world := Example.empty_world |}
  = None.
Proof.
  apply (unknown_state_never_ends (handlers := Example.stuck Example.status_paused)
           Example.wally_context tt "paused" Example.status_paused).
  - split; reflexivity.
  - cbn. intros H. repeat (destruct H as [H|H]; [discriminate H|]). exact H.
Defined.

(** With the console resolver, a [request_code] status that offers no
    method ends the loop with [IndexError]; no code is requested from the
    backend. *)
Theorem request_code_without_methods
    {pylib : PyLib} {handlers : AuthHandler} {wally : Wally} {hwi : Hwi}
    (a : authenticator) (h : auth_handler) (status : json) (s : run) :
  reports h "request_code" status ->
  getitem status "methods" = Ok (JArr []) ->
  forall fuel,
    _gdk_resolve_loop (S fuel) (make_context a) h s
    = Some (Raise IndexError,
            advanced s [GetStatus; SelectAuthFactor (JArr [])] (run_world s)).
Proof.
  intros Hr Hm fuel. apply loop_raise.
  rewrite (body_state _ _ _ _ _ Hr).
  cbn [eq_str String.eqb Ascii.eqb Bool.eqb]. cbv beta iota.
  rewrite (T_bind_ok _ _ _ _ _ (pure_ok _ _ _ Hm)).
  rewrite (T_bind_ok _ _ _ _ _ (record_advanced _ _ _ _)).
  erewrite T_bind_raise; [reflexivity|].
  now apply in_world_advanced.
Qed.

Lemma request_code_without_methods_witness :
  _gdk_resolve_loop (handlers := Example.scripted) 1
    Example.wally_context (Example.script [Example.status_no_methods; Example.status_done])
    {| calls := []; run_world := Example.typing_world |}
  = Some (Raise IndexError,
          {| calls := [GetStatus; SelectAuthFactor (JArr [])];
             run_world := Example.typing_world |}).
Proof.
  apply (request_code_without_methods (pylib := Example.pylib) (handlers := Example.scripted)
           (wally := Example.wally) (hwi := Example.hwi [])
           (IsWally "cfg") (Example.script [Example.status_no_methods; Example.status_done])
           Example.status_no_methods {| calls := []; run_world := Example.typing_world |}).
  - split; reflexivity.
  - reflexivity.
Defined.

(** ** Computations that only read *)

Section ReadOnly.

Lemma read_only_ret {A} (a : A) : read_only (mret a).
Proof. intros w. reflexivity. Qed.

Lemma read_only_lift {A} (r : res A) : read_only (lift r).
Proof. intros w. reflexivity. Qed.

Lemma read_only_raise {A} (e : exn) : read_only (@raise A e).
Proof. intros w. reflexivity. Qed.

Lemma read_only_bind {A B} (m : M A) (f : A -> M B) :
  read_only m -> (forall a, read_only (f a)) -> read_only (m ≫= f).
Proof.
  intros Hm Hf w. unfold mbind, M_bind. specialize (Hm w).
  destruct (m w) as [[a|e] w1]; cbn in Hm; subst w1; [apply Hf | reflexivity].
Qed.

Lemma read_only_read path : read_only (Os.read path).
Proof. intros w. apply OsFacts.read_world. Qed.

Lemma read_only_mapM {A B} (f : A -> M B) l :
  (forall x, read_only (f x)) -> read_only (mapM f l).
Proof.
  intros Hf. induction l as [|x l IH]; [apply read_only_ret|].
  cbn [mapM]. apply read_only_bind; [apply Hf|]. intros y.
  apply read_only_bind; [exact IH|]. intros ys. apply read_only_ret.
Qed.

(** What a list of read-only computations returns, item by item. *)
Lemma mapM_items {A B} (f : A -> M B) l w ys :
  (forall x, read_only (f x)) ->
  fst (mapM f l w) = Ok ys ->
  Forall2 (fun x y => fst (f x w) = Ok y) l ys.
Proof.
  intros Hf. revert ys. induction l as [|x l IH]; intros ys.
  - cbn. intros [= <-]. constructor.
  - cbn [mapM]. unfold mbind at 1, M_bind.
    pose proof (Hf x w) as Hw.
    destruct (f x w) as [[y|e] w1] eqn:Ex; cbn in Hw; subst w1; [|discriminate].
    unfold mbind at 1, M_bind.
    destruct (mapM f l w) as [[ys'|e] w1] eqn:El; [|discriminate].
    cbn. intros [= <-]. constructor; [now rewrite Ex | now apply IH].
Qed.

End ReadOnly.

Create HintDb read_only discriminated.
#[export] Hint Resolve read_only_ret read_only_lift read_only_raise read_only_read : read_only.

(** Split a computation into its steps, closing the steps that only read. *)
Ltac read_only_steps :=
  repeat first
    [ assumption
    | solve [auto with read_only]
    | apply read_only_bind; [|intro]
    | match goal with
      | |- read_only (if ?b then _ else _) => destruct b
      | |- read_only (match ?x with _ => _ end) => destruct x
      end ].

(** ** The wally authenticator's operations *)

Section WallyOperations.
Context {pylib : PyLib} {wally : Wally} {hwi : Hwi}.
Variable config_dir : string.

Lemma master_key_read_only : read_only (master_key config_dir).
Proof. unfold master_key, _mnemonic. read_only_steps. Qed.

Lemma derive_key_read_only path : read_only (derive_key config_dir path).
Proof.
  unfold derive_key. pose proof master_key_read_only. read_only_steps; assumption.
Qed.

Lemma get_privkey_read_only path : read_only (get_privkey config_dir path).
Proof.
  unfold get_privkey. pose proof (derive_key_read_only path). read_only_steps; assumption.
Qed.

Lemma get_xpub_read_only path : read_only (WallyAuthenticator_get_xpub config_dir path).
Proof.
  unfold WallyAuthenticator_get_xpub. pose proof (derive_key_read_only path).
  read_only_steps; assumption.
Qed.

Lemma sign_message_read_only path message :
  read_only (WallyAuthenticator_sign_message config_dir path message).
Proof.
  unfold WallyAuthenticator_sign_message. pose proof (get_privkey_read_only path).
  read_only_steps; assumption.
Qed.

Lemma sign_input_read_only txdetails index utxo :
  read_only (sign_input config_dir txdetails index utxo).
Proof.
  unfold sign_input. pose proof get_privkey_read_only as Hp.
  read_only_steps; apply Hp.
Qed.

Lemma sign_inputs_read_only txdetails index utxos signatures :
  read_only (sign_inputs config_dir txdetails index utxos signatures).
Proof.
  revert index signatures. induction utxos as [|utxo rest IH]; intros index signatures.
  - apply read_only_ret.
  - cbn [sign_inputs]. apply read_only_bind; [apply sign_input_read_only|].
    intros sig. apply IH.
Qed.

Lemma sign_tx_read_only details : read_only (WallyAuthenticator_sign_tx config_dir details).
Proof.
  unfold WallyAuthenticator_sign_tx. pose proof sign_inputs_read_only as Hs.
  read_only_steps; apply Hs.
Qed.

Lemma resolve_read_only request : read_only (resolve (IsWally config_dir) request).
Proof.
  unfold resolve, HardwareDevice_resolve.
  pose proof get_xpub_read_only as Hx. pose proof sign_message_read_only as Hm.
  pose proof sign_tx_read_only as Ht.
  read_only_steps; try apply Hm; try apply Ht.
  apply read_only_mapM, Hx.
Qed.

End WallyOperations.

(** Deriving keys, exporting public keys, signing messages and signing
    transactions with the wally authenticator, and its [resolve] as a
    whole, only read: the files and the console are after the call what
    they were before, whether the call returns or raises. *)
Theorem wally_operations_only_read {pylib : PyLib} {wally : Wally} {hwi : Hwi}
    (config_dir : string) (path message details request : json) (w : world) :
  snd (derive_key config_dir path w) = w
  /\ snd (WallyAuthenticator_get_xpub config_dir path w) = w
  /\ snd (get_privkey config_dir path w) = w
  /\ snd (WallyAuthenticator_sign_message config_dir path message w) = w
  /\ snd (WallyAuthenticator_sign_tx config_dir details w) = w
  /\ snd (resolve (IsWally config_dir) request w) = w.
Proof.
  repeat split.
  - apply derive_key_read_only.
  - apply get_xpub_read_only.
  - apply get_privkey_read_only.
  - apply sign_message_read_only.
  - apply sign_tx_read_only.
  - apply resolve_read_only.
Qed.

(** Without a stored mnemonic every key operation of the wally
    authenticator fails with the [FileNotFoundError] of the mnemonic file,
    for every path, the empty one included. *)
Theorem wally_needs_stored_mnemonic {wally : Wally} (config_dir : string) (path : json)
    (w : world) :
  fs w !! mnemonic_filename config_dir = None ->
  let missing := FileNotFoundError (mnemonic_filename config_dir) in
  master_key config_dir w = (Raise missing, w)
  /\ derive_key config_dir path w = (Raise missing, w)
  /\ get_privkey config_dir path w = (Raise missing, w)
  /\ WallyAuthenticator_get_xpub config_dir path w = (Raise missing, w).
Proof.
  intros Hnone missing.
  assert (Hm : master_key config_dir w = (Raise missing, w)).
  { unfold master_key, _mnemonic. erewrite bind_raise; [reflexivity|].
    unfold Os.read. now rewrite Hnone. }
  assert (Hd : derive_key config_dir path w = (Raise missing, w)).
  { unfold derive_key. destruct (negb (truthy path)); [exact Hm|].
    now rewrite (bind_raise _ _ _ _ _ Hm). }
  repeat split; [exact Hm | exact Hd | |].
  - unfold get_privkey. now rewrite (bind_raise _ _ _ _ _ Hd).
  - unfold WallyAuthenticator_get_xpub. now rewrite (bind_raise _ _ _ _ _ Hd).
Qed.

Section SignTxReturns.
Context {wally : Wally}.
Variable config_dir : string.

Lemma sign_input_returns txdetails index utxo w sig w1 :
  sign_input config_dir txdetails index utxo w = (Ok sig, w1) ->
  witness_bearing utxo = true.
Proof.
  intros E. destruct (witness_bearing utxo) eqn:Hw; [reflexivity|].
  destruct (sign_input_non_witness config_dir txdetails index utxo w Hw) as [e He].
  rewrite He in E. discriminate E.
Qed.

Lemma sign_inputs_returns txdetails index utxos signatures w sigs w1 :
  sign_inputs config_dir txdetails index utxos signatures w = (Ok sigs, w1) ->
  Forall (fun utxo => witness_bearing utxo = true) utxos
  /\ exists new, sigs = (signatures ++ new)%list /\ length new = length utxos.
Proof.
  revert index signatures w. induction utxos as [|utxo rest IH]; intros index signatures w.
  - cbn. intros [= <- <-]. split; [constructor|]. exists []. now rewrite app_nil_r.
  - cbn [sign_inputs]. unfold mbind at 1, M_bind.
    destruct (sign_input config_dir txdetails index utxo w) as [[sig|e] w2] eqn:Es;
      [|discriminate].
    intros E. apply IH in E as (Hrest & new & -> & Hlen).
    split.
    + constructor; [now apply (sign_input_returns _ _ _ _ _ _ Es) | exact Hrest].
    + exists (sig :: new). rewrite <- app_assoc. split; [reflexivity | cbn; lia].
Qed.

End SignTxReturns.

(** When [sign_tx] returns, every input of the request was
    witness-bearing and the answer is the JSON object with one signature
    per input. *)
Theorem sign_tx_returns_one_signature_per_input {wally : Wally}
    (config_dir : string) (details txdetails : json) (utxos : list json)
    (answer : string) (w : world) :
  getitem details "transaction" = Ok txdetails ->
  input_list details = Ok utxos ->
  fst (WallyAuthenticator_sign_tx config_dir details w) = Ok answer ->
  Forall (fun utxo => witness_bearing utxo = true) utxos
  /\ exists signatures,
       answer = Str.dumps (JObj [("signatures", JArr signatures)])
       /\ length signatures = length utxos.
Proof.
  intros Htx Hl.
  rewrite (sign_tx_input_list config_dir details txdetails utxos w Htx Hl).
  unfold mbind at 1, M_bind.
  destruct (sign_inputs config_dir txdetails 0 utxos [] w) as [[sigs|e] w1] eqn:Es;
    [|discriminate].
  cbn. intros [= <-].
  apply sign_inputs_returns in Es as (Hall & new & -> & Hlen).
  split; [exact Hall|]. exists new. split; [reflexivity | exact Hlen].
Qed.

Section WallyExamples.
#[local] Existing Instance Example.pylib.
#[local] Existing Instance Example.wally.

Lemma wally_needs_stored_mnemonic_witness :
  master_key "cfg" Example.empty_world
  = (Raise (FileNotFoundError "cfg/mnemonic"), Example.empty_world)
  /\ WallyAuthenticator_get_xpub "cfg" (JArr [JInt 3; JInt 1]) Example.empty_world
     = (Raise (FileNotFoundError "cfg/mnemonic"), Example.empty_world).
Proof.
  destruct (wally_needs_stored_mnemonic "cfg" (JArr [JInt 3; JInt 1]) Example.empty_world)
    as (Hmaster & _ & _ & Hxpub); [reflexivity|].
  split; [exact Hmaster | exact Hxpub].
Defined.

Lemma sign_tx_returns_one_signature_per_input_witness :
  Forall (fun utxo => witness_bearing utxo = true) [Example.p2wsh_input; Example.p2wsh_input]
  /\ exists signatures,
       Str.dumps (JObj [("signatures", JArr [JStr "01070001"; JStr "01070101"])])
       = Str.dumps (JObj [("signatures", JArr signatures)])
       /\ length signatures = 2%nat.
Proof.
  apply (sign_tx_returns_one_signature_per_input "cfg"
           (Example.sign_request [Example.p2wsh_input; Example.p2wsh_input])
           (JObj [("transaction", JStr "0200000001");
                  ("used_utxos", JArr [Example.p2wsh_input; Example.p2wsh_input])])
           [Example.p2wsh_input; Example.p2wsh_input]
           (Str.dumps (JObj [("signatures", JArr [JStr "01070001"; JStr "01070101"])]))
           (Example.stored_world Example.bip39_vector)); reflexivity.
Defined.

End WallyExamples.

(** ** Device actions *)

Section DeviceActions.
Context {pylib : PyLib} {wally : Wally} {hwi : Hwi}.

(** The converse of [mapM_items]. *)
Lemma mapM_returns {A B} (f : A -> M B) l w ys :
  (forall x, read_only (f x)) ->
  Forall2 (fun x y => fst (f x w) = Ok y) l ys ->
  mapM f l w = (Ok ys, w).
Proof.
  intros Hf. induction 1 as [|x y l ys Hx Hrest IH]; [reflexivity|].
  cbn [mapM]. unfold mbind at 1, M_bind.
  pose proof (Hf x w) as Hw.
  destruct (f x w) as [[y'|e] w1]; cbn in Hx, Hw; [|discriminate]. subst w1.
  injection Hx as ->. unfold mbind at 1, M_bind.
  destruct (mapM f l w) as [[ys'|e] w1]; now inversion IH.
Qed.

End DeviceActions.

(** An action that is none of [get_xpubs], [sign_message], [sign_tx] is
    refused by both device-backed authenticators with a
    [NotImplementedError] that names the action; nothing is read, written
    or asked of the device. *)
Theorem resolve_unknown_action {pylib : PyLib} {wally : Wally} {hwi : Hwi}
    (a : authenticator) (n : string) (request details action : json) (w : world) :
  device_backed a = true ->
  name a = Ok n ->
  getitem request "required_data" = Ok details ->
  getitem details "action" = Ok action ->
  Forall (fun k => eq_str action k = false) known_actions ->
  resolve a request w
  = (Raise (NotImplementedError ("action = " ++ Str.dquote ++ str action ++ Str.dquote)), w).
Proof.
  intros Hd Hn Hr Ha Hk.
  inversion Hk as [|? ? H1 Hk1]; subst. inversion Hk1 as [|? ? H2 Hk2]; subst.
  inversion Hk2 as [|? ? H3 _]; subst.
  destruct a as [config_dir|config_dir|dev_details dev]; [discriminate Hd| |];
    unfold resolve, HardwareDevice_resolve; rewrite Hn; run_M;
    now rewrite Hr, Ha, H1, H2, H3.
Qed.

(** The hardware wallet variant never signs a transaction: a [sign_tx]
    action ends in [NotImplementedError] before the device is contacted,
    whatever the transaction. *)
Theorem hwi_never_signs_transactions {pylib : PyLib} {wally : Wally} {hwi : Hwi}
    (dev_details : json) (dev : hwi_client) (n : string) (request details : json)
    (w : world) :
  HWIDevice_name dev_details = Ok n ->
  getitem request "required_data" = Ok details ->
  getitem details "action" = Ok (JStr "sign_tx") ->
  resolve (IsHWI dev_details dev) request w
  = (Raise (NotImplementedError "hwi sign tx not implemented"), w).
Proof.
  intros Hn Hr Ha. unfold resolve, HardwareDevice_resolve. cbn [name]. rewrite Hn.
  run_M. now rewrite Hr, Ha.
Qed.

(** A [get_xpubs] action on the wally authenticator answers with the
    JSON object of the extended public keys of the requested paths, one
    per path and in the order of the request; it fails as soon as one path
    cannot be derived, and returns exactly when every path can. *)
Theorem resolve_get_xpubs_in_order {pylib : PyLib} {wally : Wally} {hwi : Hwi}
    (config_dir : string) (request details : json) (paths : list json) (w : world) :
  getitem request "required_data" = Ok details ->
  getitem details "action" = Ok (JStr "get_xpubs") ->
  getitem details "paths" = Ok (JArr paths) ->
  forall answer,
    fst (resolve (IsWally config_dir) request w) = Ok answer
    <-> exists xpubs,
          answer = Str.dumps (JObj [("xpubs", JArr xpubs)])
          /\ Forall2 (fun path xpub =>
                        fst (WallyAuthenticator_get_xpub config_dir path w) = Ok xpub)
               paths xpubs.
Proof.
  intros Hr Ha Hp answer.
  assert (E : resolve (IsWally config_dir) request w
              = (xpubs ← mapM (WallyAuthenticator_get_xpub config_dir) paths;
                 mret (Str.dumps (JObj [("xpubs", JArr xpubs)]))) w).
  { unfold resolve, HardwareDevice_resolve. cbn [name]. unfold WallyAuthenticator_name.
    rewrite (bind_lift (Ok "libwally software signer")).
    rewrite !bind_lift, Hr, bind_lift, Ha. cbn [eq_str String.eqb Ascii.eqb Bool.eqb].
    cbv beta iota. now rewrite bind_lift, Hp, bind_lift. }
  rewrite E. unfold mbind at 1, M_bind. split.
  - destruct (mapM (WallyAuthenticator_get_xpub config_dir) paths w)
      as [[xpubs|e] w1] eqn:Em; [|discriminate].
    cbn. intros [= <-]. exists xpubs. split; [reflexivity|].
    apply mapM_items; [apply get_xpub_read_only | exact (f_equal fst Em)].
  - intros (xpubs & -> & Hall).
    pose proof (mapM_returns _ _ _ _ (get_xpub_read_only config_dir) Hall) as Em.
    destruct (mapM (WallyAuthenticator_get_xpub config_dir) paths w) as [[ys|e] w1];
      now inversion Em.
Qed.

Section DeviceActionExamples.
#[local] Existing Instance Example.pylib.
#[local] Existing Instance Example.wally.
Import Example.

Lemma resolve_unknown_action_witness :
  resolve (hwi := Example.hwi [ledger]) (IsHWI (hwi := Example.hwi [ledger]) ledger JNull)
    status_blinding_key empty_world
  = (Raise (NotImplementedError
              ("action = " ++ Str.dquote ++ "get_master_blinding_key" ++ Str.dquote)),
     empty_world).
Proof.
  apply (resolve_unknown_action (hwi := Example.hwi [ledger])
           (IsHWI (hwi := Example.hwi [ledger]) ledger JNull) "ledger@0001:0007:00"
           status_blinding_key (JObj [("action", JStr "get_master_blinding_key")])
           (JStr "get_master_blinding_key") empty_world); try reflexivity.
  repeat constructor.
Defined.

Lemma hwi_never_signs_transactions_witness :
  resolve (hwi := Example.hwi [ledger]) (IsHWI (hwi := Example.hwi [ledger]) ledger JNull)
    status_sign_tx empty_world
  = (Raise (NotImplementedError "hwi sign tx not implemented"), empty_world).
Proof.
  apply (hwi_never_signs_transactions (hwi := Example.hwi [ledger]) ledger JNull
           "ledger@0001:0007:00" status_sign_tx (sign_request [p2wsh_input]) empty_world);
    reflexivity.
Defined.

Lemma resolve_get_xpubs_in_order_witness :
  exists xpubs,
    Str.dumps (JObj [("xpubs", JArr [JStr "xpub"; JStr "xpub/3/1"])])
    = Str.dumps (JObj [("xpubs", JArr xpubs)])
    /\ Forall2 (fun path xpub =>
                  fst (WallyAuthenticator_get_xpub "cfg" path typing_world) = Ok xpub)
         [JArr []; JArr [JInt 3; JInt 1]] xpubs.
Proof.
  apply (resolve_get_xpubs_in_order (hwi := Example.hwi []) "cfg" status_get_xpubs
           (JObj [("action", JStr "get_xpubs");
                  ("paths", JArr [JArr []; JArr [JInt 3; JInt 1]])])
           [JArr []; JArr [JInt 3; JInt 1]] typing_world); reflexivity.
Defined.

End DeviceActionExamples.

(** ** Logging in with the default authenticator *)

Section DefaultLogin.
Context {handlers : AuthHandler} {gdk : Gdk}.
Variables (config_dir : string) (session_obj : session).

Lemma login_pin_path w e :
  Os.read (mnemonic_filename config_dir) w = (Raise e, w) ->
  is_IOError e = true ->
  DefaultAuthenticator_login config_dir session_obj w
  = (pin_data ← try_except (Os.read (pin_data_filename config_dir)) is_IOError
                  (fun e => Console.print "Login failed, please call create" ;; raise e);
     pin ← Console.input "PIN: ";
     lift (gdk_login_with_pin session_obj pin pin_data) ;;
     mret None) w.
Proof.
  intros Hread He. unfold DefaultAuthenticator_login, try_except at 1.
  unfold Authenticator_login, SoftwareAuthenticator_hw_device,
    SoftwareAuthenticator_mnemonic, _mnemonic.
  unfold mbind at 1 2, M_bind. unfold mret at 1, M_ret.
  unfold mbind at 1, M_bind. rewrite Hread. now rewrite He.
Qed.

Lemma read_missing path w :
  fs w !! path = None -> Os.read path w = (Raise (FileNotFoundError path), w).
Proof. intros E. unfold Os.read. now rewrite E. Qed.

Lemma read_present path f w :
  fs w !! path = Some f -> Os.readable f = true -> Os.read path w = (Ok (Os.text f), w).
Proof. intros E Er. unfold Os.read, Os.may_read. now rewrite E, Er, orb_true_r. Qed.

End DefaultLogin.

(** With a readable mnemonic file the default authenticator logs in with
    the empty device descriptor, the stored phrase (the text of the file)
    and an empty password, and changes nothing; this as long as [gdk.login]
    does not itself raise an [IOError], which the [except] clause would take
    for a missing mnemonic. *)
Theorem default_login_passes_stored_mnemonic {handlers : AuthHandler} {gdk : Gdk}
    (config_dir : string) (session_obj : session) (f : file) (w : world) :
  fs w !! mnemonic_filename config_dir = Some f ->
  Os.readable f = true ->
  (forall e, gdk_login session_obj "{}" (Os.text f) "" = Raise e -> is_IOError e = false) ->
  DefaultAuthenticator_login config_dir session_obj w
  = (h ← gdk_login session_obj "{}" (Os.text f) ""; Ok (Some h), w).
Proof.
  intros Hf Hr Hio. unfold DefaultAuthenticator_login, try_except.
  unfold Authenticator_login, SoftwareAuthenticator_hw_device,
    SoftwareAuthenticator_mnemonic, SoftwareAuthenticator_password, _mnemonic.
  run_M. rewrite (read_present _ _ _ Hf Hr).
  change (Str.dumps (JObj [])) with "{}".
  destruct (gdk_login session_obj "{}" (Os.text f) "") as [h|e] eqn:El; [reflexivity|].
  now rewrite (Hio e eq_refl).
Qed.

(** Without a mnemonic file the default authenticator turns to the pin
    data: when that file is readable it asks for the PIN and calls
    [gdk.login_with_pin] with the line typed and the stored pin data, and
    the login returns [None]; when that file is missing too it prints
    "Login failed, please call create" and raises the [FileNotFoundError]
    of the pin data file. *)
Theorem default_login_without_mnemonic {handlers : AuthHandler} {gdk : Gdk}
    (config_dir : string) (session_obj : session) (w : world) :
  fs w !! mnemonic_filename config_dir = None ->
  (forall g pin rest,
     fs w !! pin_data_filename config_dir = Some g ->
     Os.readable g = true ->
     stdin w = pin :: rest ->
     DefaultAuthenticator_login config_dir session_obj w
     = (gdk_login_with_pin session_obj pin (Os.text g) ≫= fun _ => Ok None,
        console w rest ["PIN: "]))
  /\ (fs w !! pin_data_filename config_dir = None ->
      DefaultAuthenticator_login config_dir session_obj w
      = (Raise (FileNotFoundError (pin_data_filename config_dir)),
         console w (stdin w) ["Login failed, please call create" ++ Str.newline])).
Proof.
  intros Hnone.
  pose proof (login_pin_path config_dir session_obj w _ (read_missing _ _ Hnone) eq_refl)
    as Hpin.
  split.
  - intros g pin rest Hg Hr Hin. rewrite Hpin. unfold try_except.
    unfold mbind at 1, M_bind. rewrite (read_present _ _ _ Hg Hr).
    unfold mbind at 1, M_bind. unfold Console.input. rewrite Hin.
    run_M. unfold console.
    now destruct (gdk_login_with_pin session_obj pin (Os.text g)).
  - intros Hp. rewrite Hpin. unfold try_except.
    unfold mbind at 1, M_bind. rewrite (read_missing _ _ Hp). reflexivity.
Qed.

(** After [setpin] has returned, its write of the pin data having reached
    the file, the next login of the default authenticator takes the PIN: it
    calls [gdk.login_with_pin] with the line typed and the pin data
    [gdk.set_pin] returned, as a text mode reader gets it (the pin data
    file being readable). *)
Theorem login_after_setpin_uses_pin_data {handlers : AuthHandler} {gdk : Gdk}
    (config_dir : string) (session_obj : session) (pin device_id pin_data typed : string)
    (rest : list string) (w w' : world) :
  setpin config_dir session_obj pin device_id w = (Ok pin_data, w') ->
  takes w (pin_data_filename config_dir) pin_data ->
  (forall g, fs w' !! pin_data_filename config_dir = Some g -> Os.readable g = true) ->
  stdin w' = typed :: rest ->
  DefaultAuthenticator_login config_dir session_obj w'
  = (gdk_login_with_pin session_obj typed (Os.universal_newlines pin_data)
       ≫= fun _ => Ok None,
     console w' rest ["PIN: "]).
Proof.
  intros Hset Htakes Hreadable Hin.
  destruct (setpin_outcome config_dir session_obj pin device_id w)
    as [(e & He & _) | [(kept & m & He & _) | (mn & pd & m & _ & _ & Hr & Hfs)]];
    rewrite Hset in *; cbn [fst snd] in *; [discriminate He | discriminate He |].
  injection Hr as <-.
  unfold let_through in Hfs. unfold takes in Htakes. rewrite Htakes in Hfs.
  assert (Hmn : fs w' !! mnemonic_filename config_dir = None).
  { rewrite Hfs. unfold migrated. apply lookup_delete_eq. }
  assert (Hpd : fs w' !! pin_data_filename config_dir = Some (File pin_data m)).
  { rewrite Hfs. unfold migrated.
    rewrite lookup_delete_ne by apply filenames_distinct. apply lookup_insert_eq. }
  destruct (default_login_without_mnemonic config_dir session_obj w' Hmn) as [Hpin _].
  apply (Hpin (File pin_data m) typed rest Hpd (Hreadable _ Hpd) Hin).
Qed.

Section DefaultLoginExamples.
#[local] Existing Instance Example.scripted.
#[local] Existing Instance Example.gdk.
Import Example.

Lemma default_login_passes_stored_mnemonic_witness :
  DefaultAuthenticator_login "cfg" the_session (stored_world bip39_vector)
  = (Ok (Some (script [JObj [("status", JStr "done");
                            ("result", JArr [JStr "{}"; JStr bip39_vector; JStr ""]);
                            ("device", JObj [])]])),
     stored_world bip39_vector).
Proof.
  apply (default_login_passes_stored_mnemonic "cfg" the_session
           (File bip39_vector Os.S_IRUSR) (stored_world bip39_vector)); try reflexivity.
  intros e He. discriminate He.
Defined.

Lemma default_login_without_mnemonic_witness :
  DefaultAuthenticator_login "cfg" the_session pin_world
  = (Ok None, console pin_world [] ["PIN: "])
  /\ DefaultAuthenticator_login "cfg" the_session empty_world
     = (Raise (FileNotFoundError "cfg/pin_data"),
        console empty_world [] ["Login failed, please call create" ++ Str.newline]).
Proof.
  destruct (default_login_without_mnemonic "cfg" the_session pin_world eq_refl)
    as [Hpin _].
  destruct (default_login_without_mnemonic "cfg" the_session empty_world eq_refl)
    as [_ Hnone].
  split.
  - apply (Hpin (File "pin_data:device" 420) "1234" []); reflexivity.
  - apply Hnone. reflexivity.
Defined.

Lemma login_after_setpin_uses_pin_data_witness :
  let w' := snd (setpin "cfg" the_session "1234" "device" migrating_world) in
  DefaultAuthenticator_login "cfg" the_session w'
  = (Ok None, console w' [] ["PIN: "]).
Proof.
  intros w'.
  apply (login_after_setpin_uses_pin_data "cfg" the_session "1234" "device"
           "pin_data:device" "1234" [] migrating_world w').
  - reflexivity.
  - reflexivity.
  - intros g Hg. vm_compute in Hg. injection Hg as <-. reflexivity.
  - reflexivity.
Defined.

End DefaultLoginExamples.

(** ** Creating a wallet *)

(** [create] never replaces a stored mnemonic: with a write-protected
    mnemonic file in place, the software and the wally authenticator both
    refuse, nothing is registered and nothing changes. *)
Theorem create_keeps_stored_mnemonic
    {pylib : PyLib} {handlers : AuthHandler} {gdk : Gdk} {mnemonics : GdkMnemonic}
    {wally : Wally} {hwi : Hwi}
    (config_dir : string) (session_obj : session) (generated : string) (w : world) :
  gdk_generate_mnemonic = Ok generated ->
  protected w (mnemonic_filename config_dir) ->
  let refused :=
    (Raise (ClickException (refusing_to_overwrite (mnemonic_filename config_dir))), w) in
  create (IsDefault config_dir) session_obj w = refused
  /\ create (IsWally config_dir) session_obj w = refused.
Proof.
  intros Hgen Hp refused.
  split; unfold create, SoftwareAuthenticator_create, WallyAuthenticator_create;
    rewrite Hgen, bind_lift;
    now rewrite (bind_raise _ _ _ _ _ (setter_protected config_dir generated w Hp)).
Qed.

(** On a configuration without a write-protected mnemonic file, the
    write reaching the file, [create] stores the generated phrase,
    read-only, and then registers: the software authenticator with the
    phrase read back from the file (in text mode), the wally authenticator
    with its device descriptor and an empty phrase. The phrase is stored
    whether the registration succeeds or not. *)
Theorem create_stores_then_registers
    {pylib : PyLib} {handlers : AuthHandler} {gdk : Gdk} {mnemonics : GdkMnemonic}
    {wally : Wally} {hwi : Hwi}
    (config_dir : string) (session_obj : session) (generated : string) (w : world) :
  gdk_generate_mnemonic = Ok generated ->
  unprotected w (mnemonic_filename config_dir) ->
  takes w (mnemonic_filename config_dir) generated ->
  create (IsDefault config_dir) session_obj w
  = (gdk_register_user session_obj "{}" (Os.universal_newlines generated),
     stored config_dir w generated)
  /\ create (IsWally config_dir) session_obj w
     = (gdk_register_user session_obj
          (Str.dumps (device_descriptor "libwally software signer")) "",
        stored config_dir w generated).
Proof.
  intros Hgen Hu Ht.
  split; unfold create, SoftwareAuthenticator_create, WallyAuthenticator_create;
    rewrite Hgen, bind_lift;
    rewrite (bind_ok _ _ _ _ _ (setter_unprotected config_dir generated w Hu Ht));
    unfold Authenticator_register.
  - unfold SoftwareAuthenticator_hw_device, SoftwareAuthenticator_mnemonic.
    unfold mbind at 1, M_bind. unfold mret at 1, M_ret.
    now rewrite (bind_ok _ _ _ _ _ (stored_getter config_dir w generated)).
  - reflexivity.
Qed.

Section CreateExamples.
#[local] Existing Instance Example.pylib.
#[local] Existing Instance Example.scripted.
#[local] Existing Instance Example.gdk.
#[local] Existing Instance Example.mnemonics.
#[local] Existing Instance Example.wally.
Import Example.

Lemma create_keeps_stored_mnemonic_witness :
  create (hwi := Example.hwi []) (IsDefault "cfg") the_session (stored_world old_vector)
  = (Raise (ClickException (refusing_to_overwrite "cfg/mnemonic")), stored_world old_vector)
  /\ create (hwi := Example.hwi []) (IsWally "cfg") the_session (stored_world old_vector)
     = (Raise (ClickException (refusing_to_overwrite "cfg/mnemonic")),
        stored_world old_vector).
Proof.
  apply (create_keeps_stored_mnemonic (hwi := Example.hwi []) "cfg" the_session
           bip39_vector (stored_world old_vector)); [reflexivity|].
  exists (File old_vector Os.S_IRUSR). split; reflexivity.
Defined.

Lemma create_stores_then_registers_witness :
  create (hwi := Example.hwi []) (IsDefault "cfg") the_session empty_world
  = (gdk_register_user the_session "{}" bip39_vector, stored_world bip39_vector)
  /\ create (hwi := Example.hwi []) (IsWally "cfg") the_session empty_world
     = (gdk_register_user the_session
          (Str.dumps (device_descriptor "libwally software signer")) "",
        stored_world bip39_vector).
Proof.
  apply (create_stores_then_registers (hwi := Example.hwi []) "cfg" the_session
           bip39_vector empty_world); [reflexivity| |reflexivity].
  intros f Hf. vm_compute in Hf. discriminate Hf.
Defined.

End CreateExamples.

(** ** The setmnemonic command *)

(** The argument of the command is the name of a file when a readable
    file has that name, and then the content of the file is the phrase
    (the newline translation of the reader changes whitespace only, which
    [setmnemonic] normalises); it is the phrase itself when no file has
    that name or the process may not read the file; and [-] stands for all
    of the standard input. *)
Theorem setmnemonic_command_phrase_source
    {pylib : PyLib} {handlers : AuthHandler} {gdk : Gdk} {wally : Wally} {hwi : Hwi}
    (config_dir : string) (argument : string) (w : world) :
  let run := setmnemonic_command (IsDefault config_dir) in
  (argument <> "-" ->
   forall f, fs w !! argument = Some f -> Os.readable f = true ->
             run argument w = setmnemonic config_dir (content f) w)
  /\ (argument <> "-" ->
      (fs w !! argument = None
       \/ exists f, fs w !! argument = Some f /\ Os.may_read w f = false) ->
      run argument w = setmnemonic config_dir argument w)
  /\ run "-" w
     = setmnemonic config_dir
         (Str.join "" (List.map (fun line => line ++ Str.newline) (stdin w)))
         (console w [] []).
Proof.
  intros run. subst run. unfold setmnemonic_command, authenticator_setmnemonic.
  split; [|split].
  - intros Hne f Hf Hr. apply String.eqb_neq in Hne. rewrite Hne.
    erewrite bind_ok; cycle 1.
    { unfold try_except. now rewrite (read_present _ _ _ Hf Hr). }
    unfold setmnemonic, Os.text. fold (normalize (Os.universal_newlines (content f))).
    fold (normalize (content f)). now rewrite normalize_universal_newlines.
  - intros Hne Hcase. apply String.eqb_neq in Hne. rewrite Hne.
    erewrite bind_ok; [reflexivity|].
    unfold try_except, Os.read.
    destruct Hcase as [Hnone | (f & Hf & Hr)]; [now rewrite Hnone | now rewrite Hf, Hr].
  - cbn [String.eqb Ascii.eqb Bool.eqb]. cbv beta iota.
    erewrite bind_ok; [reflexivity|].
    unfold stdin_read, console. now rewrite app_nil_r.
Qed.

(** The wally and the hardware authenticator have no [setmnemonic]: the
    command fails with [AttributeError] on them and stores nothing. *)
Theorem setmnemonic_command_needs_software_authenticator
    {pylib : PyLib} {handlers : AuthHandler} {gdk : Gdk} {wally : Wally} {hwi : Hwi}
    (a : authenticator) (argument : string) (w : world) :
  device_backed a = true ->
  fst (setmnemonic_command a argument w) = Raise (AttributeError "setmnemonic")
  /\ fs (snd (setmnemonic_command a argument w)) = fs w.
Proof.
  intros Hd. unfold setmnemonic_command.
  assert (Ha : authenticator_setmnemonic a = fun _ => raise (AttributeError "setmnemonic")).
  { destruct a; [discriminate Hd| |]; reflexivity. }
  rewrite Ha. clear Ha Hd. run_M.
  destruct (String.eqb argument "-").
  - split; reflexivity.
  - unfold try_except, Os.read.
    destruct (fs w !! argument) as [f|]; [destruct (Os.may_read w f)|]; split; reflexivity.
Qed.

Section SetMnemonicCommandExamples.
#[local] Existing Instance Example.pylib.
#[local] Existing Instance Example.scripted.
#[local] Existing Instance Example.gdk.
#[local] Existing Instance Example.wally.
Import Example.

Lemma setmnemonic_command_phrase_source_witness :
  setmnemonic_command (hwi := Example.hwi []) (IsDefault "cfg") "seed.txt" seed_file_world
  = setmnemonic "cfg" (bip39_vector ++ Str.newline) seed_file_world
  /\ setmnemonic_command (hwi := Example.hwi []) (IsDefault "cfg") bip39_vector empty_world
     = setmnemonic "cfg" bip39_vector empty_world.
Proof.
  destruct (setmnemonic_command_phrase_source (hwi := Example.hwi []) "cfg" "seed.txt"
              seed_file_world) as (Hfile & _ & _).
  destruct (setmnemonic_command_phrase_source (hwi := Example.hwi []) "cfg" bip39_vector
              empty_world) as (_ & Hphrase & _).
  split.
  - apply (Hfile ltac:(discriminate) (File (bip39_vector ++ Str.newline) 420));
      reflexivity.
  - apply Hphrase; [discriminate | left; reflexivity].
Defined.

Example setmnemonic_command_from_file :
  fst (setmnemonic_command (hwi := Example.hwi []) (IsDefault "cfg") "seed.txt"
         seed_file_world) = Ok tt
  /\ fs (snd (setmnemonic_command (hwi := Example.hwi []) (IsDefault "cfg") "seed.txt"
                seed_file_world)) !! "cfg/mnemonic"
     = Some (File bip39_vector Os.S_IRUSR).
Proof. split; reflexivity. Qed.

Lemma setmnemonic_command_needs_software_authenticator_witness :
  fst (setmnemonic_command (hwi := Example.hwi []) (IsWally "cfg") bip39_vector empty_world)
  = Raise (AttributeError "setmnemonic")
  /\ fs (snd (setmnemonic_command (hwi := Example.hwi []) (IsWally "cfg") bip39_vector
                empty_world)) = fs empty_world.
Proof.
  apply (setmnemonic_command_needs_software_authenticator (hwi := Example.hwi [])
           (IsWally "cfg") bip39_vector empty_world). reflexivity.
Defined.

End SetMnemonicCommandExamples.

(** ** Logging in before a command *)

(** A command wrapped in [with_login]: once the session is logged in, the
    command runs at once, with no login and no call to the backend. The
    session is left not logged in only when it was not and the login or its
    resolution raised, in which case that error is the outcome and the
    command has not run; so a value returned always comes with a logged-in
    session. *)
Theorem with_login_marks_successful_logins
    {pylib : PyLib} {handlers : AuthHandler} {gdk : Gdk} {wally : Wally} {hwi : Hwi}
    {A : Type} (fuel : nat) (a : authenticator) (session_obj : session) (fn : M A)
    (logged_in : bool) (w : world) (r : res A) (flag : bool) (w' : world) :
  with_login fuel a session_obj fn logged_in w = Some (r, flag, w') ->
  (logged_in = true -> fn w = (r, w') /\ flag = true)
  /\ (flag = false ->
      logged_in = false
      /\ exists e, r = Raise e
         /\ (login a session_obj w = (Raise e, w')
             \/ exists h w1 s, login a session_obj w = (Ok (Some h), w1)
                  /\ _gdk_resolve fuel (make_context a) h w1 = Some (Raise e, s)
                  /\ w' = run_world s))
  /\ (forall v, r = Ok v -> flag = true).
Proof.
  unfold with_login. intros E.
  assert (Hflag : flag = false ->
      logged_in = false
      /\ exists e, r = Raise e
         /\ (login a session_obj w = (Raise e, w')
             \/ exists h w1 s, login a session_obj w = (Ok (Some h), w1)
                  /\ _gdk_resolve fuel (make_context a) h w1 = Some (Raise e, s)
                  /\ w' = run_world s)).
  { intros ->. destruct logged_in.
    - destruct (fn w); discriminate E.
    - split; [reflexivity|].
      destruct (login a session_obj w) as [[[h|]|e] w1] eqn:El.
      + destruct (_gdk_resolve fuel (make_context a) h w1) as [[[v|e] s]|] eqn:Er;
          [destruct (fn (run_world s)); discriminate E | | discriminate E].
        injection E as <- <-. exists e. split; [reflexivity|]. right. now exists h, w1, s.
      + destruct (fn w1); discriminate E.
      + injection E as <- <-. exists e. split; [reflexivity|]. now left. }
  split; [|split; [exact Hflag|]].
  - intros ->. destruct (fn w) as [r0 w0]. now injection E as <- <- <-.
  - intros v ->. destruct flag; [reflexivity|].
    destruct (Hflag eq_refl) as (_ & e & He & _). discriminate He.
Qed.

Section WithLoginExamples.
#[local] Existing Instance Example.pylib.
#[local] Existing Instance Example.scripted.
#[local] Existing Instance Example.gdk.
#[local] Existing Instance Example.wally.
Import Example.

Lemma with_login_marks_successful_logins_witness :
  with_login (hwi := Example.hwi []) 1 (IsWally "cfg") the_session
    (_mnemonic "cfg") false (stored_world bip39_vector)
  = Some (Ok bip39_vector, true, stored_world bip39_vector)
  /\ (_mnemonic "cfg" (stored_world bip39_vector)
      = (Ok bip39_vector, stored_world bip39_vector) /\ true = true).
Proof.
  split; [reflexivity|].
  destruct (with_login_marks_successful_logins (hwi := Example.hwi []) 7 (IsWally "cfg")
              the_session (_mnemonic "cfg") true (stored_world bip39_vector)
              (Ok bip39_vector) true (stored_world bip39_vector) eq_refl) as (Hin & _ & _).
  apply Hin. reflexivity.
Defined.

End WithLoginExamples.

(** ** Printing a result *)

Section FormatOutput.

Lemma escape_char_plain c : plain_char c = true -> Str.escape_char c = String c "".
Proof.
  unfold plain_char, Str.escape_char. set (n := Str.code c). intros H.
  repeat (apply andb_prop in H as [H ?]).
  apply N.leb_le in H. 
  repeat match goal with
         | H : negb _ = true |- _ => apply negb_true_iff, N.eqb_neq in H
         | H : (_ <=? _)%N = true |- _ => apply N.leb_le in H
         end.
  assert (E34 : (n =? 34)%N = false) by now apply N.eqb_neq.
  assert (E92 : (n =? 92)%N = false) by now apply N.eqb_neq.
  assert (E10 : (n =? 10)%N = false) by (apply N.eqb_neq; lia).
  assert (E13 : (n =? 13)%N = false) by (apply N.eqb_neq; lia).
  assert (E9 : (n =? 9)%N = false) by (apply N.eqb_neq; lia).
  assert (E8 : (n =? 8)%N = false) by (apply N.eqb_neq; lia).
  assert (E12 : (n =? 12)%N = false) by (apply N.eqb_neq; lia).
  assert (E32 : (32 <=? n)%N = true) by (apply N.leb_le; lia).
  assert (E126 : (n <=? 126)%N = true) by (apply N.leb_le; lia).
  now rewrite E34, E92, E10, E13, E9, E8, E12, E32, E126.
Qed.

Lemma escape_plain s : plain s = true -> Str.escape s = s.
Proof.
  induction s as [|c s IH]; [reflexivity|]. cbn [plain Str.escape].
  intros H. apply andb_prop in H as [Hc Hs]. now rewrite (escape_char_plain c Hc), IH.
Qed.

Lemma plain_free_of_quote s : plain s = true -> free_of "034"%char s = true.
Proof.
  induction s as [|c s IH]; [reflexivity|]. cbn [plain free_of].
  intros H. apply andb_prop in H as [Hc Hs]. rewrite (IH Hs), andb_true_r.
  unfold plain_char in Hc. repeat (apply andb_prop in Hc as [Hc ?]).
  destruct (Ascii.eqb c "034") eqn:E; [|reflexivity].
  apply Ascii.eqb_eq in E. subst c. discriminate.
Qed.

Lemma lstrip_free c s t :
  free_of c s = true -> s <> "" -> lstrip c (s ++ t) = s ++ t.
Proof.
  destruct s as [|a s]; [contradiction|]. intros H _.
  change (String a s ++ t) with (String a (s ++ t)).
  cbn [free_of] in H. cbn [lstrip].
  apply andb_prop in H as [Ha _]. apply negb_true_iff in Ha. now rewrite Ha.
Qed.

Lemma rstrip_free c s : free_of c s = true -> rstrip c s = s.
Proof.
  induction s as [|a s IH]; [reflexivity|]. cbn [free_of rstrip].
  intros H. apply andb_prop in H as [Ha Hs]. apply negb_true_iff in Ha.
  rewrite (IH Hs). destruct s; [now rewrite Ha | reflexivity].
Qed.

Lemma rstrip_last c s : rstrip c (s ++ String c "") = rstrip c s.
Proof.
  induction s as [|a s IH].
  - change ("" ++ String c "") with (String c ""). cbn [rstrip].
    now rewrite Ascii.eqb_refl.
  - change (String a s ++ String c "") with (String a (s ++ String c "")).
    cbn [rstrip]. now rewrite IH.
Qed.

End FormatOutput.

(** A result that is a string of printable ASCII characters other than
    the double quote and the backslash (an address, a transaction hash) is
    printed as it is, without quotes, in compact mode and in pretty mode. *)
Theorem _format_output_prints_plain_strings (compact : bool) (s : string) :
  plain s = true -> _format_output compact (JStr s) = s.
Proof.
  intros Hs. unfold _format_output, strip.
  assert (E : dumps_format compact 0 (JStr s) = String "034"%char (s ++ Str.dquote)).
  { cbn [dumps_format]. unfold Str.quote. now rewrite (escape_plain s Hs). }
  rewrite E. cbn [lstrip]. rewrite Ascii.eqb_refl.
  pose proof (plain_free_of_quote s Hs) as Hfree.
  destruct s as [|a s].
  - reflexivity.
  - rewrite (lstrip_free _ _ _ Hfree) by discriminate.
    unfold Str.dquote. rewrite rstrip_last. now apply rstrip_free.
Qed.

Lemma _format_output_prints_plain_strings_witness :
  _format_output true (JStr "2N5XyEfAXtVde7mv6idZDXp5NFwajYEj9TD")
  = "2N5XyEfAXtVde7mv6idZDXp5NFwajYEj9TD"
  /\ _format_output false (JStr "2N5XyEfAXtVde7mv6idZDXp5NFwajYEj9TD")
     = "2N5XyEfAXtVde7mv6idZDXp5NFwajYEj9TD".
Proof.
  split; apply _format_output_prints_plain_strings; reflexivity.
Defined.

Example _format_output_modes :
  _format_output true (JObj [("satoshi", JInt 5000); ("ids", JArr [JInt 1; JInt 2])])
  = "{" ++ Str.dquote ++ "satoshi" ++ Str.dquote ++ ":5000,"
    ++ Str.dquote ++ "ids" ++ Str.dquote ++ ":[1,2]}"
  /\ _format_output false (JObj [("satoshi", JInt 5000); ("ids", JArr [JInt 1; JInt 2])])
     = "{" ++ Str.newline
       ++ "  " ++ Str.dquote ++ "satoshi" ++ Str.dquote ++ ": 5000," ++ Str.newline
       ++ "  " ++ Str.dquote ++ "ids" ++ Str.dquote ++ ": [" ++ Str.newline
       ++ "    1," ++ Str.newline
       ++ "    2" ++ Str.newline
       ++ "  ]" ++ Str.newline
       ++ "}".
Proof. split; reflexivity. Qed.

(** ** Collecting options into the details *)

Section Details.

Lemma assoc_dict_set_eq kvs k v : assoc k (dict_set kvs k v) = Some v.
Proof.
  induction kvs as [|[k' v'] kvs IH]; cbn [dict_set assoc].
  - now rewrite String.eqb_refl.
  - destruct (String.eqb k k') eqn:E; cbn [assoc]; rewrite E; [reflexivity | exact IH].
Qed.

Lemma assoc_dict_set_ne kvs k v k0 : k0 <> k -> assoc k0 (dict_set kvs k v) = assoc k0 kvs.
Proof.
  intros Hne. induction kvs as [|[k' v'] kvs IH]; cbn [dict_set assoc].
  - apply String.eqb_neq in Hne. now rewrite Hne.
  - destruct (String.eqb k k') eqn:E; cbn [assoc].
    + apply String.eqb_eq in E. subst k'. apply String.eqb_neq in Hne. now rewrite Hne.
    + destruct (String.eqb k0 k'); [reflexivity | exact IH].
Qed.

Lemma replace_char_idempotent a b s :
  a <> b -> replace_char a b (replace_char a b s) = replace_char a b s.
Proof.
  intros Hne. induction s as [|c s IH]; [reflexivity|]. cbn [replace_char]. rewrite IH.
  f_equal. destruct (Ascii.eqb c a) eqn:E; [|now rewrite E].
  assert (Hb : Ascii.eqb b a = false) by (apply Ascii.eqb_neq; congruence).
  now rewrite Hb.
Qed.

Lemma replace_char_free a b s : a <> b -> free_of a (replace_char a b s) = true.
Proof.
  intros Hne. induction s as [|c s IH]; [reflexivity|]. cbn [replace_char free_of].
  rewrite IH, andb_true_r. destruct (Ascii.eqb c a) eqn:E; [|now rewrite E].
  apply negb_true_iff, Ascii.eqb_neq. congruence.
Qed.

End Details.

(** An option given on the command line is recorded in the details under
    its name with the hyphens turned into underscores, so both spellings
    record the same entry and no key of the details has a hyphen; the value
    is then what is read back under that name, every other entry of the
    details and every other parameter is as before, and the callback
    returns the value. An option that was not given ([None]) changes
    nothing. *)
Theorem details_json_records_option (params : list (string * json)) (details : list (string * json))
    (param_name : string) (value : json) :
  value <> JNull ->
  (assoc "details" params = None /\ details = []
   \/ assoc "details" params = Some (JObj details)) ->
  let name := replace_char "-" "_" param_name in
  exists details',
    details_json params param_name value
    = (Ok value, dict_set (match assoc "details" params with
                           | Some _ => params
                           | None => dict_set params "details" (JObj [])
                           end) "details" (JObj details'))
    /\ assoc name details' = Some value
    /\ free_of "-" name = true
    /\ (forall k, k <> name -> assoc k details' = assoc k details)
    /\ (forall k, k <> "details" ->
                  assoc k (snd (details_json params param_name value)) = assoc k params)
    /\ details_json params name value = details_json params param_name value
    /\ details_json params param_name JNull = (Ok JNull, params).
Proof.
  intros Hvalue Hdetails name.
  assert (Hname : replace_char "-" "_" name = name)
    by (apply replace_char_idempotent; discriminate).
  exists (dict_set details name value).
  assert (E : forall n, replace_char "-" "_" n = name ->
              details_json params n value
              = (Ok value, dict_set (match assoc "details" params with
                                     | Some _ => params
                                     | None => dict_set params "details" (JObj [])
                                     end) "details" (JObj (dict_set details name value)))).
  { intros n Hn. unfold details_json. rewrite Hn.
    destruct Hdetails as [[Hnone ->] | Hsome].
    - rewrite Hnone, assoc_dict_set_eq. now destruct value.
    - rewrite Hsome, Hsome. now destruct value. }
  rewrite (E param_name eq_refl).
  repeat split.
  - apply assoc_dict_set_eq.
  - apply replace_char_free. discriminate.
  - intros k Hk. now apply assoc_dict_set_ne.
  - intros k Hk. cbn [snd]. rewrite assoc_dict_set_ne by exact Hk.
    destruct (assoc "details" params); [reflexivity | now apply assoc_dict_set_ne].
  - apply (E name Hname).
Qed.

Lemma details_json_records_option_witness :
  exists details',
    details_json [("details", JObj [("subaccount", JInt 0)])] "num-confs" (JInt 6)
    = (Ok (JInt 6), [("details", JObj details')])
    /\ assoc "num_confs" details' = Some (JInt 6)
    /\ assoc "subaccount" details' = Some (JInt 0).
Proof.
  destruct (details_json_records_option [("details", JObj [("subaccount", JInt 0)])]
              [("subaccount", JInt 0)] "num-confs" (JInt 6))
    as (details' & Hrun & Hread & _ & Hother & _); [discriminate | right; reflexivity |].
  exists details'. split; [exact Hrun|]. split; [exact Hread|].
  rewrite Hother by discriminate. reflexivity.
Defined.

(** ** Looking up a previous transaction *)

Section GetTransaction.

Lemma find_transaction_sound txid l t :
  find_transaction txid l = Ok t -> In t l /\ getitem t "txhash" = Ok (JStr txid).
Proof.
  induction l as [|u l IH]; cbn [find_transaction]; [discriminate|].
  destruct (getitem u "txhash") as [h|e] eqn:Eh; [|discriminate]. run_M.
  destruct (eq_str h txid) eqn:E.
  - intros [= <-]. split; [now left|].
    destruct h; try discriminate E. cbn in E. apply String.eqb_eq in E. now subst.
  - intros H. apply IH in H as [Hin Hh]. split; [now right | exact Hh].
Qed.

Lemma find_transaction_skips txid before rest :
  Forall (other_transaction txid) before ->
  find_transaction txid (before ++ rest) = find_transaction txid rest.
Proof.
  induction 1 as [|u before (h & Hh & Hne) _ IH]; [reflexivity|].
  cbn [app find_transaction]. rewrite Hh. run_M. now rewrite Hne.
Qed.

End GetTransaction.

(** [_get_transaction] returns the first transaction of the list whose
    [txhash] is the one asked for: what it returns is in the list and has
    that hash, transactions with another hash before it are passed over,
    and when every transaction has another hash the error is "Previous
    transaction not found". *)
Theorem _get_transaction_first_match (txid : string) (transactions : list json) :
  (forall t, _get_transaction (Ok (JArr transactions)) txid = Ok t ->
             In t transactions /\ getitem t "txhash" = Ok (JStr txid))
  /\ (forall before t after,
        transactions = (before ++ t :: after)%list ->
        Forall (other_transaction txid) before ->
        getitem t "txhash" = Ok (JStr txid) ->
        _get_transaction (Ok (JArr transactions)) txid = Ok t)
  /\ (Forall (other_transaction txid) transactions ->
      _get_transaction (Ok (JArr transactions)) txid
      = Raise (ClickException "Previous transaction not found")).
Proof.
  unfold _get_transaction. cbn [mbind res_bind iter]. split; [|split].
  - intros t. apply find_transaction_sound.
  - intros before t after -> Hbefore Ht.
    rewrite (find_transaction_skips _ _ _ Hbefore). cbn [find_transaction].
    rewrite Ht. run_M. cbn [eq_str]. now rewrite String.eqb_refl.
  - intros Hall. rewrite <- (app_nil_r transactions).
    now rewrite (find_transaction_skips _ _ _ Hall).
Qed.

Lemma _get_transaction_first_match_witness :
  _get_transaction
    (Ok (JArr [Example.transaction "aa11" 1000; Example.transaction "bb22" 2000;
               Example.transaction "bb22" 3000])) "bb22"
  = Ok (Example.transaction "bb22" 2000)
  /\ _get_transaction (Ok (JArr [Example.transaction "aa11" 1000])) "bb22"
     = Raise (ClickException "Previous transaction not found").
Proof.
  destruct (_get_transaction_first_match "bb22"
              [Example.transaction "aa11" 1000; Example.transaction "bb22" 2000;
               Example.transaction "bb22" 3000]) as (_ & Hfirst & _).
  destruct (_get_transaction_first_match "bb22" [Example.transaction "aa11" 1000])
    as (_ & _ & Hnone).
  split.
  - apply (Hfirst [Example.transaction "aa11" 1000] _ [Example.transaction "bb22" 3000]);
      [reflexivity | | reflexivity].
    constructor; [|constructor]. exists (JStr "aa11"). split; reflexivity.
  - apply Hnone. constructor; [|constructor]. exists (JStr "aa11"). split; reflexivity.
Defined.

(** ** Paths for the hardware wallet interface *)

Section PathStrings.
Context {pylib : PyLib}.

Local Abbreviation slash := ("/"%char).

Lemma pretty_N_go_free x s : free_of slash s = true -> free_of slash (pretty_N_go x s) = true.
Proof.
  revert s. induction (N.lt_wf_0 x) as [x _ IH]; intros s Hs.
  assert (x = 0 \/ 0 < x)%N as [->|Hx] by lia.
  - now rewrite pretty_N_go_0.
  - rewrite pretty_N_go_step by exact Hx. apply IH.
    + now apply N.div_lt.
    + cbn [free_of]. rewrite Hs, andb_true_r.
      unfold pretty_N_char. now repeat case_match.
Qed.

Lemma pretty_N_free (x : N) : free_of slash (pretty x) = true.
Proof.
  unfold pretty, pretty_N. case_decide; [reflexivity|]. now apply pretty_N_go_free.
Qed.

Lemma pretty_Z_free (z : Z) : free_of slash (pretty z) = true.
Proof.
  destruct z as [|p|p]; unfold pretty, pretty_Z; [reflexivity | apply pretty_N_free |].
  change ("-" +:+ pretty p) with (String "-" (pretty p)). cbn [free_of].
  unfold pretty, pretty_positive. now rewrite pretty_N_free.
Qed.

Lemma indices_free (p : list Z) :
  Forall (fun y => free_of slash y = true) (List.map pretty p).
Proof.
  induction p as [|z p IH]; constructor; [apply pretty_Z_free | exact IH].
Qed.

Lemma free_of_app_slash x s : free_of slash (x ++ String slash s) = false.
Proof.
  induction x as [|c x IH].
  - reflexivity.
  - change (String c x ++ String slash s) with (String c (x ++ String slash s)).
    cbn [free_of]. now rewrite IH, andb_false_r.
Qed.

Lemma split_at_slash x x' s s' :
  free_of slash x = true -> free_of slash x' = true ->
  x ++ String slash s = x' ++ String slash s' -> x = x' /\ s = s'.
Proof.
  revert x'. induction x as [|c x IH]; intros [|c' x'] Hx Hx' E.
  - now injection E.
  - injection E as <- _. discriminate Hx'.
  - injection E as -> _. discriminate Hx.
  - change (String c (x ++ String slash s) = String c' (x' ++ String slash s')) in E.
    injection E as <- E. cbn [free_of] in Hx, Hx'.
    apply andb_prop in Hx as [_ Hx]. apply andb_prop in Hx' as [_ Hx'].
    destruct (IH x' Hx Hx' E) as [-> ->]. now split.
Qed.

Lemma join_slash_cons x y l :
  Str.join "/" (x :: y :: l) = x ++ String slash (Str.join "/" (y :: l)).
Proof. reflexivity. Qed.

Lemma join_slash_inj x x' l l' :
  free_of slash x = true -> free_of slash x' = true ->
  Forall (fun y => free_of slash y = true) l ->
  Forall (fun y => free_of slash y = true) l' ->
  Str.join "/" (x :: l) = Str.join "/" (x' :: l') -> x = x' /\ l = l'.
Proof.
  intros Hx Hx' Hl. revert x x' Hx Hx' l'.
  induction Hl as [|y l Hy Hl IH]; intros x x' Hx Hx' l' Hl' E.
  - destruct l' as [|y' l'].
    + now split.
    + rewrite join_slash_cons in E. cbn [Str.join] in E. subst x.
      now rewrite free_of_app_slash in Hx.
  - destruct l' as [|y' l'].
    + rewrite join_slash_cons in E. cbn [Str.join] in E. subst x'.
      now rewrite free_of_app_slash in Hx'.
    + rewrite !join_slash_cons in E. inversion Hl' as [|? ? Hy' Hl'']; subst.
      destruct (split_at_slash _ _ _ _ Hx Hx' E) as [-> E'].
      destruct (IH y y' Hy Hy' l' Hl'' E') as [-> ->]. now split.
Qed.

Lemma _path_to_string_ints p :
  _path_to_string (path_of p) = Ok (Str.join "/" ("m" :: List.map pretty p)).
Proof.
  unfold _path_to_string, path_of. cbn [iter mbind res_bind].
  now rewrite List.map_map.
Qed.

Lemma join_slash_snoc x l y :
  Str.join "/" (x :: l ++ [y]) = Str.join "/" (x :: l) ++ "/" ++ y.
Proof.
  revert x. induction l as [|z l IH]; intros x; [reflexivity|].
  change ((z :: l) ++ [y])%list with (z :: (l ++ [y]))%list.
  rewrite !join_slash_cons, IH. now rewrite string_app_assoc.
Qed.

End PathStrings.

(** The string [_path_to_string] gives the hardware wallet interface for a
    path of ints is [m] followed by [/] and the decimal number of each
    index; it grows with the path, and two different paths never get the
    same string. *)
Theorem _path_to_string_unambiguous {pylib : PyLib} (p q : list Z) (i : Z) :
  _path_to_string (path_of []) = Ok "m"
  /\ _path_to_string (path_of (p ++ [i]))
     = (s ← _path_to_string (path_of p); Ok (s ++ "/" ++ pretty i))
  /\ (_path_to_string (path_of p) = _path_to_string (path_of q) -> p = q).
Proof.
  split; [reflexivity|]. split.
  - rewrite !_path_to_string_ints. cbn [mbind res_bind].
    rewrite List.map_app. cbn [List.map]. now rewrite join_slash_snoc.
  - rewrite !_path_to_string_ints. intros [= E].
    apply join_slash_inj in E as [_ E]; try reflexivity.
    + revert q E. induction p as [|a p IH]; intros [|b q] E; try discriminate E.
      * reflexivity.
      * cbn [List.map] in E. injection E as Ea E.
        apply (inj pretty) in Ea. subst b. f_equal. now apply IH.
    + apply indices_free.
    + apply indices_free.
Qed.

Section PathExamples.
#[local] Existing Instance Example.pylib.

Example _path_to_string_docstring :
  _path_to_string (path_of [1; 2; 3]) = Ok "m/1/2/3".
Proof. reflexivity. Qed.

Lemma _path_to_string_unambiguous_witness :
  _path_to_string (path_of [44; 0]) = _path_to_string (path_of [44; 0]) /\ [44; 0] = [44; 0].
Proof.
  split; [reflexivity|].
  destruct (_path_to_string_unambiguous [44; 0] [44; 0] 0) as (_ & _ & Hinj).
  apply Hinj. reflexivity.
Defined.

End PathExamples.

(** ** The hardware wallet variant *)

(** Signing a message with the hardware wallet: the two notices are on
    the console before the device is asked, whether it then answers or
    fails; of the signature the device returns, decoded from base64, the
    first byte is dropped and the rest is what is DER encoded. *)
Theorem hwi_sign_message_drops_header {pylib : PyLib} {wally : Wally} {hwi : Hwi}
    (details : json) (dev : hwi_client) (path message : json) (n path_string : string)
    (w : world) :
  HWIDevice_name details = Ok n ->
  _path_to_string path = Ok path_string ->
  let notified :=
    console w (stdin w)
      [("Signing with hardware device " ++ n) ++ Str.newline;
       "Please check the device for interaction" ++ Str.newline] in
  (forall e, hwi_signmessage dev message path_string = Raise e ->
             HWIDevice_sign_message details dev path message w = (Raise e, notified))
  /\ (forall answer signature header raw,
        hwi_signmessage dev message path_string = Ok answer ->
        getitem answer "signature" = Ok signature ->
        b64decode signature = Ok (header :: raw) ->
        HWIDevice_sign_message details dev path message w = (ec_sig_to_der raw, notified)).
Proof.
  intros Hn Hp notified. subst notified.
  assert (E : HWIDevice_sign_message details dev path message w
              = (r ← lift (hwi_signmessage dev message path_string);
                 signature ← lift (getitem r "signature");
                 raw ← lift (b64decode signature);
                 lift (ec_sig_to_der (tail raw)))
                  (console w (stdin w)
                     [("Signing with hardware device " ++ n) ++ Str.newline;
                      "Please check the device for interaction" ++ Str.newline])).
  { unfold HWIDevice_sign_message. rewrite Hp, Hn, !bind_lift.
    unfold mbind at 1, M_bind. cbn [Console.print].
    unfold mbind at 1, M_bind. cbn [Console.print].
    unfold console. cbn. now rewrite <- app_assoc. }
  rewrite E. split.
  - intros e He. now rewrite He.
  - intros answer signature header raw Ha Hs Hb.
    now rewrite Ha, bind_lift, Hs, bind_lift, Hb, bind_lift.
Qed.

(** Whenever [get_device] returns, exactly one device was enumerated, its
    description has no [error] entry, and the authenticator returned holds
    that description and the client [find_device] gave for its path. *)
Theorem get_device_returns_the_only_device {pylib : PyLib} {hwi : Hwi} (a : authenticator) :
  get_device = Ok a ->
  exists d path dev,
    hwi_enumerate = Ok [d]
    /\ contains d "error" = Ok false
    /\ getitem d "path" = Ok path
    /\ hwi_find_device path = Ok dev
    /\ a = IsHWI d dev.
Proof.
  unfold get_device. intros E.
  destruct hwi_enumerate as [devices|e] eqn:He; [|discriminate E].
  cbn [mbind res_bind] in E. destruct devices as [|d [|d' rest]]; try discriminate E.
  change (index_list [d] 0) with (Ok d) in E.
  cbn [length Nat.eqb Nat.ltb Nat.leb mbind res_bind] in E.
  destruct (contains d "error") as [[|]|e] eqn:Ec; cbn [mbind res_bind] in E.
  - destruct (getitem d "error"); discriminate E.
  - unfold HWIDevice_init in E.
    destruct (getitem d "path") as [path|e] eqn:Ep; [|discriminate E].
    cbn [mbind res_bind] in E.
    destruct (hwi_find_device path) as [dev|e] eqn:Ef; [|discriminate E].
    injection E as <-. now exists d, path, dev.
  - discriminate E.
Qed.

(** ** Registering *)

(** A device-backed authenticator registers with its device descriptor and
    an empty mnemonic, whatever is stored. The default authenticator
    registers with the stored mnemonic (the text of the file), and without
    a mnemonic file it fails with [FileNotFoundError] before anything is
    sent. *)
Theorem register_credentials
    {pylib : PyLib} {handlers : AuthHandler} {gdk : Gdk} {wally : Wally} {hwi : Hwi}
    (a : authenticator) (config_dir : string) (session_obj : session) (w : world) :
  (device_backed a = true ->
   register a session_obj w
   = (n ← name a; gdk_register_user session_obj (Str.dumps (device_descriptor n)) "", w))
  /\ (fs w !! mnemonic_filename config_dir = None ->
      register (IsDefault config_dir) session_obj w
      = (Raise (FileNotFoundError (mnemonic_filename config_dir)), w))
  /\ (forall f, fs w !! mnemonic_filename config_dir = Some f -> Os.readable f = true ->
                register (IsDefault config_dir) session_obj w
                = (gdk_register_user session_obj "{}" (Os.text f), w)).
Proof.
  split; [|split].
  - intros Hd. unfold register, Authenticator_register.
    destruct a as [cfg|cfg|details dev]; [discriminate Hd| |];
      unfold hw_device, mnemonic, HardwareDevice_hw_device, HardwareDevice_mnemonic;
      match goal with |- context [name ?a] => destruct (name a) as [n|e] end;
      reflexivity.
  - intros Hnone. unfold register, Authenticator_register, hw_device, mnemonic,
      SoftwareAuthenticator_hw_device, SoftwareAuthenticator_mnemonic, _mnemonic.
    unfold mbind at 1, M_bind. unfold mret at 1, M_ret.
    now rewrite (bind_raise _ _ _ _ _ (read_missing _ _ Hnone)).
  - intros f Hf Hr. unfold register, Authenticator_register, hw_device, mnemonic,
      SoftwareAuthenticator_hw_device, SoftwareAuthenticator_mnemonic, _mnemonic.
    unfold mbind at 1, M_bind. unfold mret at 1, M_ret.
    now rewrite (bind_ok _ _ _ _ _ (read_present _ _ _ Hf Hr)).
Qed.

(** ** The normalisation of a phrase *)

(** What [setmnemonic] makes of a phrase before it validates and stores
    it: the words of the phrase, none of them empty or with whitespace
    inside, joined by single spaces. Doing it again changes nothing, and
    words already joined by single spaces are left as they are. *)
Theorem normalize_is_canonical (s : string) (ws : list string) :
  Forall word (Str.split s)
  /\ normalize (normalize s) = normalize s
  /\ (Forall word ws -> normalize (Str.join " " ws) = Str.join " " ws)
  /\ (Forall word ws -> normalize s = Str.join " " ws -> Str.split s = ws).
Proof.
  split; [apply split_words|]. split; [apply normalize_idempotent|]. split.
  - intros Hws. unfold normalize. now rewrite (split_join ws Hws).
  - intros Hws E. rewrite <- (split_normalize s), E. now apply split_join.
Qed.

Section MoreExamples.
Import Example.

Lemma hwi_sign_message_drops_header_witness :
  HWIDevice_sign_message (pylib := pylib) (wally := wally) (hwi := Example.hwi [ledger])
    ledger JNull (JArr [JInt 1; JInt 2]) (JStr "hello") empty_world
  = (Raise (LibraryError "hwi" JNull),
     console empty_world []
       ["Signing with hardware device ledger@0001:0007:00" ++ Str.newline;
        "Please check the device for interaction" ++ Str.newline])
  /\ HWIDevice_sign_message (pylib := raw_pylib) (wally := wally) (hwi := signing_hwi)
       ledger JNull (JArr [JInt 1; JInt 2]) (JStr "hello") empty_world
     = (Ok (utf8_encode "m/1/2"),
        console empty_world []
          ["Signing with hardware device ledger@0001:0007:00" ++ Str.newline;
           "Please check the device for interaction" ++ Str.newline]).
Proof.
  destruct (hwi_sign_message_drops_header (pylib := pylib) (wally := wally)
              (hwi := Example.hwi [ledger]) ledger JNull (JArr [JInt 1; JInt 2])
              (JStr "hello") "ledger@0001:0007:00" "m/1/2" empty_world eq_refl eq_refl)
    as [Hfails _].
  destruct (hwi_sign_message_drops_header (pylib := raw_pylib) (wally := wally)
              (hwi := signing_hwi) ledger JNull (JArr [JInt 1; JInt 2])
              (JStr "hello") "ledger@0001:0007:00" "m/1/2" empty_world eq_refl eq_refl)
    as [_ Hsigns].
  split.
  - apply Hfails. reflexivity.
  - apply (Hsigns (JObj [("signature", JStr "Hm/1/2")]) (JStr "Hm/1/2")
             (byte_of_N 72) (utf8_encode "m/1/2")); reflexivity.
Defined.

Lemma get_device_returns_the_only_device_witness :
  exists d path dev,
    hwi_enumerate (Hwi := Example.hwi [ledger]) = Ok [d]
    /\ contains d "error" = Ok false
    /\ getitem d "path" = Ok path
    /\ hwi_find_device (Hwi := Example.hwi [ledger]) path = Ok dev
    /\ IsHWI (hwi := Example.hwi [ledger]) ledger (JStr "0001:0007:00")
       = IsHWI (hwi := Example.hwi [ledger]) d dev.
Proof.
  apply (get_device_returns_the_only_device (pylib := pylib) (hwi := Example.hwi [ledger])).
  reflexivity.
Defined.

Lemma register_credentials_witness :
  register (pylib := pylib) (gdk := gdk) (hwi := Example.hwi [])
    (IsWally "cfg") the_session (stored_world bip39_vector)
  = (gdk_register_user (Gdk := gdk) the_session
       (Str.dumps (device_descriptor "libwally software signer")) "",
     stored_world bip39_vector)
  /\ register (pylib := pylib) (gdk := gdk) (hwi := Example.hwi [])
       (IsDefault "cfg") the_session empty_world
     = (Raise (FileNotFoundError "cfg/mnemonic"), empty_world)
  /\ register (pylib := pylib) (gdk := gdk) (hwi := Example.hwi [])
       (IsDefault "cfg") the_session (stored_world bip39_vector)
     = (gdk_register_user (Gdk := gdk) the_session "{}" bip39_vector,
        stored_world bip39_vector).
Proof.
  destruct (register_credentials (pylib := pylib) (gdk := gdk) (wally := wally)
              (hwi := Example.hwi []) (IsWally "cfg") "cfg" the_session
              (stored_world bip39_vector)) as (Hdevice & _ & Hstored).
  destruct (register_credentials (pylib := pylib) (gdk := gdk) (wally := wally)
              (hwi := Example.hwi []) (IsWally "cfg") "cfg" the_session empty_world)
    as (_ & Hmissing & _).
  split; [|split].
  - apply Hdevice. reflexivity.
  - apply Hmissing. reflexivity.
  - apply (Hstored (File bip39_vector Os.S_IRUSR)); reflexivity.
Defined.

Lemma normalize_is_canonical_witness :
  normalize (Str.join " " ["legal"; "winner"; "thank"]) = Str.join " " ["legal"; "winner"; "thank"]
  /\ Str.split ("  legal winner" ++ Str.newline ++ "thank ") = ["legal"; "winner"; "thank"].
Proof.
  assert (Hws : Forall word ["legal"; "winner"; "thank"]).
  { repeat constructor; discriminate. }
  destruct (normalize_is_canonical ("  legal winner" ++ Str.newline ++ "thank ")
              ["legal"; "winner"; "thank"]) as (_ & _ & Hjoined & Hsplit).
  split; [apply Hjoined, Hws | apply Hsplit; [exact Hws | reflexivity]].
Defined.

End MoreExamples.
